(** * Content-block scaffolder: a shallow embedding of [scaffold.ts]

    The development follows the source file top to bottom: JavaScript
    strings and values, the outside world the script talks to (file
    system, console, interactive prompts), the class
    [ContentBlockScaffolder] with its methods, and [main].  The theorems
    about the registry ("dynamics file") come last. *)

From Stdlib Require Import ZArith Lia SpecFloat Ascii.
From stdpp Require Import base option list strings gmap fin_maps.

(** ** Strings

    A JavaScript string is modelled by a [string]: one [ascii] per code
    unit, so the model covers the strings whose code units are below 256. *)

Module JsString.

(** The one-character string made of a double quote (code 34). *)
Definition dquote : string := String (Ascii.ascii_of_nat 34) EmptyString.

Definition newline : string := String (Ascii.ascii_of_nat 10) EmptyString.

(** [WhiteSpace] and [LineTerminator] code units below 256: TAB, LF, VT,
    FF, CR, SP and NBSP.  [String.prototype.trim] strips exactly these. *)
Definition is_whitespace (c : ascii) : bool :=
  let n := Ascii.N_of_ascii c in
  ((9 <=? n) && (n <=? 13) || (n =? 32) || (n =? 160))%N.

Fixpoint trimStart (s : string) : string :=
  match s with
  | EmptyString => EmptyString
  | String c s' => if is_whitespace c then trimStart s' else s
  end.

Fixpoint trimEnd (s : string) : string :=
  match s with
  | EmptyString => EmptyString
  | String c s' =>
      match trimEnd s' with
      | EmptyString => if is_whitespace c then EmptyString else String c EmptyString
      | t => String c t
      end
  end.

(** [s.trim()] *)
Definition trim (s : string) : string := trimEnd (trimStart s).

(** [!s] for a string: only the empty string is falsy. *)
Definition is_empty (s : string) : bool :=
  match s with EmptyString => true | String _ _ => false end.

(** [s.replace(/c/g, r)]: every occurrence of the character [c] is
    replaced by [r]. *)
Fixpoint replace_all (c : ascii) (r : string) (s : string) : string :=
  match s with
  | EmptyString => EmptyString
  | String x s' =>
      if Ascii.eqb x c then r +:+ replace_all c r s'
      else String x (replace_all c r s')
  end.

Definition is_lower (c : ascii) : bool :=
  let n := Ascii.N_of_ascii c in ((97 <=? n) && (n <=? 122))%N.
Definition is_upper (c : ascii) : bool :=
  let n := Ascii.N_of_ascii c in ((65 <=? n) && (n <=? 90))%N.
Definition is_digit (c : ascii) : bool :=
  let n := Ascii.N_of_ascii c in ((48 <=? n) && (n <=? 57))%N.
Definition is_underscore (c : ascii) : bool := Ascii.eqb c "_"%char.

(** [s.toUpperCase()] on the letters a-z. *)
Definition upper_char (c : ascii) : ascii :=
  if is_lower c then Ascii.ascii_of_N (Ascii.N_of_ascii c - 32) else c.

Fixpoint toUpperCase (s : string) : string :=
  match s with
  | EmptyString => EmptyString
  | String c s' => String (upper_char c) (toUpperCase s')
  end.

(** The character class [[a-zA-Z_]] and [[a-zA-Z0-9_]]. *)
Definition ident_start (c : ascii) : bool :=
  is_lower c || is_upper c || is_underscore c.
Definition ident_part (c : ascii) : bool :=
  ident_start c || is_digit c.

Fixpoint all_chars (p : ascii -> bool) (s : string) : bool :=
  match s with
  | EmptyString => true
  | String c s' => p c && all_chars p s'
  end.

(** [s.match(/^[a-zA-Z_][a-zA-Z0-9_]*$/)] is not null. *)
Definition matches_identifier (s : string) : bool :=
  match s with
  | EmptyString => false
  | String c s' => ident_start c && all_chars ident_part s'
  end.

Fixpoint contains_char (c : ascii) (s : string) : bool :=
  match s with
  | EmptyString => false
  | String x s' => Ascii.eqb x c || contains_char c s'
  end.

End JsString.

Local Set Warnings "-register-all".

(** ** Values

    What [yaml.parse], [parseToml] and [JSON.parse] hand back, and what
    the stringifiers take: the JSON-like fragment of JavaScript values.
    Objects keep their properties in insertion order. *)

Inductive value : Type :=
| VUndefined
| VNull
| VBool (b : bool)
| VNumber (n : spec_float)
| VString (s : string)
| VArray (elems : list value)
| VObject (props : list (string * value)).

(** An exception object: every throw of the script and of the libraries
    it calls is an [Error] instance with a [name] and a [message]. *)
Record exn : Type := Exn { exn_name : string; exn_message : string }.

Module Js.

(** [ToBoolean] *)
Definition truthy (v : value) : bool :=
  match v with
  | VUndefined | VNull => false
  | VBool b => b
  | VNumber (S754_zero _) | VNumber S754_nan => false
  | VNumber _ => true
  | VString s => negb (JsString.is_empty s)
  | VArray _ | VObject _ => true
  end.

(** [a || b] *)
Definition or_else (a b : value) : value := if truthy a then a else b.

(** [Array.isArray(v)] *)
Definition isArray (v : value) : bool :=
  match v with VArray _ => true | _ => false end.

Fixpoint assoc (k : string) (props : list (string * value)) : option value :=
  match props with
  | [] => None
  | (k', v) :: rest => if String.eqb k' k then Some v else assoc k rest
  end.

(** [v.k] for a property name [k] that no prototype defines (such as
    [key] or [dynamics]): a [TypeError] on [undefined] and [null], the
    own property of an object, [undefined] everywhere else. *)
Definition get (v : value) (k : string) : exn + value :=
  match v with
  | VUndefined | VNull =>
      inl (Exn "TypeError" ("Cannot read properties of undefined (reading '" +:+ k +:+ "')"))
  | VObject props => inr (default VUndefined (assoc k props))
  | _ => inr VUndefined
  end.

(** [v === s] against a string [s]. *)
Definition strict_eq_string (v : value) (s : string) : bool :=
  match v with
  | VString s' => String.eqb s' s
  | _ => false
  end.

End Js.

(** ** The outside world

    The script reads and writes files, prints to the console and asks the
    user questions through the [prompts] package.  The world keeps a flat
    table from paths to nodes, the console output so far, the answers the
    user is going to give, and the trace of [fs.writeFileSync] calls.

    The table tells which calls fail: a read of a missing file, a write
    to a directory or into a directory that is missing, a regular file
    where a directory is expected.  Failures that depend on state the
    table does not hold (permissions, quotas) are not modelled. *)

Inductive node : Type := File (content : string) | Dir.

Inductive answer : Type :=
| Confirm (b : bool)        (* y/n at a [confirm] prompt *)
| Text (s : string)         (* a line typed at a [text] prompt *)
| Select (v : string)       (* the value picked at a [select] prompt *)
| Cancel.                   (* the prompt is aborted *)

Inductive console_arg : Type := AStr (s : string) | AExn (e : exn).

Inductive console_entry : Type :=
| Stdout (args : list console_arg)     (* console.log *)
| Stderr (args : list console_arg)     (* console.error *)
| Prompt (message : string).           (* a question shown by [prompts] *)

Record World : Type := mkWorld {
  fs : gmap string node;
  console : list console_entry;
  answers : list answer;
  writes : list (string * string);
}.

Definition set_fs (f : gmap string node -> gmap string node) (w : World) : World :=
  mkWorld (f (fs w)) (console w) (answers w) (writes w).
Definition set_console (f : list console_entry -> list console_entry) (w : World) : World :=
  mkWorld (fs w) (f (console w)) (answers w) (writes w).
Definition set_answers (f : list answer -> list answer) (w : World) : World :=
  mkWorld (fs w) (console w) (f (answers w)) (writes w).
Definition set_writes (f : list (string * string) -> list (string * string)) (w : World) : World :=
  mkWorld (fs w) (console w) (answers w) (f (writes w)).

(** How a computation ends: with a value, with an exception in flight, or
    with the process gone through [process.exit]. *)
Inductive outcome (A : Type) : Type :=
| Ok (a : A)
| Throw (e : exn)
| Exit (code : Z).
Arguments Ok {A} a.
Arguments Throw {A} e.
Arguments Exit {A} code.

Definition M (A : Type) : Type := World -> outcome A * World.

Definition ret {A} (a : A) : M A := fun w => (Ok a, w).

Definition bind {A B} (m : M A) (f : A -> M B) : M B := fun w =>
  match m w with
  | (Ok a, w') => f a w'
  | (Throw e, w') => (Throw e, w')
  | (Exit c, w') => (Exit c, w')
  end.

Declare Scope M_scope.
Delimit Scope M_scope with M.
Notation "x ← y ; z" := (bind y (fun x => z))
  (at level 20, y at level 100, z at level 200, only parsing) : M_scope.
Notation "x ;; z" := (bind x (fun _ => z))
  (at level 100, z at level 200, only parsing, right associativity) : M_scope.
Open Scope M_scope.

Definition throw {A} (e : exn) : M A := fun w => (Throw e, w).

(** [process.exit(code)] *)
Definition process_exit {A} (code : Z) : M A := fun w => (Exit code, w).

(** [try { body } catch (error) { handler }]: an exit is not an exception. *)
Definition try_catch {A} (body : M A) (handler : exn -> M A) : M A := fun w =>
  match body w with
  | (Throw e, w') => handler e w'
  | r => r
  end.

(** Lifts a pure computation that may throw. *)
Definition lift {A} (r : exn + A) : M A :=
  match r with inl e => throw e | inr a => ret a end.

Module Console.
Definition log (args : list console_arg) : M unit :=
  fun w => (Ok tt, set_console (fun c => c ++ [Stdout args]) w).
Definition error (args : list console_arg) : M unit :=
  fun w => (Ok tt, set_console (fun c => c ++ [Stderr args]) w).
End Console.

Module Path.

(** [path.join(...segs)] on POSIX, for segments without empty, [.] or
    [..] components: the segments with a slash in between.  The real
    [path.join] normalises its result; on [plain] segments there is
    nothing to normalise, and the statements about written paths are
    made for such segments. *)
Fixpoint join (segs : list string) : string :=
  match segs with
  | [] => "."
  | [s] => s
  | s :: rest => s +:+ "/" +:+ join rest
  end.

(** A segment [path.join] leaves as it is: not empty, no slash, and
    neither [.] nor [..]. *)
Definition plain (s : string) : bool :=
  negb (JsString.is_empty s)
  && negb (JsString.contains_char "/"%char s)
  && negb (String.eqb s ".") && negb (String.eqb s "..").

(** The part of [s] before its last slash, if it has a slash. *)
Fixpoint before_last_slash (s : string) : option string :=
  match s with
  | EmptyString => None
  | String c s' =>
      match before_last_slash s' with
      | Some d => Some (String c d)
      | None => if Ascii.eqb c "/"%char then Some EmptyString else None
      end
  end.

(** [path.dirname(p)] for a relative path without trailing slash. *)
Definition dirname (p : string) : string :=
  match before_last_slash p with
  | Some d => d
  | None => "."
  end.

(** The proper ancestors of [acc ++ s], those that end in [s]: the
    non-empty strings [acc ++ t] with [t ++ "/"] a prefix of [s]. *)
Fixpoint ancestors_from (acc s : string) : list string :=
  match s with
  | EmptyString => []
  | String c s' =>
      if Ascii.eqb c "/"%char
      then (if JsString.is_empty acc then [] else [acc])
             ++ ancestors_from (acc +:+ "/") s'
      else ancestors_from (acc +:+ String c EmptyString) s'
  end.

Definition ancestors (p : string) : list string := ancestors_from EmptyString p.

(** [s] without the prefix [p], if it starts with it. *)
Fixpoint strip_prefix (p s : string) : option string :=
  match p, s with
  | EmptyString, _ => Some s
  | String a p', String b s' => if Ascii.eqb a b then strip_prefix p' s' else None
  | String _ _, EmptyString => None
  end.

End Path.

Module Fs.

(** [fs.existsSync(p)] *)
Definition existsSync (p : string) : M bool := fun w =>
  (Ok (match fs w !! p with Some _ => true | None => false end), w).

Definition mkdir_one (fsys : gmap string node) (d : string) : gmap string node :=
  match fsys !! d with
  | Some _ => fsys
  | None => <[d := Dir]> fsys
  end.

(** Whether [d] is a regular file. *)
Definition is_file (fsys : gmap string node) (d : string) : bool :=
  match fsys !! d with
  | Some (File _) => true
  | _ => false
  end.

(** [fs.mkdirSync(p, { recursive: true })]: the directory and every
    missing ancestor.  A regular file in the place of an ancestor or of
    the directory itself makes the call throw, and nothing is created. *)
Definition mkdirSync (p : string) : M unit := fun w =>
  if existsb (is_file (fs w)) (Path.ancestors p) then
    (Throw (Exn "Error" ("ENOTDIR: not a directory, mkdir '" +:+ p +:+ "'")), w)
  else if is_file (fs w) p then
    (Throw (Exn "Error" ("EEXIST: file already exists, mkdir '" +:+ p +:+ "'")), w)
  else (Ok tt, set_fs (fun fsys => foldl mkdir_one fsys (Path.ancestors p ++ [p])) w).

(** [fs.readFileSync(p, 'utf8')] *)
Definition readFileSync (p : string) : M string := fun w =>
  match fs w !! p with
  | Some (File c) => (Ok c, w)
  | Some Dir => (Throw (Exn "Error" "EISDIR: illegal operation on a directory, read"), w)
  | None =>
      (Throw (Exn "Error" ("ENOENT: no such file or directory, open '" +:+ p +:+ "'")), w)
  end.

(** The world after [content] has been written to [p]. *)
Definition written (p content : string) (w : World) : World :=
  set_writes (fun t => t ++ [(p, content)])
    (set_fs (fun fsys => <[p := File content]> fsys) w).

(** What opening a new file in the directory [d] throws: nothing when
    [d] is a directory, ENOTDIR when [d] or the first thing in the way
    above it is a regular file, ENOENT when [d] is missing. *)
Definition open_error (fsys : gmap string node) (d p : string) : option exn :=
  match fsys !! d with
  | Some Dir => None
  | Some (File _) =>
      Some (Exn "Error" ("ENOTDIR: not a directory, open '" +:+ p +:+ "'"))
  | None =>
      if existsb (is_file fsys) (Path.ancestors d)
      then Some (Exn "Error" ("ENOTDIR: not a directory, open '" +:+ p +:+ "'"))
      else Some (Exn "Error" ("ENOENT: no such file or directory, open '" +:+ p +:+ "'"))
  end.

(** [fs.writeFileSync(p, content, 'utf8')]: the file holds exactly
    [content] afterwards.  A directory cannot be written; an existing
    file is replaced; a new file needs its directory ([path.dirname(p)],
    nothing to look up when [p] has no slash or lies in the root). *)
Definition writeFileSync (p content : string) : M unit := fun w =>
  match fs w !! p with
  | Some Dir =>
      (Throw (Exn "Error" ("EISDIR: illegal operation on a directory, open '" +:+ p +:+ "'")), w)
  | Some (File _) => (Ok tt, written p content w)
  | None =>
      match Path.before_last_slash p with
      | None | Some EmptyString => (Ok tt, written p content w)
      | Some d =>
          match open_error (fs w) d p with
          | Some e => (Throw e, w)
          | None => (Ok tt, written p content w)
          end
      end
  end.

Definition child_of (d : string) (entry : string * node) : option (string * bool) :=
  match Path.strip_prefix (d +:+ "/") entry.1 with
  | Some name =>
      if JsString.is_empty name || JsString.contains_char "/"%char name then None
      else Some (name, match entry.2 with Dir => true | File _ => false end)
  | None => None
  end.

(** [fs.readdirSync(d, { withFileTypes: true })]: each entry with its
    name and whether it is a directory. *)
Definition readdirSync (d : string) : M (list (string * bool)) := fun w =>
  match fs w !! d with
  | Some Dir => (Ok (omap (child_of d) (map_to_list (fs w))), w)
  | Some (File _) =>
      (Throw (Exn "Error" ("ENOTDIR: not a directory, scandir '" +:+ d +:+ "'")), w)
  | None =>
      (Throw (Exn "Error" ("ENOENT: no such file or directory, scandir '" +:+ d +:+ "'")), w)
  end.

End Fs.

(** The [prompts] package.  A prompt shows its message and consumes
    answers of the script: an answer of another kind, [Cancel], or the end
    of the script leave the response property [undefined] ([None]). *)
Module Prompts.

Inductive validation : Type := Valid | Invalid (msg : string).

Definition show (message : string) : M unit :=
  fun w => (Ok tt, set_console (fun c => c ++ [Prompt message]) w).

Definition next : M (option answer) := fun w =>
  match answers w with
  | [] => (Ok None, w)
  | a :: rest => (Ok (Some a), set_answers (fun _ => rest) w)
  end.

(** [prompts({ type: 'confirm', message })] *)
Definition confirm (message : string) : M (option bool) :=
  show message;;
  a ← next;
  ret (match a with Some (Confirm b) => Some b | _ => None end).

(** A text prompt keeps the line on screen until [validate] accepts it. *)
Fixpoint read_text (validate : string -> validation) (script : list answer)
  : option string * list answer :=
  match script with
  | Text s :: rest =>
      match validate s with
      | Valid => (Some s, rest)
      | Invalid _ => read_text validate rest
      end
  | _ :: rest => (None, rest)
  | [] => (None, [])
  end.

Definition next_text (validate : string -> validation) : M (option string) := fun w =>
  let r := read_text validate (answers w) in
  (Ok r.1, set_answers (fun _ => r.2) w).

(** [prompts({ type: 'text', message, validate })] *)
Definition text (message : string) (validate : string -> validation) : M (option string) :=
  show message;;
  next_text validate.

(** [prompts({ type: 'select', message, choices })] with the choices'
    values. *)
Definition select (message : string) (choices : list string) : M (option string) :=
  show message;;
  a ← next;
  ret (match a with
        | Some (Select v) => if bool_decide (v ∈ choices) then Some v else None
        | _ => None
        end).

End Prompts.

(** ** The three formats and their libraries *)

Inductive FileType : Type := yaml | toml | json.

#[global] Instance FileType_eq_dec : EqDecision FileType.
Proof. solve_decision. Defined.

Definition FileType_toString (t : FileType) : string :=
  match t with yaml => "yaml" | toml => "toml" | json => "json" end.

(** [['yaml', 'toml', 'json'].includes(s)], with the format it names. *)
Definition FileType_of_string (s : string) : option FileType :=
  if String.eqb s "yaml" then Some yaml
  else if String.eqb s "toml" then Some toml
  else if String.eqb s "json" then Some json
  else None.

(** The parsers and printers the script imports: the [yaml] package,
    [smol-toml], and the built-in [JSON] object (with [JSON.stringify]
    always called as [JSON.stringify(v, null, 2)]).  Their code is not part
    of the script, which is verified against this interface: each function
    either throws or returns. *)
Class Libraries : Type := {
  yaml_parse : string -> exn + value;
  yaml_stringify : value -> exn + string;
  parseToml : string -> exn + value;
  stringifyToml : value -> exn + string;
  JSON_parse : string -> exn + value;
  JSON_stringify : value -> exn + string;
}.

(** ** The built-in [JSON] object

    [JSON.stringify(v, null, 2)] and [JSON.parse(text)] as ECMAScript
    defines them, on the values and strings of this model.  The
    conversions between numbers and their decimal notation
    ([Number::toString], [StringToNumber]) are parameters. *)

Module Json.
Section Json.

Variable Number_toString : spec_float -> string.
Variable StringToNumber : string -> spec_float.

Definition dq : ascii := Ascii.ascii_of_nat 34.

Definition hex_digit (n : N) : ascii :=
  if (n <? 10)%N then Ascii.ascii_of_N (48 + n) else Ascii.ascii_of_N (87 + n).

(** [QuoteJSONString], one code unit at a time. *)
Definition escape_char (c : ascii) : string :=
  let n := Ascii.N_of_ascii c in
  if (n =? 8)%N then "\b"
  else if (n =? 9)%N then "\t"
  else if (n =? 10)%N then "\n"
  else if (n =? 12)%N then "\f"
  else if (n =? 13)%N then "\r"
  else if (n =? 34)%N then String "\"%char (String dq EmptyString)
  else if (n =? 92)%N then "\\"
  else if (n <? 32)%N then
    "\u00" +:+ String (hex_digit (n / 16)) (String (hex_digit (n mod 16)) EmptyString)
  else String c EmptyString.

Fixpoint escape (s : string) : string :=
  match s with
  | EmptyString => EmptyString
  | String c s' => escape_char c +:+ escape s'
  end.

Definition quote (s : string) : string :=
  String dq (escape s +:+ String dq EmptyString).

Definition is_finite (n : spec_float) : bool :=
  match n with
  | S754_zero _ | S754_finite _ _ _ => true
  | S754_infinity _ | S754_nan => false
  end.

Fixpoint join (sep : string) (parts : list string) : string :=
  match parts with
  | [] => EmptyString
  | [x] => x
  | x :: rest => x +:+ sep +:+ join sep rest
  end.

Definition gap : string := "  ".

(** [SerializeJSONProperty] with the current indentation; [None] is the
    [undefined] result. *)
Fixpoint serialize (indent : string) (v : value) : option string :=
  let stepback := indent in
  let indent := indent +:+ gap in
  let wrap (opening closing : string) (partial : list string) :=
    match partial with
    | [] => opening +:+ closing
    | _ => opening +:+ JsString.newline +:+ indent
             +:+ join ("," +:+ JsString.newline +:+ indent) partial
             +:+ JsString.newline +:+ stepback +:+ closing
    end in
  match v with
  | VUndefined => None
  | VNull => Some "null"
  | VBool true => Some "true"
  | VBool false => Some "false"
  | VNumber n => Some (if is_finite n then Number_toString n else "null")
  | VString s => Some (quote s)
  | VArray elems =>
      Some (wrap "[" "]" (map (fun x => default "null" (serialize indent x)) elems))
  | VObject props =>
      Some (wrap "{" "}"
              (omap (fun p => match serialize indent p.2 with
                              | Some text => Some (quote p.1 +:+ ": " +:+ text)
                              | None => None
                              end) props))
  end.

(** [JSON.stringify(v, null, 2)] for a [v] that is not [undefined]. *)
Definition stringify (v : value) : exn + string :=
  match serialize EmptyString v with
  | Some text => inr text
  | None => inl (Exn "TypeError" "JSON text is undefined")
  end.

(** *** Parsing *)

(** JSON white space: TAB, LF, CR and SP. *)
Definition is_ws (c : ascii) : bool :=
  let n := Ascii.N_of_ascii c in
  ((n =? 9) || (n =? 10) || (n =? 13) || (n =? 32))%N.

Fixpoint skip_ws (s : string) : string :=
  match s with
  | String c s' => if is_ws c then skip_ws s' else s
  | EmptyString => EmptyString
  end.

Definition hex_value (c : ascii) : option N :=
  let n := Ascii.N_of_ascii c in
  if JsString.is_digit c then Some (n - 48)%N
  else if ((97 <=? n) && (n <=? 102))%N then Some (n - 87)%N
  else if ((65 <=? n) && (n <=? 70))%N then Some (n - 55)%N
  else None.

(** The code unit of an escape [\uXXXX]; code units from 256 on lie
    outside the strings of this model and are refused, where the real
    [JSON.parse] accepts them: texts with such escapes are outside the
    model. *)
Definition unicode_escape (a b c d : ascii) : option ascii :=
  match hex_value a, hex_value b, hex_value c, hex_value d with
  | Some 0%N, Some 0%N, Some x, Some y => Some (Ascii.ascii_of_N (16 * x + y))
  | _, _, _, _ => None
  end.

Definition simple_escape (e : ascii) : option ascii :=
  let n := Ascii.N_of_ascii e in
  if (n =? 34)%N then Some dq
  else if (n =? 92)%N then Some "\"%char
  else if (n =? 47)%N then Some "/"%char
  else if (n =? 98)%N then Some (Ascii.ascii_of_N 8)
  else if (n =? 102)%N then Some (Ascii.ascii_of_N 12)
  else if (n =? 110)%N then Some (Ascii.ascii_of_N 10)
  else if (n =? 114)%N then Some (Ascii.ascii_of_N 13)
  else if (n =? 116)%N then Some (Ascii.ascii_of_N 9)
  else None.

(** The characters of a string literal after its opening quote, and
    what follows the closing quote. *)
Fixpoint string_body (s : string) : option (string * string) :=
  match s with
  | EmptyString => None
  | String c s' =>
      if Ascii.eqb c dq then Some (EmptyString, s')
      else if Ascii.eqb c "\"%char then
        match s' with
        | String "u"%char (String h1 (String h2 (String h3 (String h4 s'')))) =>
            match unicode_escape h1 h2 h3 h4, string_body s'' with
            | Some x, Some (body, rest) => Some (String x body, rest)
            | _, _ => None
            end
        | String e s'' =>
            match simple_escape e, string_body s'' with
            | Some x, Some (body, rest) => Some (String x body, rest)
            | _, _ => None
            end
        | EmptyString => None
        end
      else if (Ascii.N_of_ascii c <? 32)%N then None
      else
        match string_body s' with
        | Some (body, rest) => Some (String c body, rest)
        | None => None
        end
  end.

Fixpoint digits (s : string) : string * string :=
  match s with
  | String c s' =>
      if JsString.is_digit c then let r := digits s' in (String c r.1, r.2)
      else (EmptyString, s)
  | EmptyString => (EmptyString, EmptyString)
  end.

Definition optional_char (p : ascii -> bool) (s : string) : string * string :=
  match s with
  | String c s' => if p c then (String c EmptyString, s') else (EmptyString, s)
  | EmptyString => (EmptyString, EmptyString)
  end.

(** A number literal at the head of [s]: -? int frac? exp? *)
Definition number_literal (s : string) : option (string * string) :=
  let sign := optional_char (Ascii.eqb "-"%char) s in
  let int := digits sign.2 in
  let int_ok :=
    match int.1 with
    | EmptyString => false
    | String "0"%char (String _ _) => false
    | _ => true
    end in
  if negb int_ok then None else
  let frac :=
    match int.2 with
    | String "."%char s' =>
        let d := digits s' in
        if JsString.is_empty d.1 then None else Some ("." +:+ d.1, d.2)
    | rest => Some (EmptyString, rest)
    end in
  match frac with
  | None => None
  | Some (frac_text, after_frac) =>
      let exp :=
        match after_frac with
        | String e s' =>
            if Ascii.eqb e "e"%char || Ascii.eqb e "E"%char then
              let sg := optional_char (fun c => Ascii.eqb c "+"%char || Ascii.eqb c "-"%char) s' in
              let d := digits sg.2 in
              if JsString.is_empty d.1 then None
              else Some (String e (sg.1 +:+ d.1), d.2)
            else Some (EmptyString, after_frac)
        | EmptyString => Some (EmptyString, EmptyString)
        end in
      match exp with
      | None => None
      | Some (exp_text, rest) => Some (sign.1 +:+ int.1 +:+ frac_text +:+ exp_text, rest)
      end
  end.

(** [CreateDataProperty] on a property list: a repeated key keeps its
    place and takes the later value. *)
Fixpoint define (k : string) (v : value) (props : list (string * value))
  : list (string * value) :=
  match props with
  | [] => [(k, v)]
  | (k', v') :: rest =>
      if String.eqb k' k then (k, v) :: rest else (k', v') :: define k v rest
  end.

(** The JSON grammar by recursive descent.  Each function gets the text
    with leading white space allowed; [fuel] bounds the nesting of
    calls.  [parse] below supplies two units per character of the text:
    of two calls nested in one another, at least one consumes a
    character. *)
Fixpoint parse_value (fuel : nat) (s : string) : option (value * string) :=
  match fuel with
  | O => None
  | S fuel =>
      match skip_ws s with
      | EmptyString => None
      | String c rest =>
          if Ascii.eqb c "["%char then
            match skip_ws rest with
            | String "]"%char rest' => Some (VArray [], rest')
            | _ => parse_elements fuel rest []
            end
          else if Ascii.eqb c "{"%char then
            match skip_ws rest with
            | String "}"%char rest' => Some (VObject [], rest')
            | _ => parse_members fuel rest []
            end
          else if Ascii.eqb c dq then
            match string_body rest with
            | Some (body, rest') => Some (VString body, rest')
            | None => None
            end
          else
            match Path.strip_prefix "true" (String c rest),
                  Path.strip_prefix "false" (String c rest),
                  Path.strip_prefix "null" (String c rest) with
            | Some rest', _, _ => Some (VBool true, rest')
            | _, Some rest', _ => Some (VBool false, rest')
            | _, _, Some rest' => Some (VNull, rest')
            | None, None, None =>
                match number_literal (String c rest) with
                | Some (literal, rest') => Some (VNumber (StringToNumber literal), rest')
                | None => None
                end
            end
      end
  end
with parse_elements (fuel : nat) (s : string) (acc : list value) : option (value * string) :=
  match fuel with
  | O => None
  | S fuel =>
      match parse_value fuel s with
      | Some (v, rest) =>
          match skip_ws rest with
          | String ","%char rest' => parse_elements fuel rest' (acc ++ [v])
          | String "]"%char rest' => Some (VArray (acc ++ [v]), rest')
          | _ => None
          end
      | None => None
      end
  end
with parse_members (fuel : nat) (s : string) (acc : list (string * value))
  : option (value * string) :=
  match fuel with
  | O => None
  | S fuel =>
      match skip_ws s with
      | String c rest =>
          if negb (Ascii.eqb c dq) then None else
          match string_body rest with
          | Some (k, after_key) =>
              match skip_ws after_key with
              | String ":"%char after_colon =>
                  match parse_value fuel after_colon with
                  | Some (v, rest') =>
                      match skip_ws rest' with
                      | String ","%char rest'' => parse_members fuel rest'' (define k v acc)
                      | String "}"%char rest'' => Some (VObject (define k v acc), rest'')
                      | _ => None
                      end
                  | None => None
                  end
              | _ => None
              end
          | None => None
          end
      | EmptyString => None
      end
  end.

(** [JSON.parse(text)] *)
Definition parse (text : string) : exn + value :=
  match parse_value (2 * String.length text + 2) text with
  | Some (v, rest) =>
      if JsString.is_empty (skip_ws rest) then inr v
      else inl (Exn "SyntaxError" "Unexpected non-whitespace character after JSON")
  | None => inl (Exn "SyntaxError" "Unexpected token in JSON")
  end.

End Json.
End Json.

(** ** The data the script builds *)

Module ContentData.
Record field : Type := mkField { key : string; title : string; type : string }.
Record t : Type := mk { fields : list field }.

Definition field_to_value (f : field) : value :=
  VObject [("key", VString (key f)); ("title", VString (title f)); ("type", VString (type f))].
Definition to_value (d : t) : value :=
  VObject [("fields", VArray (field_to_value <$> fields d))].
End ContentData.

Module DynamicsData.
Record t : Type := mk { key : string; _mergePartial : string; content_type : string }.

Definition to_value (d : t) : value :=
  VObject [("key", VString (key d));
           ("_mergePartial", VString (_mergePartial d));
           ("content_type", VString (content_type d))].
End DynamicsData.

(** [arr.findIndex(pred)] on a list: [None] stands for -1.  The callback
    may throw, which ends the scan. *)
Fixpoint findIndex_from (pred : value -> exn + bool) (l : list value) (i : nat)
  : exn + option nat :=
  match l with
  | [] => inr None
  | x :: rest =>
      match pred x with
      | inl e => inl e
      | inr true => inr (Some i)
      | inr false => findIndex_from pred rest (S i)
      end
  end.

(** [v.findIndex(pred)] on whatever [v] is: only arrays have the method. *)
Definition findIndex (pred : value -> exn + bool) (v : value) : exn + option nat :=
  match v with
  | VArray l => findIndex_from pred l 0
  | _ => inl (Exn "TypeError" "dynamicsArray.findIndex is not a function")
  end.

(** ** class ContentBlockScaffolder *)

Record ContentBlockScaffolder : Type := mkScaffolder {
  blockName : string;
  blockNameWithoutUnderscores : string;
  blockNameWithDashes : string;
  fileType : FileType;
  selectedTheme : option string;
}.

Section Scaffolder.

Context `{Libraries}.

Definition detectFileType : M FileType :=
  let dynamicsDir := Path.join ["quiqr"; "model"; "includes"] in
  has_toml ← Fs.existsSync (Path.join [dynamicsDir; "dynamics.toml"]);
  if has_toml then ret toml else
  has_json ← Fs.existsSync (Path.join [dynamicsDir; "dynamics.json"]);
  if has_json then ret json else
  has_yaml ← Fs.existsSync (Path.join [dynamicsDir; "dynamics.yaml"]);
  if has_yaml then ret yaml else
  (* Default to yaml if no existing file is found *)
  ret yaml.

(** [new ContentBlockScaffolder(blockName, fileType)] *)
Definition constructor (blockName : string) (fileType : option FileType)
  : M ContentBlockScaffolder :=
  ft ← match fileType with
       | Some t => ret t
       | None => detectFileType
       end;
  ret {| blockName := blockName;
          blockNameWithoutUnderscores := JsString.replace_all "_" EmptyString blockName;
          blockNameWithDashes := JsString.replace_all "_" "-" blockName;
          fileType := ft;
          selectedTheme := None |}.

Definition ensureDirectoryExists (dirPath : string) : M unit :=
  present ← Fs.existsSync dirPath;
  if negb present then
    Fs.mkdirSync dirPath;;
    Console.log [AStr ("✓ Created directory: " +:+ dirPath)]
  else ret tt.

Definition formatContentAsYaml (data : ContentData.t) : exn + string :=
  yaml_stringify (ContentData.to_value data).

Definition formatContentAsToml (data : ContentData.t) : exn + string :=
  stringifyToml (ContentData.to_value data).

Definition formatContentAsJson (data : ContentData.t) : exn + string :=
  JSON_stringify (ContentData.to_value data).

Definition createContentFile (this : ContentBlockScaffolder) : M unit :=
  let contentDir := Path.join ["quiqr"; "model"; "partials"] in
  let contentFilePath :=
    Path.join [contentDir; blockName this +:+ "." +:+ FileType_toString (fileType this)] in
  ensureDirectoryExists contentDir;;
  let contentData :=
    ContentData.mk [ContentData.mkField EmptyString EmptyString EmptyString] in
  content ← lift match fileType this with
                 | yaml => formatContentAsYaml contentData
                 | toml => formatContentAsToml contentData
                 | json => formatContentAsJson contentData
                 end;
  Fs.writeFileSync contentFilePath content;;
  Console.log [AStr ("✓ Created "
                     +:+ JsString.toUpperCase (FileType_toString (fileType this))
                     +:+ " file: " +:+ contentFilePath)].

Definition parseDynamicsFile (this : ContentBlockScaffolder) (content : string) : M value :=
  if JsString.is_empty (JsString.trim content) then ret (VArray [])
  else
    try_catch
      (match fileType this with
       | yaml =>
           yamlData ← lift (yaml_parse content);
           ret (if Js.isArray yamlData then yamlData else VArray [])
       | toml =>
           tomlData ← lift (parseToml content);
           dynamics ← lift (Js.get tomlData "dynamics");
           ret (Js.or_else dynamics (VArray []))
       | json =>
           jsonData ← lift (JSON_parse content);
           ret (if Js.isArray jsonData then jsonData else VArray [])
       end)
      (fun error =>
         Console.error [AStr ("Error parsing " +:+ FileType_toString (fileType this) +:+ " file:");
                        AExn error];;
         ret (VArray [])).

Definition stringifyDynamicsData (this : ContentBlockScaffolder) (data : value)
  : exn + string :=
  match fileType this with
  | yaml => yaml_stringify data
  | toml => stringifyToml (VObject [("dynamics", data)])
  | json => JSON_stringify data
  end.

Definition dynamicsFilePath (this : ContentBlockScaffolder) : string :=
  Path.join ["quiqr"; "model"; "includes"; "dynamics." +:+ FileType_toString (fileType this)].

Definition newDynamicsData (this : ContentBlockScaffolder) : DynamicsData.t :=
  {| DynamicsData.key := "dynbx" +:+ blockNameWithoutUnderscores this;
     DynamicsData._mergePartial := blockName this;
     DynamicsData.content_type := blockName this |}.

(** [entry => entry.key === newDynamicsData.key] *)
Definition has_new_key (this : ContentBlockScaffolder) (entry : value) : exn + bool :=
  match Js.get entry "key" with
  | inl e => inl e
  | inr k => inr (Js.strict_eq_string k (DynamicsData.key (newDynamicsData this)))
  end.

(** The last two statements of [updateDynamicsFile]. *)
Definition writeDynamics (this : ContentBlockScaffolder) (dynamicsArray : value) : M unit :=
  updatedContent ← lift (stringifyDynamicsData this dynamicsArray);
  Fs.writeFileSync (dynamicsFilePath this) updatedContent.

(** [updateDynamicsFile] from the declaration of [newDynamicsData] on;
    the early [return] of the declined overwrite skips the write. *)
Definition mergeDynamics (this : ContentBlockScaffolder) (fileExists : bool) : M unit :=
  let new := DynamicsData.to_value (newDynamicsData this) in
  if fileExists then
    existingContent ← Fs.readFileSync (dynamicsFilePath this);
    dynamicsArray ← parseDynamicsFile this existingContent;
    (* Check if key already exists *)
    existingEntryIndex ← lift (findIndex (has_new_key this) dynamicsArray);
    match existingEntryIndex, dynamicsArray with
    | Some i, VArray entries =>
        response ← Prompts.confirm
          ("Entry with key '" +:+ DynamicsData.key (newDynamicsData this)
           +:+ "' already exists in dynamics file. Overwrite it?");
        if negb (default false response) then
          Console.log [AStr "⚠️  Skipping dynamics file update"]
        else
          (* Replace existing entry *)
          let entries' := <[i := new]> entries in
          Console.log [AStr ("✓ Replaced existing entry in dynamics file: "
                             +:+ dynamicsFilePath this)];;
          writeDynamics this (VArray entries')
    | None, VArray entries =>
        (* Add new entry *)
        let entries' := entries ++ [new] in
        Console.log [AStr ("✓ Added new entry to dynamics file: " +:+ dynamicsFilePath this)];;
        writeDynamics this (VArray entries')
    | _, _ =>
        (* not reached: [findIndex] throws on anything but an array *)
        throw (Exn "TypeError" "dynamicsArray.push is not a function")
    end
  else
    (* Create new file with single entry *)
    Console.log [AStr ("✓ Created dynamics file: " +:+ dynamicsFilePath this)];;
    writeDynamics this (VArray [new]).

Definition updateDynamicsFile (this : ContentBlockScaffolder) : M unit :=
  fileExists ← Fs.existsSync (dynamicsFilePath this);
  if negb fileExists then
    response ← Prompts.confirm
      ("Dynamics file (" +:+ dynamicsFilePath this +:+ ") does not exist. Create it?");
    if negb (default false response) then
      Console.log [AStr "⚠️  Skipping dynamics file update"]
    else
      (* Ensure the directory exists before creating the file *)
      ensureDirectoryExists (Path.dirname (dynamicsFilePath this));;
      mergeDynamics this fileExists
  else mergeDynamics this fileExists.

Definition validateThemeName (value : string) : Prompts.validation :=
  if negb (JsString.is_empty (JsString.trim value)) then Prompts.Valid
  else Prompts.Invalid "Theme name cannot be empty".

Definition validateNewThemeName (themeDirectories : list string) (value : string)
  : Prompts.validation :=
  let trimmed := JsString.trim value in
  if JsString.is_empty trimmed then Prompts.Invalid "Theme name cannot be empty"
  else if bool_decide (trimmed ∈ themeDirectories) then Prompts.Invalid "Theme already exists"
  else Prompts.Valid.

(** The text prompt for a theme name with the check that follows it, as
    [getThemeDirectory] has it in three places. *)
Definition askThemeName (message : string) (validate : string -> Prompts.validation)
  : M string :=
  themeName ← Prompts.text message validate;
  match themeName with
  | Some name =>
      if JsString.is_empty name then throw (Exn "Error" "Theme name is required")
      else ret (JsString.trim name)
  | None => throw (Exn "Error" "Theme name is required")
  end.

Definition getThemeDirectory : M string :=
  let themesDir := "themes" in
  (* Check if themes directory exists *)
  present ← Fs.existsSync themesDir;
  if negb present then
    Console.log [AStr "⚠️  Themes directory does not exist"];;
    askThemeName "Enter theme directory name to create:" validateThemeName
  else
    (* Read all directories in themes folder *)
    themeEntries ← Fs.readdirSync themesDir;
    let themeDirectories := fst <$> filter (fun entry => entry.2 = true) themeEntries in
    match themeDirectories with
    | [] =>
        Console.log [AStr "⚠️  No theme directories found in themes/"];;
        askThemeName "Enter theme directory name to create:" validateThemeName
    | [singleTheme] =>
        (* If only one theme exists, use it directly *)
        Console.log [AStr ("📁 Using theme: " +:+ singleTheme)];;
        ret singleTheme
    | _ =>
        (* Multiple themes exist, let user choose *)
        selected ← Prompts.select "Select a theme:" (themeDirectories ++ ["__create_new__"]);
        match selected with
        | None => throw (Exn "Error" "Theme selection is required")
        | Some theme =>
            if JsString.is_empty theme then throw (Exn "Error" "Theme selection is required")
            else if String.eqb theme "__create_new__" then
              askThemeName "Enter new theme directory name:"
                           (validateNewThemeName themeDirectories)
            else ret theme
        end
    end.

Definition htmlContent (this : ContentBlockScaffolder) : string :=
  "<!-- " +:+ blockName this +:+ " block template -->" +:+ JsString.newline
  +:+ "  <div class=" +:+ JsString.dquote +:+ blockNameWithDashes this +:+ "-block"
  +:+ JsString.dquote +:+ ">" +:+ JsString.newline
  +:+ "    <!-- Add your " +:+ blockName this +:+ " block content here -->" +:+ JsString.newline
  +:+ "  </div>" +:+ JsString.newline
  +:+ "  ".

(** Returns the object with [selectedTheme] assigned. *)
Definition createHtmlFile (this : ContentBlockScaffolder) : M ContentBlockScaffolder :=
  try_catch
    (theme ← getThemeDirectory;
     let this := mkScaffolder (blockName this) (blockNameWithoutUnderscores this)
                              (blockNameWithDashes this) (fileType this) (Some theme) in
     let htmlDir := Path.join ["themes"; theme; "layouts"; "partials"; "content_blocks"] in
     let htmlFilePath := Path.join [htmlDir; blockNameWithDashes this +:+ ".html"] in
     ensureDirectoryExists htmlDir;;
     let write :=
       Fs.writeFileSync htmlFilePath (htmlContent this);;
       Console.log [AStr ("✓ Created HTML template: " +:+ htmlFilePath)];;
       ret this in
     (* Check if HTML file already exists *)
     present ← Fs.existsSync htmlFilePath;
     if present then
       response ← Prompts.confirm
         ("HTML file (" +:+ htmlFilePath +:+ ") already exists. Overwrite it?");
       if negb (default false response) then
         Console.log [AStr "⚠️  Skipping HTML file creation"];;
         ret this
       else write
     else write)
    (fun error =>
       Console.error [AStr "❌ Error creating HTML file:"; AStr (exn_message error)];;
       throw error).

Definition scaffold (this : ContentBlockScaffolder) : M unit :=
  try_catch
    (Console.log [AStr ("🚀 Scaffolding content block: " +:+ blockName this)];;
     Console.log [AStr ("📄 Using file type: " +:+ FileType_toString (fileType this))];;
     Console.log [AStr "---"];;
     createContentFile this;;
     updateDynamicsFile this;;
     this ← createHtmlFile this;
     Console.log [AStr "---"];;
     Console.log [AStr ("✅ Successfully scaffolded content block: " +:+ blockName this)];;
     Console.log [AStr (JsString.newline +:+ "Files created/updated:")];;
     Console.log [AStr ("  • quiqr/model/partials/" +:+ blockName this +:+ "."
                        +:+ FileType_toString (fileType this))];;
     Console.log [AStr ("  • themes/" +:+ default "undefined" (selectedTheme this)
                        +:+ "/partials/content_blocks/" +:+ blockNameWithDashes this
                        +:+ ".html")];;
     Console.log [AStr ("  • quiqr/model/includes/dynamics."
                        +:+ FileType_toString (fileType this))])
    (fun error =>
       Console.error [AStr "❌ Error scaffolding content block:"; AStr (exn_message error)];;
       process_exit 1).

(** ** main *)

Definition invalidBlockName : string :=
  "Block name must be a valid identifier (letters, numbers, underscores only, cannot start with number)".

(** The loop over [process.argv.slice(2)]. *)
Fixpoint parseArgs (args : list string) (blockName : option string)
    (fileType : option FileType) : M (option string * option FileType) :=
  match args with
  | [] => ret (blockName, fileType)
  | arg :: rest =>
      if String.eqb arg "--type" || String.eqb arg "-t" then
        match rest with
        | nextArg :: rest' =>
            match FileType_of_string nextArg with
            | Some t => parseArgs rest' blockName (Some t)
            | None =>
                Console.error [AStr "❌ Error: Invalid file type. Must be yaml, toml, or json"];;
                process_exit 1
            end
        | [] =>
            Console.error [AStr "❌ Error: Invalid file type. Must be yaml, toml, or json"];;
            process_exit 1
        end
      else if JsString.is_empty (default EmptyString blockName)
      then parseArgs rest (Some arg) fileType
      else parseArgs rest blockName fileType
  end.

Definition validateBlockName (value : string) : Prompts.validation :=
  if JsString.is_empty value then Prompts.Invalid "Block name is required"
  else if negb (JsString.matches_identifier value) then Prompts.Invalid invalidBlockName
  else Prompts.Valid.

Definition main (args : list string) : M unit :=
  parsed ← parseArgs args None None;
  let fileType := parsed.2 in
  (* If no block name provided, prompt for it *)
  blockName ←
    (if JsString.is_empty (default EmptyString parsed.1) then
       response ← Prompts.text "Enter the block name:" validateBlockName;
       if JsString.is_empty (default EmptyString response) then
         Console.log [AStr "Operation cancelled"];;
         process_exit 0
       else ret (default EmptyString response)
     else ret (default EmptyString parsed.1));
  (* Validate block name *)
  if negb (JsString.matches_identifier blockName) then
    Console.error [AStr ("❌ Error: " +:+ invalidBlockName)];;
    process_exit 1
  else
    scaffolder ← constructor blockName fileType;
    scaffold scaffolder.

(** [main().catch(...)], what the script runs when it is the entry module. *)
Definition run (args : list string) : M unit :=
  try_catch (main args)
    (fun error =>
       Console.error [AStr "❌ Unexpected error:"; AExn error];;
       process_exit 1).

End Scaffolder.

(** ** Vocabulary of the statements *)

(** A registry as the script holds it in memory: the array of its records. *)
Definition registry (rs : list DynamicsData.t) : value :=
  VArray (DynamicsData.to_value <$> rs).

(** A white-space-only string, the empty string included. *)
Definition blank (s : string) : Prop := JsString.all_chars JsString.is_whitespace s = true.

(** An answer script whose next answer is a yes. *)
Definition accepts (script : list answer) : bool :=
  match script with
  | Confirm true :: _ => true
  | _ => false
  end.

(** The merge step of the registry updater as the specification words it:
    search the sequence for a record with the key of the new one; if there
    is none, append the new record, otherwise replace the first such
    record in place. *)
Definition upsert (new : DynamicsData.t) (rs : list DynamicsData.t) : list DynamicsData.t :=
  match list_find (fun r => DynamicsData.key r = DynamicsData.key new) rs with
  | Some (i, _) => <[i := new]> rs
  | None => rs ++ [new]
  end.

(** The registry file of a format, and the format the probing of the
    specification selects: the first of format B, format C, format A
    whose registry file exists, format A when none does. *)
Definition registry_file (t : FileType) : string :=
  "quiqr/model/includes/dynamics." +:+ FileType_toString t.

Definition probe_order : list FileType := [toml; json; yaml].

Definition detected (w : World) : FileType :=
  default yaml (head (filter (fun t => is_Some (fs w !! registry_file t)) probe_order)).

(** The identifier with its underscores removed, as a filter. *)
Definition without_underscores (id : string) : string :=
  String.string_of_list_ascii
    (filter (fun c => c <> "_"%char) (String.list_ascii_of_string id)).

Section Vocabulary.

Context `{Libraries}.

(** The line [parseDynamicsFile] prints when the library throws [e]. *)
Definition parse_error_entry (this : ContentBlockScaffolder) (e : exn) : console_entry :=
  Stderr [AStr ("Error parsing " +:+ FileType_toString (fileType this) +:+ " file:"); AExn e].

(** The parser and the printer of a format, and the document that holds
    a registry in it: format B (toml) keeps the sequence under the field
    [dynamics], the other two store it bare. *)
Definition library_parse (t : FileType) : string -> exn + value :=
  match t with yaml => yaml_parse | toml => parseToml | json => JSON_parse end.

Definition library_stringify (t : FileType) : value -> exn + string :=
  match t with yaml => yaml_stringify | toml => stringifyToml | json => JSON_stringify end.

Definition document (t : FileType) (data : value) : value :=
  match t with
  | toml => VObject [("dynamics", data)]
  | yaml | json => data
  end.

(** The library of format [t] prints [doc] to a text that is not blank
    and that it parses back to [doc]. *)
Definition lossless (t : FileType) (doc : value) : Prop :=
  exists text, library_stringify t doc = inr text
               /\ ~ blank text
               /\ library_parse t text = inr doc.

(** The registry file of [this] holds the sequence [rs]: there is no
    file and [rs] is empty, or the file decodes to [rs]. *)
Definition registry_on_disk (this : ContentBlockScaffolder) (w : World)
    (rs : list DynamicsData.t) : Prop :=
  (fs w !! dynamicsFilePath this = None /\ rs = [])
  \/ (exists content, fs w !! dynamicsFilePath this = Some (File content)
                      /\ (parseDynamicsFile this content w).1 = Ok (registry rs)).

End Vocabulary.

(** Nothing is in the way of the directory [dir]: neither [dir] nor one
    of its ancestors is a regular file.  This is what the creation of
    [dir], and of a file in it, needs of the project. *)
Definition unobstructed (w : World) (dir : string) : bool :=
  negb (existsb (Fs.is_file (fs w)) (Path.ancestors dir ++ [dir])).

(** The directory the registry file lies in. *)
Definition registry_directory : string := "quiqr/model/includes".

(** The directory the content definitions lie in. *)
Definition content_directory : string := "quiqr/model/partials".

(** The libraries of the examples: all three formats written as JSON, on
    documents without numbers (the number conversions are never called). *)
Definition example_libraries : Libraries :=
  let parse := Json.parse (fun _ => S754_zero false) in
  let stringify := Json.stringify (fun _ => "0") in
  {| yaml_parse := parse; yaml_stringify := stringify;
     parseToml := parse; stringifyToml := stringify;
     JSON_parse := parse; JSON_stringify := stringify |}.

(** Libraries whose [JSON] object is the built-in one of this model. *)
Definition with_builtin_JSON (L : Libraries) (Number_toString : spec_float -> string)
    (StringToNumber : string -> spec_float) : Libraries :=
  {| yaml_parse := @yaml_parse L; yaml_stringify := @yaml_stringify L;
     parseToml := @parseToml L; stringifyToml := @stringifyToml L;
     JSON_parse := Json.parse StringToNumber;
     JSON_stringify := Json.stringify Number_toString |}.

(** A text given by its lines, and a word in double quotes. *)
Definition text_lines (lines : list string) : string := Json.join JsString.newline lines.

Definition quoted (s : string) : string := JsString.dquote +:+ s +:+ JsString.dquote.

(** The three files of the scenario [hero_banner] in JSON. *)
Definition hero_banner_content_json : string :=
  text_lines
    [ "{";
      "  " +:+ quoted "fields" +:+ ": [";
      "    {";
      "      " +:+ quoted "key" +:+ ": " +:+ quoted EmptyString +:+ ",";
      "      " +:+ quoted "title" +:+ ": " +:+ quoted EmptyString +:+ ",";
      "      " +:+ quoted "type" +:+ ": " +:+ quoted EmptyString;
      "    }";
      "  ]";
      "}" ].

Definition hero_banner_dynamics_json : string :=
  text_lines
    [ "[";
      "  {";
      "    " +:+ quoted "key" +:+ ": " +:+ quoted "dynbxherobanner" +:+ ",";
      "    " +:+ quoted "_mergePartial" +:+ ": " +:+ quoted "hero_banner" +:+ ",";
      "    " +:+ quoted "content_type" +:+ ": " +:+ quoted "hero_banner";
      "  }";
      "]" ].

Definition hero_banner_html : string :=
  text_lines
    [ "<!-- hero_banner block template -->";
      "  <div class=" +:+ quoted "hero-banner-block" +:+ ">";
      "    <!-- Add your hero_banner block content here -->";
      "  </div>";
      "  " ].

(** The text [JSON.stringify(records, null, 2)] gives for a registry:
    each record on five lines at indentation two, separated by commas. *)
Section RegistryText.

Variable Number_toString : spec_float -> string.

Definition record_text (r : DynamicsData.t) : string :=
  default EmptyString (Json.serialize Number_toString "  " (DynamicsData.to_value r)).

Definition separator : string := "," +:+ JsString.newline +:+ "  ".

Definition array_text (rs : list DynamicsData.t) : string :=
  String "[" (String (ascii_of_nat 10) (String " " (String " "
    (Json.join separator (record_text <$> rs)
     +:+ String (ascii_of_nat 10) (String "]" EmptyString))))).

End RegistryText.

(** ** Example data

    A project whose registry (in JSON) already lists two blocks, for runs
    of the updater for the block [hero_banner]. *)

Definition text_of (r : exn + string) : string :=
  match r with inr text => text | inl _ => EmptyString end.

Definition hero : ContentBlockScaffolder :=
  mkScaffolder "hero_banner" "herobanner" "hero-banner" json None.

Definition hero_toml : ContentBlockScaffolder :=
  mkScaffolder "hero_banner" "herobanner" "hero-banner" toml None.

Definition footer_record : DynamicsData.t :=
  DynamicsData.mk "dynbxfooter" "footer" "footer".

Definition old_hero_record : DynamicsData.t :=
  DynamicsData.mk "dynbxherobanner" "hero" "banner".

Definition hero_record : DynamicsData.t :=
  DynamicsData.mk "dynbxherobanner" "hero_banner" "hero_banner".

Definition registry_text (rs : list DynamicsData.t) : string :=
  text_of (@stringifyDynamicsData example_libraries hero (registry rs)).

(** A file table as a file system has it: every ancestor of an entry
    is a directory. *)
Definition well_formed (fsys : gmap string node) : bool :=
  forallb (fun entry : string * node =>
             forallb (fun d => match fsys !! d with Some Dir => true | _ => false end)
                     (Path.ancestors entry.1))
          (map_to_list fsys).

(** The file table of the given entries, with the directories above
    them. *)
Definition tree (entries : list (string * node)) : gmap string node :=
  foldl (fun fsys entry =>
           <[entry.1 := entry.2]> (foldl Fs.mkdir_one fsys (Path.ancestors entry.1)))
        ∅ entries.

Definition project (rs : list DynamicsData.t) (script : list answer) : World :=
  mkWorld (tree [("quiqr/model/includes/dynamics.json", File (registry_text rs))]) [] script [].

Definition empty_project (script : list answer) : World := mkWorld ∅ [] script [].

(** A document whose [dynamics] field is a string. *)
Definition stray_document : value := VObject [("dynamics", VString "not a list")].

Definition stray_text : string := text_of (@stringifyToml example_libraries stray_document).

(** A text that is no JSON. *)
Definition garbage_text : string := "{oops".

(** A project with a registry in format B and one in format C. *)
Definition two_registries : World :=
  mkWorld (tree [("quiqr/model/includes/dynamics.toml", File EmptyString);
                 ("quiqr/model/includes/dynamics.json", File "[]")]) [] [] [].

(** ** Vocabulary of the further properties *)

(** The command line as the loop of [main] reads it: a type flag takes
    the argument after it as its value, every other argument is a
    positional one. *)
Definition is_type_flag (arg : string) : bool :=
  String.eqb arg "--type" || String.eqb arg "-t".

Fixpoint positionals (args : list string) : list string :=
  match args with
  | [] => []
  | arg :: rest =>
      if is_type_flag arg then
        match rest with
        | _ :: rest' => positionals rest'
        | [] => []
        end
      else arg :: positionals rest
  end.

(** The values of the type flags, each read as a format; [None] stands
    for a value that names no format and for a flag without value. *)
Fixpoint flag_values (args : list string) : list (option FileType) :=
  match args with
  | [] => []
  | arg :: rest =>
      if is_type_flag arg then
        match rest with
        | value :: rest' => FileType_of_string value :: flag_values rest'
        | [] => [None]
        end
      else flag_values rest
  end.

(** The block name of a command line: its first positional argument
    that is not the empty string, the empty string when all of them are
    empty, nothing when there is none.  Its format: the value of the last
    type flag. *)
Definition chosen_name (names : list string) : option string :=
  match list_find (fun s => s <> EmptyString) names with
  | Some (_, name) => Some name
  | None => last names
  end.

Definition chosen_type (flags : list (option FileType)) : option FileType :=
  mjoin (last flags).

(** The two error lines of [main]. *)
Definition invalid_type_entry : console_entry :=
  Stderr [AStr "❌ Error: Invalid file type. Must be yaml, toml, or json"].

Definition invalid_name_entry : console_entry :=
  Stderr [AStr ("❌ Error: " +:+ invalidBlockName)].

(** The world after the question for the block name: the question is on
    the console and the answers it used up are gone. *)
Definition after_name_prompt (w : World) : World :=
  set_answers (fun _ => (Prompts.read_text validateBlockName (answers w)).2)
    (set_console (fun c => c ++ [Prompt "Enter the block name:"]) w).

(** A computation respects a relation on worlds when every run of it,
    however it ends, leaves a world related to the one it started in. *)
Definition respects {A} (R : relation World) (m : M A) : Prop :=
  forall w, R w (m w).2.

(** Only the console and the answers may differ. *)
Definition quiet : relation World :=
  fun w w' => fs w' = fs w /\ writes w' = writes w.

(** Nothing is lost: a directory is still a directory, a file is still a
    file (its content may differ), and the trace of writes is extended. *)
Definition kept : relation World :=
  fun w w' =>
    (forall p, fs w !! p = Some Dir -> fs w' !! p = Some Dir)
    /\ (forall p c, fs w !! p = Some (File c) -> exists c', fs w' !! p = Some (File c'))
    /\ writes w `prefix_of` writes w'.

(** The exit codes a computation may end the process with. *)
Definition exits_in {A} (codes : list Z) (m : M A) : Prop :=
  forall w c, (m w).1 = Exit c -> c ∈ codes.

(** The records of a registry that carry the key of [new]. *)
Definition with_key_of (new : DynamicsData.t) (rs : list DynamicsData.t)
  : list DynamicsData.t :=
  filter (fun r => DynamicsData.key r = DynamicsData.key new) rs.

(** The paths [updateDynamicsFile] may create or change. *)
Definition registry_footprint (this : ContentBlockScaffolder) : list string :=
  ["quiqr"; "quiqr/model"; "quiqr/model/includes"; dynamicsFilePath this].

(** The record [updateDynamicsFile] builds for the block [name]. *)
Definition block_record (name : string) : DynamicsData.t :=
  {| DynamicsData.key := "dynbx" +:+ JsString.replace_all "_" EmptyString name;
     DynamicsData._mergePartial := name;
     DynamicsData.content_type := name |}.

(** [name] is a directory right below [themes]. *)
Definition theme_directory (w : World) (name : string) : Prop :=
  JsString.is_empty name = false
  /\ JsString.contains_char "/" name = false
  /\ fs w !! ("themes/" +:+ name) = Some Dir.

(** The file [createContentFile] writes; the directory and the file
    [createHtmlFile] writes for a theme; and the path the summary of
    [scaffold] prints for the latter. *)
Definition content_path (this : ContentBlockScaffolder) : string :=
  "quiqr/model/partials/" +:+ blockName this +:+ "." +:+ FileType_toString (fileType this).

Definition template_dir (theme : string) : string :=
  "themes/" +:+ theme +:+ "/layouts/partials/content_blocks".

Definition template_path (theme : string) (this : ContentBlockScaffolder) : string :=
  "themes/" +:+ theme +:+ "/layouts/partials/content_blocks/"
  +:+ blockNameWithDashes this +:+ ".html".

Definition listed_template_path (theme : string) (this : ContentBlockScaffolder) : string :=
  "themes/" +:+ theme +:+ "/partials/content_blocks/" +:+ blockNameWithDashes this +:+ ".html".

(** The content definition every block starts with: one field with empty
    [key], [title] and [type]. *)
Definition content_template : value :=
  VObject [("fields", VArray [VObject [("key", VString EmptyString);
                                       ("title", VString EmptyString);
                                       ("type", VString EmptyString)]])].

(** The world [scaffold] hands to its first step: its three opening
    lines are on the console. *)
Definition after_banner (this : ContentBlockScaffolder) (w : World) : World :=
  set_console (fun c => c ++ [Stdout [AStr "---"]])
    (set_console
       (fun c => c ++ [Stdout [AStr ("📄 Using file type: "
                                     +:+ FileType_toString (fileType this))]])
       (set_console
          (fun c => c ++ [Stdout [AStr ("🚀 Scaffolding content block: "
                                        +:+ blockName this)]]) w)).

(** [this] with its [selectedTheme] assigned. *)
Definition with_theme (this : ContentBlockScaffolder) (theme : string)
  : ContentBlockScaffolder :=
  mkScaffolder (blockName this) (blockNameWithoutUnderscores this)
               (blockNameWithDashes this) (fileType this) (Some theme).

(** The scaffolder the constructor builds for a block name and a
    format. *)
Definition scaffolder_of (name : string) (t : FileType) : ContentBlockScaffolder :=
  mkScaffolder name (JsString.replace_all "_" EmptyString name)
               (JsString.replace_all "_" "-" name) t None.

(** Further example data: registry files that do not hold a list of
    records, a block whose name differs from [hero_banner] by an
    underscore, and projects with a theme. *)

Definition garbage_error : exn :=
  match @JSON_parse example_libraries garbage_text with
  | inl e => e
  | inr _ => Exn EmptyString EmptyString
  end.

Definition garbage_project : World :=
  mkWorld (tree [("quiqr/model/includes/dynamics.json", File garbage_text)]) [] [] [].

Definition stray_toml_project : World :=
  mkWorld (tree [("quiqr/model/includes/dynamics.toml", File stray_text)]) [] [] [].

Definition stray_json_project : World :=
  mkWorld (tree [("quiqr/model/includes/dynamics.json", File stray_text)]) [] [] [].

Definition holed_text : string :=
  text_of (@JSON_stringify example_libraries
             (VArray [DynamicsData.to_value footer_record; VNull])).

Definition holed_project : World :=
  mkWorld (tree [("quiqr/model/includes/dynamics.json", File holed_text)]) [] [] [].

Definition herobanner : ContentBlockScaffolder :=
  mkScaffolder "herobanner" "herobanner" "herobanner" json None.

Definition edited_project : World :=
  mkWorld (tree [("quiqr/model/partials/hero_banner.json", File "edited by hand")]) [] [] [].

Definition one_theme_project : World :=
  mkWorld (tree [("themes/mytheme/layouts", Dir);
                 ("themes/readme.txt", File "about the themes")]) [] [] [].

Definition templated_project (script : list answer) : World :=
  mkWorld (tree [("themes/mytheme/layouts/partials/content_blocks/hero-banner.html",
                  File "<p>edited by hand</p>")]) [] script [].

(** A project where a regular file has the name of the directory
    [quiqr]. *)
Definition obstructed_project (script : list answer) : World :=
  mkWorld (tree [("quiqr", File "not a directory")]) [] script [].

Definition two_theme_project (script : list answer) : World :=
  mkWorld (tree [("themes/alpha", Dir); ("themes/beta", Dir)]) [] script [].

(** ** Facts about strings *)

Module JsStringFacts.
Import JsString.

Lemma trimStart_blank s : blank s -> trimStart s = EmptyString.
Proof.
  unfold blank. induction s as [|c s IH]; simpl; [done|].
  intros [Hc Hs]%andb_prop. rewrite Hc. auto.
Qed.

Lemma trimStart_head s c t : trimStart s = String c t -> is_whitespace c = false.
Proof.
  induction s as [|x s IH]; simpl; [done|].
  destruct (is_whitespace x) eqn:Hx; [done|].
  intros [= -> _]. done.
Qed.

Lemma trimStart_empty s : trimStart s = EmptyString -> blank s.
Proof.
  unfold blank. induction s as [|x s IH]; simpl; [done|].
  destruct (is_whitespace x) eqn:Hx; [auto|done].
Qed.

Lemma trimEnd_empty s : trimEnd s = EmptyString -> blank s.
Proof.
  unfold blank. induction s as [|x s IH]; simpl; [done|].
  destruct (trimEnd s) eqn:Ht; [|done].
  destruct (is_whitespace x); [auto|done].
Qed.

(** [!content.trim()] holds exactly of the white-space-only strings. *)
Lemma trim_empty_iff s : is_empty (trim s) = true <-> blank s.
Proof.
  unfold trim. split.
  - destruct (trimEnd (trimStart s)) eqn:Ht; [|done]. intros _.
    apply trimEnd_empty in Ht.
    destruct (trimStart s) as [|c t] eqn:Hs; [by apply trimStart_empty|].
    apply trimStart_head in Hs. unfold blank in Ht. simpl in Ht.
    rewrite Hs in Ht. done.
  - intros Hb. by rewrite (trimStart_blank _ Hb).
Qed.

Lemma trim_not_blank s : ~ blank s -> is_empty (trim s) = false.
Proof.
  intros Hb. destruct (is_empty (trim s)) eqn:E; [|done].
  by apply trim_empty_iff in E.
Qed.

(** Removing a character with [replace] is filtering it out. *)
Lemma replace_all_remove c s :
  String.list_ascii_of_string (replace_all c EmptyString s)
  = filter (fun x => x <> c) (String.list_ascii_of_string s).
Proof.
  induction s as [|x s IH]; simpl; [done|].
  destruct (Ascii.eqb_spec x c) as [->|Hne]; simpl.
  - rewrite filter_cons_False; [done|]. by intros Hc.
  - rewrite filter_cons_True by done. by rewrite IH.
Qed.

End JsStringFacts.

(** *** Concatenation *)

Lemma append_cons x (a b : string) : String x a +:+ b = String x (a +:+ b).
Proof. reflexivity. Qed.

Lemma append_nil_l (b : string) : EmptyString +:+ b = b.
Proof. reflexivity. Qed.

Lemma append_assoc (a b c : string) : (a +:+ b) +:+ c = a +:+ (b +:+ c).
Proof. induction a as [|x a IH]; [done|]. by rewrite !append_cons, IH. Qed.

Lemma append_empty_r (a : string) : a +:+ EmptyString = a.
Proof. induction a as [|x a IH]; [done|]. by rewrite append_cons, IH. Qed.

Lemma append_length (a b : string) :
  String.length (a +:+ b) = String.length a + String.length b.
Proof. induction a as [|x a IH]; [done|]. rewrite append_cons. simpl. by rewrite IH. Qed.

(** *** Names without a slash *)

Lemma contains_char_app c (a b : string) :
  JsString.contains_char c (a +:+ b)
  = JsString.contains_char c a || JsString.contains_char c b.
Proof.
  induction a as [|x a IH]; [done|]. rewrite append_cons. simpl.
  by rewrite IH, orb_assoc.
Qed.

Lemma ident_part_no_slash s :
  JsString.all_chars JsString.ident_part s = true -> JsString.contains_char "/" s = false.
Proof.
  induction s as [|c s IH]; [done|]. simpl. intros [Hc Hs]%andb_prop.
  rewrite (IH Hs), orb_false_r.
  destruct (Ascii.eqb_spec c "/") as [->|Hne]; [by vm_compute in Hc|done].
Qed.

Lemma identifier_no_slash s :
  JsString.matches_identifier s = true -> JsString.contains_char "/" s = false.
Proof.
  destruct s as [|c s]; [done|]. cbn [JsString.matches_identifier].
  intros [Hc Hs]%andb_prop. apply ident_part_no_slash. simpl.
  unfold JsString.ident_part at 1. by rewrite Hc, Hs.
Qed.

(** Dashes for underscores bring no slash into a name. *)
Lemma dashes_no_slash s :
  JsString.contains_char "/" s = false ->
  JsString.contains_char "/" (JsString.replace_all "_" "-" s) = false.
Proof.
  induction s as [|c s IH]; [done|]. simpl. intros [Hc Hs]%orb_false_iff.
  destruct (Ascii.eqb c "_"); [rewrite append_cons, append_nil_l|]; simpl.
  - by apply IH.
  - by rewrite Hc, IH.
Qed.

(** ** Facts about the built-in JSON

    [JSON.parse] reads back what [JSON.stringify] prints for a registry:
    first string literals, then one record, then the array. *)

Ltac eval_escape :=
  lazymatch goal with
  | |- context [Json.escape_char ?c] =>
      let e := eval vm_compute in (Json.escape_char c) in
      change (Json.escape_char c) with e
  end.

(** The escape of a code unit reads back as the code unit, whichever of
    the 256 it is. *)
Lemma string_body_char c tail s rest :
  Json.string_body tail = Some (s, rest) ->
  Json.string_body (Json.escape_char c +:+ tail) = Some (String c s, rest).
Proof.
  intros Ht.
  destruct c as [[] [] [] [] [] [] [] []];
    eval_escape; rewrite ?append_cons, ?append_nil_l; simpl; rewrite Ht; reflexivity.
Qed.

(** A quoted string reads back as the string. *)
Lemma string_body_escape s rest :
  Json.string_body (Json.escape s +:+ String Json.dq rest) = Some (s, rest).
Proof.
  induction s as [|c s IH].
  - reflexivity.
  - simpl. rewrite append_assoc. by apply string_body_char.
Qed.

Section JsonFacts.
Variable s2n : string -> spec_float.
Variable n2s : spec_float -> string.

Local Abbreviation record_text := (record_text n2s).
Local Abbreviation array_text := (array_text n2s).

Ltac norm_append :=
  unfold id; repeat first [rewrite append_assoc | rewrite append_cons | rewrite append_nil_l].

(** One unfolding of each function of the parser. *)
Lemma parse_value_eq f s :
  Json.parse_value s2n (S f) s
  = match Json.skip_ws s with
    | EmptyString => None
    | String c rest =>
        if Ascii.eqb c "["%char then
          match Json.skip_ws rest with
          | String "]"%char rest' => Some (VArray [], rest')
          | _ => Json.parse_elements s2n f rest []
          end
        else if Ascii.eqb c "{"%char then
          match Json.skip_ws rest with
          | String "}"%char rest' => Some (VObject [], rest')
          | _ => Json.parse_members s2n f rest []
          end
        else if Ascii.eqb c Json.dq then
          match Json.string_body rest with
          | Some (body, rest') => Some (VString body, rest')
          | None => None
          end
        else
          match Path.strip_prefix "true" (String c rest),
                Path.strip_prefix "false" (String c rest),
                Path.strip_prefix "null" (String c rest) with
          | Some rest', _, _ => Some (VBool true, rest')
          | _, Some rest', _ => Some (VBool false, rest')
          | _, _, Some rest' => Some (VNull, rest')
          | None, None, None =>
              match Json.number_literal (String c rest) with
              | Some (literal, rest') => Some (VNumber (s2n literal), rest')
              | None => None
              end
          end
    end.
Proof. reflexivity. Qed.

Lemma parse_elements_eq f s acc :
  Json.parse_elements s2n (S f) s acc
  = match Json.parse_value s2n f s with
    | Some (v, rest) =>
        match Json.skip_ws rest with
        | String ","%char rest' => Json.parse_elements s2n f rest' (acc ++ [v])
        | String "]"%char rest' => Some (VArray (acc ++ [v]), rest')
        | _ => None
        end
    | None => None
    end.
Proof. reflexivity. Qed.

Lemma parse_members_eq f s acc :
  Json.parse_members s2n (S f) s acc
  = match Json.skip_ws s with
    | String c rest =>
        if negb (Ascii.eqb c Json.dq) then None else
        match Json.string_body rest with
        | Some (k, after_key) =>
            match Json.skip_ws after_key with
            | String ":"%char after_colon =>
                match Json.parse_value s2n f after_colon with
                | Some (v, rest') =>
                    match Json.skip_ws rest' with
                    | String ","%char rest'' =>
                        Json.parse_members s2n f rest'' (Json.define k v acc)
                    | String "}"%char rest'' => Some (VObject (Json.define k v acc), rest'')
                    | _ => None
                    end
                | None => None
                end
            | _ => None
            end
        | None => None
        end
    | EmptyString => None
    end.
Proof. reflexivity. Qed.

(** A string literal, possibly after white space. *)
Lemma parse_value_string f s v rest :
  Json.skip_ws s = String Json.dq (Json.escape v +:+ String Json.dq rest) ->
  Json.parse_value s2n (S f) s = Some (VString v, rest).
Proof.
  intros Hs. rewrite parse_value_eq, Hs.
  change (Ascii.eqb Json.dq "["%char) with false.
  change (Ascii.eqb Json.dq "{"%char) with false.
  change (Ascii.eqb Json.dq Json.dq) with true.
  cbv iota. by rewrite string_body_escape.
Qed.

(** An object or an array that is not empty. *)
Lemma parse_value_object f rest x :
  Json.skip_ws rest = String Json.dq x ->
  Json.parse_value s2n (S f) (String "{" rest) = Json.parse_members s2n f rest [].
Proof. intros Hs. rewrite parse_value_eq. simpl. by rewrite Hs. Qed.

Lemma parse_value_array f rest x :
  Json.skip_ws rest = String "{" x ->
  Json.parse_value s2n (S f) (String "[" rest) = Json.parse_elements s2n f rest [].
Proof. intros Hs. rewrite parse_value_eq. simpl. by rewrite Hs. Qed.

(** One member whose value is a string, and what comes after it. *)
Lemma parse_members_step f s k v tail acc :
  Json.skip_ws s
  = String Json.dq
      (Json.escape k +:+
       String Json.dq (String ":" (String " " (String Json.dq
         (Json.escape v +:+ String Json.dq tail))))) ->
  Json.parse_members s2n (S (S f)) s acc
  = match Json.skip_ws tail with
    | String ","%char rest =>
        Json.parse_members s2n (S f) rest (Json.define k (VString v) acc)
    | String "}"%char rest => Some (VObject (Json.define k (VString v) acc), rest)
    | _ => None
    end.
Proof.
  intros Hs. rewrite parse_members_eq, Hs.
  change (negb (Ascii.eqb Json.dq Json.dq)) with false. cbv iota.
  rewrite string_body_escape.
  change (Json.skip_ws (String ":" ?x)) with (String ":"%char x).
  cbv iota.
  by rewrite (parse_value_string f
                (String " " (String Json.dq (Json.escape v +:+ String Json.dq tail)))
                v tail eq_refl).
Qed.

Lemma parse_members_more f s k v tail rest acc :
  Json.skip_ws s
  = String Json.dq
      (Json.escape k +:+
       String Json.dq (String ":" (String " " (String Json.dq
         (Json.escape v +:+ String Json.dq tail))))) ->
  Json.skip_ws tail = String "," rest ->
  Json.parse_members s2n (S (S f)) s acc
  = Json.parse_members s2n (S f) rest (Json.define k (VString v) acc).
Proof. intros Hs Ht. by rewrite (parse_members_step f s k v tail), Ht. Qed.

Lemma parse_members_last f s k v tail rest acc :
  Json.skip_ws s
  = String Json.dq
      (Json.escape k +:+
       String Json.dq (String ":" (String " " (String Json.dq
         (Json.escape v +:+ String Json.dq tail))))) ->
  Json.skip_ws tail = String "}" rest ->
  Json.parse_members s2n (S (S f)) s acc
  = Some (VObject (Json.define k (VString v) acc), rest).
Proof. intros Hs Ht. by rewrite (parse_members_step f s k v tail), Ht. Qed.

(** A record reads back, given five units of fuel. *)
Lemma parse_value_record r f rest :
  Json.parse_value s2n (S (S (S (S (S f))))) (record_text r +:+ rest)
  = Some (DynamicsData.to_value r, rest).
Proof.
  destruct r as [k m ct]. unfold record_text.
  cbn [Json.serialize DynamicsData.to_value DynamicsData.key DynamicsData._mergePartial
       DynamicsData.content_type omap list_omap snd fst default Json.join].
  unfold Json.quote, Json.gap, JsString.newline.
  change (Json.escape "key") with "key".
  change (Json.escape "_mergePartial") with "_mergePartial".
  change (Json.escape "content_type") with "content_type".
  norm_append.
  erewrite parse_value_object by reflexivity.
  erewrite (parse_members_more _ _ "key" k) by reflexivity.
  erewrite (parse_members_more _ _ "_mergePartial" m) by reflexivity.
  erewrite (parse_members_last _ _ "content_type" ct) by reflexivity.
  reflexivity.
Qed.

Lemma skip_ws_idem s : Json.skip_ws (Json.skip_ws s) = Json.skip_ws s.
Proof.
  induction s as [|c s IH]; [done|]. simpl.
  destruct (Json.is_ws c) eqn:Hc; [done|]. simpl. by rewrite Hc.
Qed.

(** White space before a value or an element is skipped. *)
Lemma parse_value_ws f c s :
  Json.is_ws c = true -> Json.parse_value s2n f (String c s) = Json.parse_value s2n f s.
Proof.
  intros Hc. destruct f as [|f]; [done|]. rewrite !parse_value_eq. simpl. by rewrite Hc.
Qed.

Lemma parse_elements_ws f c s acc :
  Json.is_ws c = true ->
  Json.parse_elements s2n f (String c s) acc = Json.parse_elements s2n f s acc.
Proof.
  intros Hc. destruct f as [|f]; [done|]. by rewrite !parse_elements_eq, parse_value_ws.
Qed.

(** The records of an array read back, one unit of fuel per record on
    top of the five a record needs. *)
Lemma parse_elements_records rs acc f rest :
  rs <> [] ->
  Json.parse_elements s2n (length rs + 5 + f)
    (Json.join separator (record_text <$> rs) +:+ String (ascii_of_nat 10) (String "]" rest))
    acc
  = Some (VArray (acc ++ (DynamicsData.to_value <$> rs)), rest).
Proof.
  revert acc. induction rs as [|r rs IH]; intros acc Hne; [done|].
  replace (length (r :: rs) + 5 + f) with (S (S (S (S (S (S (length rs + f))))))) by (simpl; lia).
  rewrite parse_elements_eq. destruct rs as [|r' rs].
  - simpl Json.join. simpl fmap. rewrite parse_value_record. reflexivity.
  - change (Json.join separator (record_text <$> r :: r' :: rs))
      with (record_text r +:+ separator +:+ Json.join separator (record_text <$> r' :: rs)).
    rewrite !append_assoc, parse_value_record.
    unfold separator, JsString.newline. norm_append.
    change (Json.skip_ws (String "," ?x)) with (String ","%char x). cbv iota.
    rewrite !parse_elements_ws by reflexivity.
    replace (S (S (S (S (S (length (r' :: rs) + f))))))
      with (length (r' :: rs) + 5 + f) by lia.
    rewrite IH by done. by rewrite <- app_assoc.
Qed.

Lemma record_text_head r : exists x, record_text r = String "{" x.
Proof.
  unfold record_text. cbn [Json.serialize DynamicsData.to_value omap list_omap default from_option].
  rewrite append_cons. eauto.
Qed.

Lemma record_text_length r : 1 <= String.length (record_text r).
Proof. destruct (record_text_head r) as [x ->]. change (1 <= S (String.length x)). lia. Qed.

Lemma join_records_length rs :
  length rs <= String.length (Json.join separator (record_text <$> rs)).
Proof.
  induction rs as [|r [|r' rs] IH]; [done| |].
  - simpl. apply record_text_length.
  - change (Json.join separator (record_text <$> r :: r' :: rs))
      with (record_text r +:+ separator +:+ Json.join separator (record_text <$> r' :: rs)).
    rewrite !append_length. pose proof (record_text_length r). simpl in *. lia.
Qed.

Lemma string_length_cons c s : String.length (String c s) = S (String.length s).
Proof. reflexivity. Qed.

Lemma stringify_registry r rs :
  Json.stringify n2s (registry (r :: rs)) = inr (array_text (r :: rs)).
Proof.
  unfold Json.stringify, registry, array_text. cbn [Json.serialize].
  rewrite <- list_fmap_compose. rewrite fmap_cons.
  unfold JsString.newline, Json.gap. norm_append. reflexivity.
Qed.

(** [JSON.parse(JSON.stringify(records, null, 2))] gives the records back. *)
Lemma parse_stringify_registry rs :
  exists text,
    Json.stringify n2s (registry rs) = inr text
    /\ ~ blank text
    /\ Json.parse s2n text = inr (registry rs).
Proof.
  destruct rs as [|r rs].
  { exists "[]". split_and!; [reflexivity|by intros [=]|reflexivity]. }
  exists (array_text (r :: rs)). split_and!; [apply stringify_registry|by intros [=]|].
  set (rs' := r :: rs). unfold Json.parse.
  assert (length rs' + 7 <= 2 * String.length (array_text rs') + 2) as Hfuel.
  { unfold array_text. rewrite !string_length_cons, append_length, !string_length_cons.
    pose proof (join_records_length rs'). lia. }
  replace (2 * String.length (array_text rs') + 2)
    with (S (length rs' + 5 + (2 * String.length (array_text rs') + 2 - (length rs' + 6))))
    by lia.
  unfold array_text at 2.
  set (tail := String (ascii_of_nat 10) (String "]" EmptyString)).
  assert (exists y, Json.join separator (record_text <$> rs') +:+ tail = String "{" y)
    as [y Hy].
  { unfold rs'. destruct (record_text_head r) as [x Hx].
    destruct rs; simpl fmap; cbn [Json.join]; rewrite Hx, ?append_cons; eauto. }
  rewrite (parse_value_array _ _ y).
  2:{ change (Json.skip_ws (Json.join separator (record_text <$> rs') +:+ tail) = String "{" y).
      by rewrite Hy. }
  rewrite !parse_elements_ws by reflexivity.
  unfold tail. rewrite parse_elements_records by done. reflexivity.
Qed.
End JsonFacts.

(** ** Facts about the format codec *)

Arguments dynamicsFilePath : simpl never.

Lemma set_console_nil w : set_console (fun l => l ++ []) w = w.
Proof. destruct w. unfold set_console. simpl. by rewrite app_nil_r. Qed.

Section Codec.

Context `{Libraries}.

Implicit Types (this : ContentBlockScaffolder) (w : World).

Lemma parseDynamicsFile_blank this content w :
  blank content -> parseDynamicsFile this content w = (Ok (VArray []), w).
Proof.
  intros Hb%JsStringFacts.trim_empty_iff. unfold parseDynamicsFile. by rewrite Hb.
Qed.

Lemma parseDynamicsFile_failed this content e w :
  ~ blank content ->
  library_parse (fileType this) content = inl e ->
  parseDynamicsFile this content w
  = (Ok (VArray []), set_console (fun l => l ++ [parse_error_entry this e]) w).
Proof.
  intros Hb%JsStringFacts.trim_not_blank Hp. unfold parseDynamicsFile. rewrite Hb.
  unfold library_parse in Hp. unfold parse_error_entry.
  destruct (fileType this); unfold try_catch, bind, lift, throw; rewrite Hp; done.
Qed.

Lemma parseDynamicsFile_bare this content doc w :
  fileType this <> toml ->
  ~ blank content ->
  library_parse (fileType this) content = inr doc ->
  parseDynamicsFile this content w
  = (Ok (if Js.isArray doc then doc else VArray []), w).
Proof.
  intros Ht Hb%JsStringFacts.trim_not_blank Hp. unfold parseDynamicsFile. rewrite Hb.
  unfold library_parse in Hp.
  destruct (fileType this); [|done|];
    unfold try_catch, bind, lift, ret; rewrite Hp; done.
Qed.

Lemma parseDynamicsFile_toml this content doc field w :
  fileType this = toml ->
  ~ blank content ->
  parseToml content = inr doc ->
  Js.get doc "dynamics" = inr field ->
  parseDynamicsFile this content w
  = (Ok (if Js.truthy field then field else VArray []), w).
Proof.
  intros Ht Hb%JsStringFacts.trim_not_blank Hp Hg. unfold parseDynamicsFile.
  rewrite Hb, Ht. unfold try_catch, bind, lift, ret. rewrite Hp, Hg. done.
Qed.

(** The decoder returns, whatever the text, and touches the console only. *)
Lemma parseDynamicsFile_returns this content w :
  exists v es, parseDynamicsFile this content w = (Ok v, set_console (fun l => l ++ es) w).
Proof.
  unfold parseDynamicsFile.
  destruct (JsString.is_empty (JsString.trim content)).
  { exists (VArray []), []. by rewrite set_console_nil. }
  unfold try_catch, bind, lift, ret, throw, Console.error.
  destruct (fileType this).
  - destruct (yaml_parse content) as [e|doc]; [by eexists _, [_]|].
    eexists _, []. by rewrite set_console_nil.
  - destruct (parseToml content) as [e|doc]; [by eexists _, [_]|].
    destruct (Js.get doc "dynamics") as [e|field]; [by eexists _, [_]|].
    eexists _, []. by rewrite set_console_nil.
  - destruct (JSON_parse content) as [e|doc]; [by eexists _, [_]|].
    eexists _, []. by rewrite set_console_nil.
Qed.

(** What the decoder returns does not depend on the world. *)
Lemma parseDynamicsFile_value this content w1 w2 :
  (parseDynamicsFile this content w1).1 = (parseDynamicsFile this content w2).1.
Proof.
  unfold parseDynamicsFile.
  destruct (JsString.is_empty (JsString.trim content)); [done|].
  unfold try_catch, bind, lift, ret, throw, Console.error.
  destruct (fileType this).
  - by destruct (yaml_parse content).
  - destruct (parseToml content) as [e|doc]; [done|].
    by destruct (Js.get doc "dynamics").
  - by destruct (JSON_parse content).
Qed.

Lemma stringifyDynamicsData_document this data :
  stringifyDynamicsData this data
  = library_stringify (fileType this) (document (fileType this) data).
Proof. unfold stringifyDynamicsData. by destruct (fileType this). Qed.

(** Decoding the encoding of an array, when the library reads back the
    document it printed. *)
Lemma parse_stringify_lossless this elems :
  lossless (fileType this) (document (fileType this) (VArray elems)) ->
  exists text,
    stringifyDynamicsData this (VArray elems) = inr text
    /\ ~ blank text
    /\ forall w, parseDynamicsFile this text w = (Ok (VArray elems), w).
Proof.
  intros (text & Hs & Hb & Hp). exists text.
  rewrite stringifyDynamicsData_document. repeat split; [done..|]. intros w.
  destruct (fileType this) eqn:Ht.
  - rewrite (parseDynamicsFile_bare this text (VArray elems) w); by rewrite ?Ht.
  - rewrite (parseDynamicsFile_toml this text _ (VArray elems) w Ht Hb Hp); done.
  - rewrite (parseDynamicsFile_bare this text (VArray elems) w); by rewrite ?Ht.
Qed.

End Codec.

(** ** Running the monad *)

Lemma bind_ok {A B} (m : M A) (f : A -> M B) w a w' :
  m w = (Ok a, w') -> bind m f w = f a w'.
Proof. unfold bind. by intros ->. Qed.

Lemma bind_ret {A B} (a : A) (f : A -> M B) w : bind (ret a) f w = f a w.
Proof. done. Qed.

Lemma bind_throw {A B} (m : M A) (f : A -> M B) w e w' :
  m w = (Throw e, w') -> bind m f w = (Throw e, w').
Proof. unfold bind. by intros ->. Qed.

Lemma bind_exit {A B} (m : M A) (f : A -> M B) w c w' :
  m w = (Exit c, w') -> bind m f w = (Exit c, w').
Proof. unfold bind. by intros ->. Qed.

Lemma existsSync_run p w :
  Fs.existsSync p w = (Ok (bool_decide (is_Some (fs w !! p))), w).
Proof.
  unfold Fs.existsSync. destruct (fs w !! p) eqn:E.
  - by rewrite bool_decide_true.
  - rewrite bool_decide_false; [done|]. by intros [? ?].
Qed.

(** A confirmation prompt answers [true] exactly on a yes, uses up one
    answer and leaves the files alone. *)
Lemma confirm_run message w :
  exists r w',
    Prompts.confirm message w = (Ok r, w')
    /\ default false r = accepts (answers w)
    /\ fs w' = fs w /\ writes w' = writes w /\ answers w' = tail (answers w).
Proof.
  unfold Prompts.confirm, Prompts.show, Prompts.next, bind, ret. simpl.
  destruct (answers w) as [|a rest] eqn:Ha; simpl.
  - eexists _, _. split; [done|]. simpl. by rewrite Ha.
  - eexists _, _. split; [done|]. simpl. by destruct a as [[]| | |].
Qed.

Lemma mkdir_one_lookup_ne fsys d p :
  p <> d -> Fs.mkdir_one fsys d !! p = fsys !! p.
Proof.
  intros Hne. unfold Fs.mkdir_one. destruct (fsys !! d); [done|].
  by rewrite lookup_insert_ne.
Qed.

Lemma mkdir_all_lookup_ne ds fsys p :
  p ∉ ds -> foldl Fs.mkdir_one fsys ds !! p = fsys !! p.
Proof.
  revert fsys. induction ds as [|d ds IH]; intros fsys Hp; simpl; [done|].
  apply not_elem_of_cons in Hp as [Hd Hds].
  rewrite IH by done. by apply mkdir_one_lookup_ne.
Qed.

(** *** Creating directories and writing files *)

Lemma unobstructed_spec w dir :
  unobstructed w dir = true
  <-> (forall x, x ∈ Path.ancestors dir ++ [dir] -> Fs.is_file (fs w) x = false).
Proof.
  unfold unobstructed. rewrite negb_true_iff. split.
  - intros Hex x Hx. destruct (Fs.is_file (fs w) x) eqn:E; [|done].
    assert (existsb (Fs.is_file (fs w)) (Path.ancestors dir ++ [dir]) = true) as Ht; [|congruence].
    apply existsb_exists. exists x. split; [|done]. by apply list_elem_of_In.
  - intros Hall. destruct (existsb _ _) eqn:E; [|done].
    apply existsb_exists in E as (x & Hx%list_elem_of_In & Hf). by rewrite (Hall x Hx) in Hf.
Qed.

(** An unobstructed directory is created with its missing ancestors. *)
Lemma mkdirSync_run p w :
  unobstructed w p = true ->
  Fs.mkdirSync p w
  = (Ok tt, set_fs (fun fsys => foldl Fs.mkdir_one fsys (Path.ancestors p ++ [p])) w).
Proof.
  unfold unobstructed, Fs.mkdirSync. rewrite existsb_app. simpl. rewrite orb_false_r.
  intros [-> ->]%negb_true_iff%orb_false_iff. done.
Qed.

(** An obstructed one is not: the call throws and changes nothing. *)
Lemma mkdirSync_obstructed p w :
  unobstructed w p = false -> exists e, Fs.mkdirSync p w = (Throw e, w).
Proof.
  unfold unobstructed, Fs.mkdirSync. rewrite existsb_app. simpl. rewrite orb_false_r.
  intros [->| ->]%negb_false_iff%orb_true_iff; [by eexists|].
  destruct (existsb _ _); by eexists.
Qed.

Lemma mkdirSync_cases p w :
  (unobstructed w p = true
   /\ Fs.mkdirSync p w
      = (Ok tt, set_fs (fun fsys => foldl Fs.mkdir_one fsys (Path.ancestors p ++ [p])) w))
  \/ (unobstructed w p = false /\ exists e, Fs.mkdirSync p w = (Throw e, w)).
Proof.
  destruct (unobstructed w p) eqn:E; [left|right]; split; try done.
  - by apply mkdirSync_run.
  - by apply mkdirSync_obstructed.
Qed.

(** A write replaces the file, or throws and changes nothing. *)
Lemma writeFileSync_cases p content w :
  Fs.writeFileSync p content w = (Ok tt, Fs.written p content w)
  \/ exists e, Fs.writeFileSync p content w = (Throw e, w).
Proof.
  unfold Fs.writeFileSync. destruct (fs w !! p) as [[c|]|]; [by left|right; by eexists|].
  destruct (Path.before_last_slash p) as [[|a d]|]; [by left| |by left].
  destruct (Fs.open_error _ _ _); [right; by eexists|by left].
Qed.

(** An existing file is replaced. *)
Lemma writeFileSync_existing p content w old :
  fs w !! p = Some (File old) ->
  Fs.writeFileSync p content w = (Ok tt, Fs.written p content w).
Proof. intros Hp. unfold Fs.writeFileSync. by rewrite Hp. Qed.

Lemma before_last_slash_name name :
  JsString.contains_char "/" name = false -> Path.before_last_slash name = None.
Proof.
  induction name as [|c name IH]; [done|]. simpl.
  rewrite Ascii.eqb_sym. intros [Hc Hn]%orb_false_iff. by rewrite IH, Hc.
Qed.

Lemma before_last_slash_join d name :
  JsString.contains_char "/" name = false ->
  Path.before_last_slash (Path.join [d; name]) = Some d.
Proof.
  intros Hn. cbn [Path.join]. induction d as [|c d IH].
  - rewrite append_nil_l, append_cons, append_nil_l. simpl.
    by rewrite (before_last_slash_name _ Hn).
  - rewrite append_cons. simpl. by rewrite IH.
Qed.

(** A new file is created in a directory that exists. *)
Lemma writeFileSync_new d name content w :
  JsString.contains_char "/" name = false ->
  fs w !! d = Some Dir ->
  fs w !! Path.join [d; name] <> Some Dir ->
  Fs.writeFileSync (Path.join [d; name]) content w
  = (Ok tt, Fs.written (Path.join [d; name]) content w).
Proof.
  intros Hn Hd Hp. unfold Fs.writeFileSync.
  destruct (fs w !! Path.join [d; name]) as [[c|]|]; [done..|].
  rewrite (before_last_slash_join _ _ Hn). destruct d as [|a d]; [done|].
  unfold Fs.open_error. by rewrite Hd.
Qed.

(** Nothing is created in a directory that is a regular file. *)
Lemma writeFileSync_obstructed d name content w c :
  d <> EmptyString ->
  JsString.contains_char "/" name = false ->
  fs w !! d = Some (File c) ->
  fs w !! Path.join [d; name] = None ->
  exists e, Fs.writeFileSync (Path.join [d; name]) content w = (Throw e, w).
Proof.
  intros Hne Hn Hd Hp. unfold Fs.writeFileSync.
  rewrite Hp, (before_last_slash_join _ _ Hn). destruct d as [|a d]; [done|].
  unfold Fs.open_error. rewrite Hd. by eexists.
Qed.

(** What [mkdirSync] makes of an unobstructed path is a directory. *)
Lemma mkdir_all_directory ds fsys d :
  d ∈ ds -> Fs.is_file fsys d = false ->
  foldl Fs.mkdir_one fsys ds !! d = Some Dir.
Proof.
  revert fsys. induction ds as [|x ds IH]; intros fsys; [by intros ?%elem_of_nil|].
  assert (forall ds m, m !! d = Some Dir -> foldl Fs.mkdir_one m ds !! d = Some Dir) as Hkeep.
  { clear. induction ds as [|y ds IH]; intros m Hm; simpl; [done|].
    apply IH. unfold Fs.mkdir_one. destruct (m !! y) eqn:Hy; [done|].
    destruct (decide (d = y)) as [->|Hne]; [congruence|]. by rewrite lookup_insert_ne. }
  simpl. intros Hin Hf.
  destruct (fsys !! d) as [[c|]|] eqn:Hd.
  - unfold Fs.is_file in Hf. by rewrite Hd in Hf.
  - apply Hkeep. unfold Fs.mkdir_one. destruct (fsys !! x) eqn:Hx; [done|].
    destruct (decide (d = x)) as [->|Hne]; [congruence|]. by rewrite lookup_insert_ne.
  - apply elem_of_cons in Hin as [->|Hin].
    + apply Hkeep. unfold Fs.mkdir_one. rewrite Hd. apply lookup_insert_eq.
    + apply IH; [done|]. unfold Fs.is_file, Fs.mkdir_one.
      destruct (fsys !! x) eqn:Hx; [by rewrite Hd|].
      destruct (decide (d = x)) as [->|Hne]; [by rewrite lookup_insert_eq|].
      by rewrite lookup_insert_ne, Hd.
Qed.

(** With nothing in the way, [ensureDirectoryExists] returns: the
    directory is there afterwards unless it was there before as
    something else; no path outside the directory and its ancestors
    changes, no file is written and no answer is read. *)
Lemma ensureDirectoryExists_run dirPath w :
  unobstructed w dirPath = true ->
  exists w',
    ensureDirectoryExists dirPath w = (Ok tt, w')
    /\ fs w' !! dirPath = Some Dir
    /\ (forall p, p ∉ Path.ancestors dirPath ++ [dirPath] -> fs w' !! p = fs w !! p)
    /\ writes w' = writes w /\ answers w' = answers w.
Proof.
  intros Hfree. unfold ensureDirectoryExists. rewrite (bind_ok _ _ _ _ _ (existsSync_run _ _)).
  assert (Fs.is_file (fs w) dirPath = false) as Hnf.
  { apply (proj1 (unobstructed_spec _ _) Hfree), elem_of_app. right. by constructor. }
  case_bool_decide as Hp; simpl.
  - exists w. split_and!; try done. destruct Hp as [[c|] Hp]; [|done].
    unfold Fs.is_file in Hnf. by rewrite Hp in Hnf.
  - unfold bind. rewrite (mkdirSync_run _ _ Hfree). unfold Console.log. simpl.
    eexists. split; [done|]. simpl. split_and!; [|by intros p ?; apply mkdir_all_lookup_ne|done..].
    apply mkdir_all_directory; [|done]. apply elem_of_app. right. by constructor.
Qed.

Lemma mkdir_one_is_file fsys d x : Fs.is_file (Fs.mkdir_one fsys d) x = Fs.is_file fsys x.
Proof.
  unfold Fs.mkdir_one. destruct (fsys !! d) eqn:Hd; [done|]. unfold Fs.is_file.
  destruct (decide (x = d)) as [->|Hne].
  - by rewrite lookup_insert_eq, Hd.
  - by rewrite lookup_insert_ne.
Qed.

Lemma mkdir_all_is_file ds fsys x :
  Fs.is_file (foldl Fs.mkdir_one fsys ds) x = Fs.is_file fsys x.
Proof.
  revert fsys. induction ds as [|d ds IH]; intros fsys; simpl; [done|].
  by rewrite IH, mkdir_one_is_file.
Qed.

(** The step makes no regular file and removes none. *)
Lemma ensureDirectoryExists_is_file dirPath w x :
  Fs.is_file (fs (ensureDirectoryExists dirPath w).2) x = Fs.is_file (fs w) x.
Proof.
  unfold ensureDirectoryExists. rewrite (bind_ok _ _ _ _ _ (existsSync_run _ _)).
  case_bool_decide as Hp; simpl; [done|]. unfold bind.
  destruct (mkdirSync_cases dirPath w) as [[_ ->]|[_ [e ->]]]; [|done].
  unfold Console.log. simpl. apply mkdir_all_is_file.
Qed.

Lemma unobstructed_is_file w w' dir :
  (forall x, x ∈ Path.ancestors dir ++ [dir] -> Fs.is_file (fs w') x = Fs.is_file (fs w) x) ->
  unobstructed w' dir = unobstructed w dir.
Proof.
  unfold unobstructed. induction (Path.ancestors dir ++ [dir]) as [|d ds IH]; [done|].
  intros Hsame. simpl. rewrite Hsame by constructor.
  rewrite !negb_orb. f_equal. apply IH. intros x Hx. apply Hsame. by constructor.
Qed.

(** In every case the step leaves the paths outside the directory and
    its ancestors, the written files and the answers alone. *)
Lemma ensureDirectoryExists_frame dirPath w :
  exists r w',
    ensureDirectoryExists dirPath w = (r, w')
    /\ (r = Ok tt \/ exists e, r = Throw e /\ fs w' = fs w)
    /\ (forall p, p ∉ Path.ancestors dirPath ++ [dirPath] -> fs w' !! p = fs w !! p)
    /\ writes w' = writes w /\ answers w' = answers w.
Proof.
  unfold ensureDirectoryExists. rewrite (bind_ok _ _ _ _ _ (existsSync_run _ _)).
  case_bool_decide as Hp; simpl.
  - exists (Ok tt), w. split_and!; try done. by left.
  - unfold bind. destruct (mkdirSync_cases dirPath w) as [[_ ->]|[_ [e ->]]].
    + unfold Console.log. simpl. eexists _, _. split; [done|]. simpl.
      split_and!; [by left|by intros p ?; apply mkdir_all_lookup_ne|done..].
    + eexists _, _. split; [done|]. split_and!; try done. right. by exists e.
Qed.

(** ** Facts about the registry updater *)

Section Updater.

Context `{Libraries}.

Implicit Types (this : ContentBlockScaffolder) (w : World) (rs : list DynamicsData.t).

Lemma has_new_key_record this r :
  has_new_key this (DynamicsData.to_value r)
  = inr (bool_decide (DynamicsData.key r = DynamicsData.key (newDynamicsData this))).
Proof.
  unfold has_new_key. simpl.
  destruct (String.eqb_spec (DynamicsData.key r) ("dynbx" +:+ blockNameWithoutUnderscores this)).
  - by rewrite bool_decide_true.
  - by rewrite bool_decide_false.
Qed.

(** On an array of records [findIndex] is the first position whose
    record has the new key. *)
Lemma findIndex_from_records this rs n :
  findIndex_from (has_new_key this) (DynamicsData.to_value <$> rs) n
  = inr ((fun p => n + p.1)
           <$> list_find (fun r => DynamicsData.key r = DynamicsData.key (newDynamicsData this)) rs).
Proof.
  revert n. induction rs as [|r rs IH]; intros n; [done|].
  rewrite fmap_cons. cbn [findIndex_from list_find]. rewrite has_new_key_record.
  case_decide as Hk.
  - rewrite bool_decide_true by done. simpl. do 2 f_equal. lia.
  - rewrite bool_decide_false by done. rewrite IH.
    destruct (list_find _ rs) as [[i x]|]; simpl; [|done]. do 2 f_equal. lia.
Qed.

Lemma findIndex_registry this rs :
  findIndex (has_new_key this) (registry rs)
  = inr (fst <$> list_find (fun r => DynamicsData.key r = DynamicsData.key (newDynamicsData this)) rs).
Proof.
  unfold registry, findIndex. rewrite findIndex_from_records.
  by destruct (list_find _ rs) as [[i x]|].
Qed.

Lemma registry_insert rs i r :
  VArray (<[i := DynamicsData.to_value r]> (DynamicsData.to_value <$> rs))
  = registry (<[i := r]> rs).
Proof. unfold registry. by rewrite list_fmap_insert. Qed.

Lemma registry_push rs r :
  VArray ((DynamicsData.to_value <$> rs) ++ [DynamicsData.to_value r]) = registry (rs ++ [r]).
Proof. unfold registry. by rewrite fmap_app. Qed.

Lemma dynamicsFilePath_join this :
  dynamicsFilePath this
  = Path.join [registry_directory; "dynamics." +:+ FileType_toString (fileType this)].
Proof. unfold dynamicsFilePath. by destruct (fileType this). Qed.

Lemma dirname_dynamicsFilePath this :
  Path.dirname (dynamicsFilePath this) = registry_directory.
Proof. unfold dynamicsFilePath. by destruct (fileType this). Qed.

Lemma registry_name_has_no_slash this :
  JsString.contains_char "/" ("dynamics." +:+ FileType_toString (fileType this)) = false.
Proof. by destruct (fileType this). Qed.

(** The write that ends [updateDynamicsFile], on a registry file that
    exists or can be created in its directory. *)
Lemma writeDynamics_run this data w :
  fs w !! dynamicsFilePath this <> Some Dir ->
  (fs w !! dynamicsFilePath this = None -> fs w !! registry_directory = Some Dir) ->
  writeDynamics this data w
  = match stringifyDynamicsData this data with
    | inl e => (Throw e, w)
    | inr text =>
        (Ok tt, set_writes (fun t => t ++ [(dynamicsFilePath this, text)])
                  (set_fs (fun fsys => <[dynamicsFilePath this := File text]> fsys) w))
    end.
Proof.
  intros Hd Hdir. unfold writeDynamics, bind, lift, throw, ret.
  destruct (stringifyDynamicsData this data) as [e|text]; [done|].
  destruct (fs w !! dynamicsFilePath this) as [[c|]|] eqn:Hp; [|done|].
  - by rewrite (writeFileSync_existing _ _ _ c).
  - rewrite dynamicsFilePath_join in *.
    rewrite writeFileSync_new; [done|apply registry_name_has_no_slash|by apply Hdir|].
    by rewrite Hp.
Qed.

(** In every case the write replaces the registry file by an encoding,
    or throws and changes nothing. *)
Lemma writeDynamics_cases this data w :
  (exists text,
      stringifyDynamicsData this data = inr text
      /\ writeDynamics this data w
         = (Ok tt, set_writes (fun t => t ++ [(dynamicsFilePath this, text)])
                     (set_fs (fun fsys => <[dynamicsFilePath this := File text]> fsys) w)))
  \/ exists e, writeDynamics this data w = (Throw e, w).
Proof.
  unfold writeDynamics, bind, lift, throw, ret.
  destruct (stringifyDynamicsData this data) as [e|text]; [right; by eexists|].
  destruct (writeFileSync_cases (dynamicsFilePath this) text w) as [->|[e ->]].
  - left. by exists text.
  - right. by exists e.
Qed.

Lemma unobstructed_fs w w' dir : fs w' = fs w -> unobstructed w' dir = unobstructed w dir.
Proof. unfold unobstructed. by intros ->. Qed.

(** [updateDynamicsFile] on an existing registry file that decodes to
    the records [rs]: up to console output, the run is the write of
    [upsert], or nothing when the overwrite is not accepted. *)
Lemma updateDynamicsFile_existing this w content rs :
  fs w !! dynamicsFilePath this = Some (File content) ->
  (parseDynamicsFile this content w).1 = Ok (registry rs) ->
  exists w1,
    fs w1 = fs w /\ writes w1 = writes w
    /\ match list_find (fun r => DynamicsData.key r = DynamicsData.key (newDynamicsData this)) rs with
       | Some _ =>
           answers w1 = tail (answers w)
           /\ updateDynamicsFile this w
              = if accepts (answers w)
                then writeDynamics this (registry (upsert (newDynamicsData this) rs)) w1
                else (Ok tt, w1)
       | None =>
           answers w1 = answers w
           /\ updateDynamicsFile this w
              = writeDynamics this (registry (upsert (newDynamicsData this) rs)) w1
       end.
Proof.
  intros Hf Hp.
  assert (updateDynamicsFile this w = mergeDynamics this true w) as ->.
  { unfold updateDynamicsFile.
    rewrite (bind_ok _ _ _ _ _ (existsSync_run _ _)), Hf.
    by rewrite bool_decide_true by eauto. }
  unfold mergeDynamics.
  assert (Fs.readFileSync (dynamicsFilePath this) w = (Ok content, w)) as Hr.
  { unfold Fs.readFileSync. by rewrite Hf. }
  rewrite (bind_ok _ _ _ _ _ Hr).
  destruct (parseDynamicsFile_returns this content w) as (v & es & Hv).
  rewrite Hv in Hp. simpl in Hp. injection Hp as ->.
  rewrite (bind_ok _ _ _ _ _ Hv).
  unfold upsert.
  rewrite findIndex_registry.
  destruct (list_find _ rs) as [[i x]|] eqn:Hfind; simpl; rewrite bind_ret.
  - edestruct confirm_run as (r & w' & Hc & Hr' & Hfs & Hwr & Hans).
    rewrite (bind_ok _ _ _ _ _ Hc), Hr'. simpl in *.
    destruct (accepts (answers w)); simpl.
    + unfold bind at 1, Console.log. rewrite registry_insert.
      eexists. split_and!; [| | |reflexivity]; done.
    + unfold Console.log. eexists. split_and!; [| | |reflexivity]; done.
  - unfold bind at 1, Console.log. rewrite registry_push.
    eexists. split_and!; [| | |reflexivity]; done.
Qed.

Lemma dynamicsFilePath_not_created this :
  dynamicsFilePath this
  ∉ Path.ancestors (Path.dirname (dynamicsFilePath this)) ++ [Path.dirname (dynamicsFilePath this)].
Proof.
  unfold dynamicsFilePath.
  destruct (fileType this); apply (bool_decide_unpack _); by vm_compute.
Qed.

(** [updateDynamicsFile] when there is no registry file and nothing is
    in the way of its directory: after the question, the write of the
    one-record registry into the directory, or nothing. *)
Lemma updateDynamicsFile_missing this w :
  fs w !! dynamicsFilePath this = None ->
  (accepts (answers w) = true -> unobstructed w registry_directory = true) ->
  exists w1,
    fs w1 !! dynamicsFilePath this = None
    /\ (accepts (answers w) = true -> fs w1 !! registry_directory = Some Dir)
    /\ writes w1 = writes w /\ answers w1 = tail (answers w)
    /\ updateDynamicsFile this w
       = if accepts (answers w)
         then writeDynamics this (registry [newDynamicsData this]) w1
         else (Ok tt, w1).
Proof.
  intros Hf Hfree. unfold updateDynamicsFile.
  rewrite (bind_ok _ _ _ _ _ (existsSync_run _ _)), Hf.
  rewrite bool_decide_false by (by intros [? ?]). simpl.
  edestruct confirm_run as (r & w' & Hc & Hr' & Hfs & Hwr & Hans).
  rewrite (bind_ok _ _ _ _ _ Hc), Hr'.
  destruct (accepts (answers w)); simpl.
  - rewrite dirname_dynamicsFilePath.
    destruct (ensureDirectoryExists_run registry_directory w')
      as (w2 & He & Hd2 & Hfs2 & Hwr2 & Hans2).
    { rewrite (unobstructed_fs w w') by done. by apply Hfree. }
    rewrite (bind_ok _ _ _ _ _ He). unfold mergeDynamics, bind at 1, Console.log.
    eexists. split_and!; [| | | |reflexivity]; simpl.
    + rewrite Hfs2, Hfs; [done|].
      rewrite <- (dirname_dynamicsFilePath this). apply dynamicsFilePath_not_created.
    + done.
    + congruence.
    + congruence.
  - unfold Console.log. eexists. split_and!; [| | | |reflexivity]; simpl; congruence.
Qed.

(** In every case [updateDynamicsFile] without a registry file leaves
    the place of the file and the written files alone until its write:
    it ends before the write, or it is the write of the one-record
    registry. *)
Lemma updateDynamicsFile_missing_cases this w :
  fs w !! dynamicsFilePath this = None ->
  exists w1,
    fs w1 !! dynamicsFilePath this = None
    /\ writes w1 = writes w /\ answers w1 = tail (answers w)
    /\ ((exists r, updateDynamicsFile this w = (r, w1)
                   /\ (r = Ok tt /\ accepts (answers w) = false
                       \/ exists e, r = Throw e /\ accepts (answers w) = true))
        \/ (accepts (answers w) = true
            /\ updateDynamicsFile this w
               = writeDynamics this (registry [newDynamicsData this]) w1)).
Proof.
  intros Hf. unfold updateDynamicsFile.
  rewrite (bind_ok _ _ _ _ _ (existsSync_run _ _)), Hf.
  rewrite bool_decide_false by (by intros [? ?]). simpl.
  edestruct confirm_run as (r & w' & Hc & Hr' & Hfs & Hwr & Hans).
  rewrite (bind_ok _ _ _ _ _ Hc), Hr'.
  destruct (accepts (answers w)); simpl.
  - destruct (ensureDirectoryExists_frame (Path.dirname (dynamicsFilePath this)) w')
      as (r2 & w2 & He & Hr2 & Hfs2 & Hwr2 & Hans2).
    assert (fs w2 !! dynamicsFilePath this = None) as Hnone.
    { rewrite Hfs2 by apply dynamicsFilePath_not_created. by rewrite Hfs. }
    destruct Hr2 as [->|(e & -> & _)].
    + rewrite (bind_ok _ _ _ _ _ He). unfold mergeDynamics, bind at 1, Console.log.
      eexists. split_and!; [| | |right; split; [done|reflexivity]]; simpl; congruence.
    + rewrite (bind_throw _ _ _ _ _ He).
      exists w2. split_and!; [done|congruence|congruence|].
      left. eexists. split; [done|]. right. by exists e.
  - unfold Console.log. eexists. split_and!; [| | |left; eexists; split; [reflexivity|by left]];
      simpl; congruence.
Qed.

(** *** The merge step on sequences *)

Lemma upsert_find new rs :
  exists i,
    list_find (fun r => DynamicsData.key r = DynamicsData.key new) (upsert new rs) = Some (i, new)
    /\ i < length (upsert new rs)
    /\ match list_find (fun r => DynamicsData.key r = DynamicsData.key new) rs with
       | Some (j, _) => i = j
       | None => i = length rs
       end.
Proof.
  unfold upsert.
  destruct (list_find _ rs) as [[j x]|] eqn:Hfind.
  - apply list_find_Some in Hfind as (Hj & Hx & Hbefore).
    assert (j < length rs) as Hlt by (by eapply lookup_lt_Some).
    exists j. split_and!; [|by rewrite length_insert|done].
    apply list_find_Some. split_and!; [by apply list_lookup_insert_eq|done|].
    intros k y Hk Hkj. rewrite list_lookup_insert_ne in Hk by lia. eauto.
  - apply list_find_None in Hfind.
    exists (length rs). split_and!; [|rewrite length_app; simpl; lia|done].
    apply list_find_Some. split_and!; [by apply list_lookup_middle|done|].
    intros k y Hk Hkj. rewrite lookup_app_l in Hk by done.
    eapply Forall_lookup_1 in Hfind; eauto.
Qed.

Lemma upsert_keys_NoDup new rs :
  NoDup (DynamicsData.key <$> rs) -> NoDup (DynamicsData.key <$> upsert new rs).
Proof.
  intros Hnd. unfold upsert.
  destruct (list_find _ rs) as [[j x]|] eqn:Hfind.
  - apply list_find_Some in Hfind as (Hj & Hx & _).
    rewrite list_fmap_insert, list_insert_id; [done|].
    by rewrite list_lookup_fmap, Hj, <- Hx.
  - apply list_find_None in Hfind.
    rewrite fmap_app. apply NoDup_app. split_and!; [done| |apply NoDup_singleton].
    intros k Hk ->%list_elem_of_singleton.
    apply list_elem_of_fmap in Hk as (r & Hr & Hin).
    rewrite Forall_forall in Hfind. by apply (Hfind r).
Qed.

(** Upserting the same record again changes nothing. *)
Lemma upsert_idem new rs : upsert new (upsert new rs) = upsert new rs.
Proof.
  destruct (upsert_find new rs) as (i & Hfind & _ & _).
  unfold upsert at 1. rewrite Hfind.
  apply list_find_Some in Hfind as (Hi & _). by apply list_insert_id.
Qed.

(** With distinct keys, a key is found at one position only. *)
Lemma key_position_unique rs i j r1 r2 :
  NoDup (DynamicsData.key <$> rs) ->
  rs !! i = Some r1 -> rs !! j = Some r2 ->
  DynamicsData.key r1 = DynamicsData.key r2 -> i = j.
Proof.
  intros Hnd Hi Hj Hk.
  eapply NoDup_lookup; [exact Hnd| |]; rewrite list_lookup_fmap.
  - by rewrite Hi.
  - rewrite Hj. simpl. by rewrite Hk.
Qed.

End Updater.

(** ** Facts about paths and the template step *)

(** Every ancestor is a non-empty proper prefix of the path. *)
Lemma ancestors_from_prefix s acc x :
  x ∈ Path.ancestors_from acc s ->
  x <> EmptyString /\ exists t, acc +:+ s = x +:+ t /\ t <> EmptyString.
Proof.
  revert acc. induction s as [|c s IH]; intros acc; simpl; [by intros ?%elem_of_nil|].
  destruct (Ascii.eqb_spec c "/"%char) as [->|Hc].
  - intros [Hx|Hx]%elem_of_app.
    + destruct acc as [|a acc]; simpl in Hx; [by apply elem_of_nil in Hx|].
      apply list_elem_of_singleton in Hx as ->. split; [done|]. by exists (String "/"%char s).
    + apply IH in Hx as (Hne & t & Ht & Htne). split; [done|]. exists t. split; [|done].
      rewrite <- Ht. by rewrite append_assoc.
  - intros Hx. apply IH in Hx as (Hne & t & Ht & Htne). split; [done|]. exists t. split; [|done].
    rewrite <- Ht. by rewrite append_assoc.
Qed.

Lemma ancestors_prefix c p x :
  x ∈ Path.ancestors (String c p) ++ [String c p] ->
  exists x' t, x = String c x' /\ p = x' +:+ t.
Proof.
  intros [Hx|Hx]%elem_of_app.
  - apply ancestors_from_prefix in Hx as (Hne & t & Ht & _).
    destruct x as [|c' x']; [done|]. rewrite append_nil_l, append_cons in Ht.
    injection Ht as <- ->. by exists x', t.
  - apply list_elem_of_singleton in Hx as ->.
    exists p, EmptyString. by rewrite append_empty_r.
Qed.

Lemma not_blank_not_empty s : ~ blank s -> JsString.is_empty s = false.
Proof. destruct s; [|done]. intros Hb. by destruct Hb. Qed.

Lemma child_not_ancestor c dir name x :
  x ∈ Path.ancestors (String c dir) ++ [String c dir] ->
  x <> String c dir +:+ "/" +:+ name.
Proof.
  intros (x' & t & -> & ->)%ancestors_prefix Heq.
  apply (f_equal String.length) in Heq.
  rewrite !append_cons in Heq. simpl in Heq. rewrite !append_length in Heq.
  simpl in Heq. lia.
Qed.

(** The theme question in a project without a [themes] directory. *)
Lemma getThemeDirectory_new theme rest w :
  fs w !! "themes" = None ->
  answers w = Text theme :: rest ->
  ~ blank theme ->
  exists w1,
    getThemeDirectory w = (Ok (JsString.trim theme), w1)
    /\ fs w1 = fs w /\ writes w1 = writes w /\ answers w1 = rest.
Proof.
  intros Hf Ha Hb. unfold getThemeDirectory.
  rewrite (bind_ok _ _ _ _ _ (existsSync_run _ _)), Hf.
  rewrite bool_decide_false by (by intros [? ?]). simpl negb. cbv iota.
  unfold bind at 1, Console.log. unfold askThemeName, Prompts.text.
  unfold bind, Prompts.show, Prompts.next_text, ret, throw. simpl.
  rewrite Ha. simpl. unfold validateThemeName.
  rewrite (JsStringFacts.trim_not_blank _ Hb). simpl.
  rewrite (not_blank_not_empty _ Hb). by eexists.
Qed.

(** [createHtmlFile] in a project without a [themes] directory: it asks
    for the theme, creates the directories of the template and writes
    the template; nothing outside these paths changes. *)
Lemma createHtmlFile_new `{Libraries} this theme rest w :
  let dir := Path.join ["themes"; JsString.trim theme; "layouts"; "partials"; "content_blocks"] in
  let file := Path.join [dir; blockNameWithDashes this +:+ ".html"] in
  fs w !! "themes" = None ->
  fs w !! file = None ->
  unobstructed w dir = true ->
  JsString.contains_char "/" (blockNameWithDashes this) = false ->
  answers w = Text theme :: rest ->
  ~ blank theme ->
  exists w',
    createHtmlFile this w
    = (Ok (mkScaffolder (blockName this) (blockNameWithoutUnderscores this)
                        (blockNameWithDashes this) (fileType this)
                        (Some (JsString.trim theme))), w')
    /\ fs w' !! file = Some (File (htmlContent this))
    /\ (forall p, p ∉ Path.ancestors dir ++ [dir] -> p <> file -> fs w' !! p = fs w !! p)
    /\ writes w' = writes w ++ [(file, htmlContent this)]
    /\ answers w' = rest.
Proof.
  intros dir file Hthemes Hfile Hfree Hname Ha Hb. unfold createHtmlFile, try_catch.
  destruct (getThemeDirectory_new theme rest w Hthemes Ha Hb) as (w1 & Hg & Hf1 & Hw1 & Ha1).
  rewrite (bind_ok _ _ _ _ _ Hg). cbv zeta. fold dir. cbn [blockNameWithDashes]. fold file.
  destruct (ensureDirectoryExists_run dir w1) as (w2 & He & Hd2 & Hf2 & Hw2 & Ha2).
  { by rewrite (unobstructed_fs w w1). }
  rewrite (bind_ok _ _ _ _ _ He).
  assert (file ∉ Path.ancestors dir ++ [dir]) as Hnot.
  { assert (exists d, dir = String "t" d) as [d Hd].
    { unfold dir. cbn [Path.join]. rewrite append_cons. eauto. }
    intros Hin. rewrite Hd in Hin. eapply child_not_ancestor in Hin. apply Hin.
    unfold file. cbn [Path.join]. by rewrite Hd. }
  assert (fs w2 !! file = None) as Hfile2 by (rewrite Hf2 by done; by rewrite Hf1).
  rewrite (bind_ok _ _ _ _ _ (existsSync_run _ _)), Hfile2.
  rewrite bool_decide_false by (by intros [? ?]).
  unfold bind at 1. unfold file at 1. rewrite writeFileSync_new; fold file.
  2:{ rewrite contains_char_app, Hname. done. }
  2:{ done. }
  2:{ by rewrite Hfile2. }
  unfold bind, Console.log, ret.
  eexists. split_and!; [reflexivity|..]; simpl.
  - apply lookup_insert_eq.
  - intros p Hp Hpf. rewrite lookup_insert_ne by done. rewrite Hf2 by done. by rewrite Hf1.
  - by rewrite Hw2, Hw1.
  - by rewrite Ha2.
Qed.

(** Nothing is in the way of a directory when no path of the project
    starts with its first character. *)
Lemma unobstructed_fresh c d w :
  (forall x n, fs w !! String c x = Some n -> False) ->
  unobstructed w (String c d) = true.
Proof.
  intros Hfresh. apply unobstructed_spec. intros x (x' & t & -> & _)%ancestors_prefix.
  unfold Fs.is_file. destruct (fs w !! String c x') as [n|] eqn:E; [|done].
  by destruct (Hfresh x' n).
Qed.

(** ** Facts about [scaffold] *)

(** [scaffold] when its three steps succeed: it ends normally, and after
    the template step only the console changes. *)
Lemma scaffold_ok `{Libraries} this this' w wB wC wD :
  createContentFile this
    (set_console (fun c => c ++ [Stdout [AStr "---"]])
       (set_console
          (fun c => c ++ [Stdout [AStr ("📄 Using file type: "
                                        +:+ FileType_toString (fileType this))]])
          (set_console
             (fun c => c ++ [Stdout [AStr ("🚀 Scaffolding content block: "
                                           +:+ blockName this)]]) w)))
  = (Ok tt, wB) ->
  updateDynamicsFile this wB = (Ok tt, wC) ->
  createHtmlFile this wC = (Ok this', wD) ->
  exists w',
    scaffold this w = (Ok tt, w')
    /\ fs w' = fs wD /\ writes w' = writes wD /\ answers w' = answers wD.
Proof.
  intros H1 H2 H3. unfold scaffold, try_catch.
  unfold bind at 1, Console.log at 1. unfold bind at 1, Console.log at 1.
  unfold bind at 1, Console.log at 1.
  rewrite (bind_ok _ _ _ _ _ H1), (bind_ok _ _ _ _ _ H2), (bind_ok _ _ _ _ _ H3).
  unfold bind, Console.log. by eexists.
Qed.

(** ** Properties of the format codec *)

Section CodecProperties.

Context `{Libraries}.

Implicit Types (this : ContentBlockScaffolder) (w : World) (rs : list DynamicsData.t).

(** C7. Tolerant decode: in every format a blank text (the empty string
    included) decodes to the empty sequence; a text the library refuses
    decodes to the empty sequence with the error on the console and
    nothing else changed; and the decoder returns normally on every
    text. *)
Theorem tolerant_decode this content w :
  (blank content -> parseDynamicsFile this content w = (Ok (VArray []), w))
  /\ (forall e, ~ blank content -> library_parse (fileType this) content = inl e ->
        parseDynamicsFile this content w
        = (Ok (VArray []), set_console (fun l => l ++ [parse_error_entry this e]) w))
  /\ (forall e, library_parse (fileType this) content = inl e ->
        (parseDynamicsFile this content w).1 = Ok (VArray []))
  /\ (exists v w', parseDynamicsFile this content w = (Ok v, w')).
Proof.
  split_and!.
  - apply parseDynamicsFile_blank.
  - intros e. apply parseDynamicsFile_failed.
  - intros e He. destruct (JsString.all_chars JsString.is_whitespace content) eqn:Hb.
    + by rewrite parseDynamicsFile_blank.
    + rewrite (parseDynamicsFile_failed this content e); [done| |done].
      unfold blank. by rewrite Hb.
  - destruct (parseDynamicsFile_returns this content w) as (v & es & Hv). eauto.
Qed.

(** C10. In format B (toml) the decoder hands back the [dynamics] field
    of the parsed document unchanged whenever it is truthy, array or
    not, and the empty sequence when the field is absent or falsy; in
    formats A and C a parsed document that is not an array decodes to
    the empty sequence. *)
Theorem toml_dynamics_field_is_not_coerced this content doc w :
  ~ blank content ->
  library_parse (fileType this) content = inr doc ->
  match fileType this with
  | toml =>
      forall field, Js.get doc "dynamics" = inr field ->
        parseDynamicsFile this content w
        = (Ok (if Js.truthy field then field else VArray []), w)
  | yaml | json =>
      parseDynamicsFile this content w = (Ok (if Js.isArray doc then doc else VArray []), w)
  end.
Proof.
  intros Hb Hp. destruct (fileType this) eqn:Ht.
  - apply parseDynamicsFile_bare; by rewrite ?Ht.
  - intros field Hg. by apply (parseDynamicsFile_toml this content doc).
  - apply parseDynamicsFile_bare; by rewrite ?Ht.
Qed.

End CodecProperties.

(** With the built-in [JSON] of this model, format C reads back every
    registry it prints. *)
Lemma builtin_JSON_lossless L Number_toString StringToNumber rs :
  @lossless (with_builtin_JSON L Number_toString StringToNumber) json
            (document json (registry rs)).
Proof.
  destruct (parse_stringify_registry StringToNumber Number_toString rs)
    as (text & Hs & Hb & Hp).
  by exists text.
Qed.

Lemma lossless_unless_json L Number_toString StringToNumber this rs :
  (fileType this <> json ->
   @lossless (with_builtin_JSON L Number_toString StringToNumber) (fileType this)
             (document (fileType this) (registry rs))) ->
  @lossless (with_builtin_JSON L Number_toString StringToNumber) (fileType this)
            (document (fileType this) (registry rs)).
Proof.
  intros Hl. destruct (fileType this) eqn:Ht; try (by apply Hl).
  apply builtin_JSON_lossless.
Qed.

(** What the script adds to the libraries is lossless: decoding the
    encoding of a sequence of records gives the sequence back, and the
    decoder logs nothing, for format C with the built-in [JSON] as it
    is, and for formats A and B whenever the format's library reads
    back the document it printed for the sequence. *)
Lemma round_trip_given_the_libraries (L : Libraries) Number_toString StringToNumber this rs :
  (fileType this <> json ->
   @lossless (with_builtin_JSON L Number_toString StringToNumber) (fileType this)
             (document (fileType this) (registry rs))) ->
  exists text,
    @stringifyDynamicsData (with_builtin_JSON L Number_toString StringToNumber)
                           this (registry rs) = inr text
    /\ forall w,
         @parseDynamicsFile (with_builtin_JSON L Number_toString StringToNumber) this text w
         = (Ok (registry rs), w).
Proof.
  intros Hl%lossless_unless_json.
  destruct (@parse_stringify_lossless _ this _ Hl) as (text & Hs & _ & Hp).
  by exists text.
Qed.

(** ** Properties of the registry updater *)

Section UpdaterProperties.

Context `{Libraries}.

Implicit Types (this : ContentBlockScaffolder) (w : World) (rs : list DynamicsData.t).

(** Every run on a registry [rs] ends before the write in a world that
    differs from the start by console output, answers read and
    directories created only, or performs the write of [upsert] in such
    a world. *)
Lemma updateDynamicsFile_cases this w rs :
  registry_on_disk this w rs ->
  exists w1,
    fs w1 !! dynamicsFilePath this = fs w !! dynamicsFilePath this
    /\ writes w1 = writes w
    /\ ((exists r, updateDynamicsFile this w = (r, w1))
        \/ updateDynamicsFile this w
           = writeDynamics this (registry (upsert (newDynamicsData this) rs)) w1).
Proof.
  intros [[Hf ->]|(content & Hf & Hp)].
  - destruct (updateDynamicsFile_missing_cases this w Hf) as (w1 & Hf1 & Hw1 & _ & Hrun).
    exists w1. split_and!; [congruence|done|].
    destruct Hrun as [(r & Hrun & _)|[_ Hrun]]; [left; by exists r|by right].
  - destruct (updateDynamicsFile_existing this w content rs Hf Hp) as (w1 & Hf1 & Hw1 & Hrun).
    exists w1. split_and!; [congruence|done|].
    destruct (list_find _ rs) as [[i x]|]; destruct Hrun as [_ Hrun]; [|by right].
    destruct (accepts (answers w)); [right|left; eexists]; done.
Qed.

(** C1. Key uniqueness is preserved by the merge step: on a registry
    whose keys are distinct, a run of [updateDynamicsFile] either writes
    nothing and leaves the registry file as it was, or writes the
    encoding of a sequence whose keys are distinct again. *)
Theorem upsert_preserves_key_uniqueness this w rs :
  registry_on_disk this w rs ->
  NoDup (DynamicsData.key <$> rs) ->
  forall r w', updateDynamicsFile this w = (r, w') ->
    (fs w' !! dynamicsFilePath this = fs w !! dynamicsFilePath this /\ writes w' = writes w)
    \/ (exists rs' text,
           NoDup (DynamicsData.key <$> rs')
           /\ stringifyDynamicsData this (registry rs') = inr text
           /\ fs w' !! dynamicsFilePath this = Some (File text)
           /\ writes w' = writes w ++ [(dynamicsFilePath this, text)]).
Proof.
  intros Hreg Hnd r w' Hrun.
  destruct (updateDynamicsFile_cases this w rs Hreg) as (w1 & Hf1 & Hw1 & [[r0 Hskip]|Hwrite]).
  - left. rewrite Hskip in Hrun. by injection Hrun as _ <-.
  - rewrite Hwrite in Hrun.
    destruct (writeDynamics_cases this (registry (upsert (newDynamicsData this) rs)) w1)
      as [(text & Hs & Hw)|[e Hw]]; rewrite Hw in Hrun.
    + right. injection Hrun as _ <-. exists (upsert (newDynamicsData this) rs), text.
      split_and!; [by apply upsert_keys_NoDup|done|by apply lookup_insert_eq|].
      simpl. by rewrite Hw1.
    + left. by injection Hrun as _ <-.
Qed.

(** C5. Declining the overwrite is atomic: when the registry file holds
    a record with the new key and the answer to the overwrite question
    is not a yes, the run ends normally, writes nothing and leaves every
    file, the registry file included, exactly as it was. *)
Theorem declined_overwrite_leaves_file this w content rs :
  fs w !! dynamicsFilePath this = Some (File content) ->
  (parseDynamicsFile this content w).1 = Ok (registry rs) ->
  DynamicsData.key (newDynamicsData this) ∈ DynamicsData.key <$> rs ->
  accepts (answers w) = false ->
  exists w',
    updateDynamicsFile this w = (Ok tt, w')
    /\ fs w' = fs w
    /\ fs w' !! dynamicsFilePath this = Some (File content)
    /\ writes w' = writes w.
Proof.
  intros Hf Hp Hin Hno.
  destruct (updateDynamicsFile_existing this w content rs Hf Hp) as (w1 & Hf1 & Hw1 & Hrun).
  destruct (list_find _ rs) as [[i x]|] eqn:Hfind.
  - destruct Hrun as [_ Hrun]. rewrite Hno in Hrun.
    exists w1. split_and!; [done|done|by rewrite Hf1|done].
  - apply list_find_None in Hfind. rewrite Forall_forall in Hfind.
    apply list_elem_of_fmap in Hin as (r & Hr & Hin). by destruct (Hfind r Hin).
Qed.

(** C6. Frame property of the merge step, on an existing registry file
    that decodes to [rs]: what the run writes is the encoding of a
    sequence [rs'], and only the registry file changes.  When no record
    has the new key, [rs'] is [rs] with the new record appended: every
    record of [rs] keeps its position.  When the first record with the
    new key is at index [i] (and the overwrite is accepted), [rs'] has
    the length of [rs], the new record at [i], and the records of [rs]
    everywhere else. *)
Theorem upsert_frame this w content rs :
  fs w !! dynamicsFilePath this = Some (File content) ->
  (parseDynamicsFile this content w).1 = Ok (registry rs) ->
  (DynamicsData.key (newDynamicsData this) ∈ DynamicsData.key <$> rs ->
   accepts (answers w) = true) ->
  exists rs',
    (forall text, stringifyDynamicsData this (registry rs') = inr text ->
       exists w',
         updateDynamicsFile this w = (Ok tt, w')
         /\ fs w' = <[dynamicsFilePath this := File text]> (fs w)
         /\ writes w' = writes w ++ [(dynamicsFilePath this, text)])
    /\ (DynamicsData.key (newDynamicsData this) ∉ DynamicsData.key <$> rs ->
          length rs' = S (length rs)
          /\ rs' !! length rs = Some (newDynamicsData this)
          /\ forall j r, rs !! j = Some r -> rs' !! j = Some r)
    /\ (forall i r,
          rs !! i = Some r ->
          DynamicsData.key r = DynamicsData.key (newDynamicsData this) ->
          (forall j r', j < i -> rs !! j = Some r' ->
             DynamicsData.key r' <> DynamicsData.key (newDynamicsData this)) ->
          length rs' = length rs
          /\ rs' !! i = Some (newDynamicsData this)
          /\ forall j, j <> i -> rs' !! j = rs !! j).
Proof.
  intros Hf Hp Hyes. set (new := newDynamicsData this) in *.
  exists (upsert new rs). split_and!.
  - intros text Hs.
    destruct (updateDynamicsFile_existing this w content rs Hf Hp) as (w1 & Hf1 & Hw1 & Hrun).
    assert (updateDynamicsFile this w = writeDynamics this (registry (upsert new rs)) w1) as ->.
    { fold new in Hrun. destruct (list_find _ rs) as [[i x]|] eqn:Hfind; [|by destruct Hrun].
      destruct Hrun as [_ ->]. rewrite Hyes; [done|].
      apply list_find_Some in Hfind as (Hi & Hx & _).
      apply list_elem_of_fmap. exists x. split; [done|]. by eapply list_elem_of_lookup_2. }
    rewrite writeDynamics_run, Hs by (by rewrite Hf1, Hf).
    eexists. split_and!; [done|simpl; by rewrite Hf1|simpl; by rewrite Hw1].
  - intros Hnot. unfold upsert.
    destruct (list_find _ rs) as [[i x]|] eqn:Hfind.
    + apply list_find_Some in Hfind as (Hi & Hx & _). destruct Hnot.
      apply list_elem_of_fmap. exists x. split; [done|]. by eapply list_elem_of_lookup_2.
    + split_and!.
      * rewrite length_app. simpl. lia.
      * by apply list_lookup_middle.
      * intros j r Hj. rewrite lookup_app_l; [done|]. by eapply lookup_lt_Some.
  - intros i r Hi Hr Hfirst. unfold upsert.
    assert (list_find (fun r => DynamicsData.key r = DynamicsData.key new) rs = Some (i, r))
      as ->.
    { apply list_find_Some. split_and!; [done..|].
      intros j y Hj Hlt. by apply (Hfirst j y). }
    split_and!.
    + apply length_insert.
    + apply list_lookup_insert_eq. by eapply lookup_lt_Some.
    + intros j Hj. by apply list_lookup_insert_ne.
Qed.

Lemma detectFileType_run w : detectFileType w = (Ok (detected w), w).
Proof.
  unfold detectFileType, detected, probe_order, bind, ret, Fs.existsSync.
  change (Path.join [Path.join ["quiqr"; "model"; "includes"]; "dynamics.toml"])
    with (registry_file toml).
  change (Path.join [Path.join ["quiqr"; "model"; "includes"]; "dynamics.json"])
    with (registry_file json).
  change (Path.join [Path.join ["quiqr"; "model"; "includes"]; "dynamics.yaml"])
    with (registry_file yaml).
  destruct (fs w !! registry_file toml) eqn:Et;
    destruct (fs w !! registry_file json) eqn:Ej;
    destruct (fs w !! registry_file yaml) eqn:Ey;
    repeat (rewrite ?filter_cons, ?filter_nil, ?Et, ?Ej, ?Ey; case_decide as Hd);
    try done; try (by destruct Hd as [? ?]); by destruct Hd.
Qed.

(** The constructor keeps the name and derives the two other spellings. *)
Lemma constructor_run name flag w0 this w :
  constructor name flag w0 = (Ok this, w) ->
  w = w0
  /\ blockName this = name
  /\ blockNameWithoutUnderscores this = JsString.replace_all "_" EmptyString name
  /\ blockNameWithDashes this = JsString.replace_all "_" "-" name
  /\ (forall t, flag = Some t -> fileType this = t).
Proof.
  unfold constructor. destruct flag as [t|].
  - rewrite bind_ret. unfold ret. intros [= <- <-]. split_and!; try done. by intros ? [= ->].
  - rewrite (bind_ok _ _ _ _ _ (detectFileType_run _)). unfold ret. by intros [= <- <-].
Qed.

Lemma replace_all_without_underscores id :
  JsString.replace_all "_" EmptyString id = without_underscores id.
Proof.
  unfold without_underscores. rewrite <- JsStringFacts.replace_all_remove.
  by rewrite String.string_of_list_ascii_of_string.
Qed.

(** C2. For every identifier [id], a run on an empty or missing
    registry writes the registry of exactly one record, whose key is
    [dynbx] followed by [id] without its underscores and whose
    [_mergePartial] and [content_type] are [id].  A missing registry is
    created when the creation is accepted and no regular file is in the
    way of [quiqr/model/includes]. *)
Theorem upsert_on_empty_registry id flag w0 this w :
  JsString.matches_identifier id = true ->
  constructor id flag w0 = (Ok this, w) ->
  registry_on_disk this w [] ->
  (fs w !! dynamicsFilePath this = None -> accepts (answers w) = true) ->
  (fs w !! dynamicsFilePath this = None -> unobstructed w registry_directory = true) ->
  forall text,
    stringifyDynamicsData this
      (registry [ {| DynamicsData.key := "dynbx" +:+ without_underscores id;
                     DynamicsData._mergePartial := id;
                     DynamicsData.content_type := id |} ]) = inr text ->
    exists w',
      updateDynamicsFile this w = (Ok tt, w')
      /\ fs w' !! dynamicsFilePath this = Some (File text)
      /\ writes w' = writes w ++ [(dynamicsFilePath this, text)].
Proof.
  intros _ (_ & Hname & Hkey & _ & _)%constructor_run Hreg Hyes Hfree text Hs.
  assert (newDynamicsData this
          = {| DynamicsData.key := "dynbx" +:+ without_underscores id;
               DynamicsData._mergePartial := id;
               DynamicsData.content_type := id |}) as Hnew.
  { unfold newDynamicsData. by rewrite Hname, Hkey, replace_all_without_underscores. }
  rewrite <- Hnew in Hs.
  assert (exists w1, fs w1 !! dynamicsFilePath this <> Some Dir
                     /\ (fs w1 !! dynamicsFilePath this = None ->
                         fs w1 !! registry_directory = Some Dir)
                     /\ writes w1 = writes w
                     /\ updateDynamicsFile this w
                        = writeDynamics this (registry [newDynamicsData this]) w1)
    as (w1 & Hf1 & Hd1 & Hw1 & ->).
  { destruct Hreg as [[Hf _]|(content & Hf & Hp)].
    - destruct (updateDynamicsFile_missing this w Hf) as (w1 & Hf1 & Hd1 & Hw1 & _ & Hrun);
        [by intros _; apply Hfree|].
      rewrite (Hyes Hf) in Hrun, Hd1.
      exists w1. split_and!; [by rewrite Hf1|by intros _; apply Hd1|done..].
    - destruct (updateDynamicsFile_existing this w content [] Hf Hp)
        as (w1 & Hf1 & Hw1 & Hrun).
      simpl in Hrun. destruct Hrun as [_ Hrun].
      exists w1. split_and!; [by rewrite Hf1, Hf|by rewrite Hf1, Hf|done..]. }
  rewrite writeDynamics_run, Hs by done.
  eexists. split_and!; [done|apply lookup_insert_eq|simpl; by rewrite Hw1].
Qed.

(** Two accepted runs on a registry with distinct keys, for a library
    that reads back the registry the first run printed. *)
Lemma upsert_twice_lossless this w rs rest :
  registry_on_disk this w rs ->
  (fs w !! dynamicsFilePath this = None -> unobstructed w registry_directory = true) ->
  NoDup (DynamicsData.key <$> rs) ->
  answers w = Confirm true :: Confirm true :: rest ->
  lossless (fileType this)
           (document (fileType this) (registry (upsert (newDynamicsData this) rs))) ->
  exists w1 w2 rs1 rs2 i,
    updateDynamicsFile this w = (Ok tt, w1)
    /\ updateDynamicsFile this w1 = (Ok tt, w2)
    /\ registry_on_disk this w1 rs1
    /\ registry_on_disk this w2 rs2
    /\ fs w2 !! dynamicsFilePath this = fs w1 !! dynamicsFilePath this
    /\ rs1 !! i = Some (newDynamicsData this)
    /\ rs2 !! i = Some (newDynamicsData this)
    /\ (forall j r, rs2 !! j = Some r ->
          DynamicsData.key r = DynamicsData.key (newDynamicsData this) -> j = i).
Proof.
  intros Hreg Hfree Hnd Hans Hl. set (new := newDynamicsData this) in *.
  destruct (parse_stringify_lossless this _ Hl) as (text & Hs & _ & Hp).
  fold (registry (upsert new rs)) in Hs, Hp.
  (* first run *)
  assert (exists w1, updateDynamicsFile this w = (Ok tt, w1)
                     /\ fs w1 !! dynamicsFilePath this = Some (File text)
                     /\ accepts (answers w1) = true) as (w1 & Hrun1 & Hf1 & Hyes1).
  { assert (exists w0, fs w0 !! dynamicsFilePath this <> Some Dir
                       /\ (fs w0 !! dynamicsFilePath this = None ->
                           fs w0 !! registry_directory = Some Dir)
                       /\ accepts (answers w0) = true
                       /\ updateDynamicsFile this w
                          = writeDynamics this (registry (upsert new rs)) w0)
      as (w0 & Hf0 & Hd0 & Hyes0 & ->).
    { destruct Hreg as [[Hf ->]|(content & Hf & Hp0)].
      - destruct (updateDynamicsFile_missing this w Hf) as (w0 & Hf0 & Hd0 & _ & Ha0 & Hrun);
          [by intros _; apply Hfree|].
        rewrite Hans in Hrun, Ha0, Hd0. exists w0.
        split_and!; [by rewrite Hf0|by intros _; apply Hd0|by rewrite Ha0|done].
      - destruct (updateDynamicsFile_existing this w content rs Hf Hp0)
          as (w0 & Hf0 & _ & Hrun).
        fold new in Hrun. exists w0.
        destruct (list_find _ rs) as [[i x]|]; destruct Hrun as [Ha0 Hrun];
          rewrite Hans in *;
          (split_and!; [by rewrite Hf0, Hf|by rewrite Hf0, Hf|by rewrite Ha0|done]). }
    rewrite writeDynamics_run, Hs by done.
    eexists. split_and!; [done|apply lookup_insert_eq|done]. }
  (* second run *)
  destruct (updateDynamicsFile_existing this w1 text (upsert new rs) Hf1) as
    (w1' & Hf1' & _ & Hrun2); [by rewrite Hp|].
  fold new in Hrun2. destruct (upsert_find new rs) as (i & Hfind & _ & _).
  rewrite Hfind in Hrun2. destruct Hrun2 as [_ Hrun2].
  rewrite Hyes1, upsert_idem, writeDynamics_run, Hs in Hrun2 by (by rewrite Hf1', Hf1).
  apply list_find_Some in Hfind as (Hi & _).
  eexists w1, _, (upsert new rs), (upsert new rs), i.
  split_and!; [done|exact Hrun2| | |simpl|done|done|].
  - right. exists text. split; [done|]. by rewrite Hp.
  - right. exists text. split; [apply lookup_insert_eq|]. by rewrite Hp.
  - by rewrite lookup_insert_eq.
  - intros j r Hj Hk.
    by apply (key_position_unique (upsert new rs) j i r new (upsert_keys_NoDup new rs Hnd)).
Qed.

(** C8. Format auto-detection: without a format flag the constructor
    probes for [dynamics.toml], then [dynamics.json], then
    [dynamics.yaml] in [quiqr/model/includes] and takes the format of
    the first that exists; when none exists it takes yaml.  It changes
    nothing in the world. *)
Theorem format_auto_detection name w :
  exists this,
    constructor name None w = (Ok this, w)
    /\ fileType this = detected w
    /\ (is_Some (fs w !! "quiqr/model/includes/dynamics.toml") -> fileType this = toml)
    /\ (fs w !! "quiqr/model/includes/dynamics.toml" = None ->
        is_Some (fs w !! "quiqr/model/includes/dynamics.json") -> fileType this = json)
    /\ (fs w !! "quiqr/model/includes/dynamics.toml" = None ->
        fs w !! "quiqr/model/includes/dynamics.json" = None ->
        fileType this = yaml).
Proof.
  eexists. split.
  { unfold constructor. rewrite (bind_ok _ _ _ _ _ (detectFileType_run _)). reflexivity. }
  cbn [fileType]. split; [done|].
  unfold detected, probe_order. rewrite !filter_cons, filter_nil.
  change (registry_file toml) with "quiqr/model/includes/dynamics.toml".
  change (registry_file json) with "quiqr/model/includes/dynamics.json".
  split_and!.
  - intros Ht. by case_decide.
  - intros Ht Hj. rewrite Ht. repeat case_decide; try done; by destruct (is_Some_None (A:=node)).
  - intros Ht Hj. rewrite Ht, Hj.
    repeat case_decide; try done; by destruct (is_Some_None (A:=node)).
Qed.

End UpdaterProperties.

(** C4. Running the update twice for the same block on a registry with
    distinct keys, with a yes to every question: both runs end normally,
    the file holds the same text after each, that text decodes to a
    sequence with exactly one record of the block's key, and the record
    is at the same index after the second run as after the first.  When
    the registry file is missing, no regular file is in the way of
    [quiqr/model/includes], where the first run creates it.  The
    second run reads what the first one wrote: for format C this is the
    built-in [JSON], for formats A and B the library is taken to read
    back the registry it printed. *)
Theorem upsert_twice (L : Libraries) Number_toString StringToNumber this w rs rest :
  @registry_on_disk (with_builtin_JSON L Number_toString StringToNumber) this w rs ->
  (fs w !! dynamicsFilePath this = None -> unobstructed w registry_directory = true) ->
  NoDup (DynamicsData.key <$> rs) ->
  answers w = Confirm true :: Confirm true :: rest ->
  (fileType this <> json ->
   @lossless (with_builtin_JSON L Number_toString StringToNumber) (fileType this)
             (document (fileType this) (registry (upsert (newDynamicsData this) rs)))) ->
  exists w1 w2 rs1 rs2 i,
    @updateDynamicsFile (with_builtin_JSON L Number_toString StringToNumber) this w
    = (Ok tt, w1)
    /\ @updateDynamicsFile (with_builtin_JSON L Number_toString StringToNumber) this w1
       = (Ok tt, w2)
    /\ @registry_on_disk (with_builtin_JSON L Number_toString StringToNumber) this w1 rs1
    /\ @registry_on_disk (with_builtin_JSON L Number_toString StringToNumber) this w2 rs2
    /\ fs w2 !! dynamicsFilePath this = fs w1 !! dynamicsFilePath this
    /\ rs1 !! i = Some (newDynamicsData this)
    /\ rs2 !! i = Some (newDynamicsData this)
    /\ (forall j r, rs2 !! j = Some r ->
          DynamicsData.key r = DynamicsData.key (newDynamicsData this) -> j = i).
Proof.
  intros Hreg Hfree Hnd Hans Hl%lossless_unless_json.
  by apply (@upsert_twice_lossless _ this w rs rest).
Qed.

(** ** The end-to-end scenario *)

(** Runs a closed computation [t] and records its result as [H]. *)
Ltac compute_run H t :=
  let r := eval vm_compute in t in
  assert (t = r) as H by (vm_compute; reflexivity).

(** C9. The scenario [hero_banner] in JSON on an empty project, with the
    creation of the registry accepted and a theme name (one path
    segment, after trimming) typed at the prompt: the run ends normally
    and has written exactly three files.
    The content definition holds one field template with empty [key],
    [title] and [type]; the registry holds the single record of the
    block; the template under the theme's [content_blocks] directory
    holds a [div] of class [hero-banner-block]. *)
Theorem hero_banner_scenario (L : Libraries) Number_toString StringToNumber theme :
  Path.plain (JsString.trim theme) = true ->
  let content_file := "quiqr/model/partials/hero_banner.json" in
  let registry_file := "quiqr/model/includes/dynamics.json" in
  let template_file :=
    "themes/" +:+ JsString.trim theme +:+ "/layouts/partials/content_blocks/hero-banner.html" in
  exists w',
    @run (with_builtin_JSON L Number_toString StringToNumber)
         ["hero_banner"; "--type"; "json"]
         (empty_project [Confirm true; Text theme]) = (Ok tt, w')
    /\ fs w' !! content_file = Some (File hero_banner_content_json)
    /\ fs w' !! registry_file = Some (File hero_banner_dynamics_json)
    /\ fs w' !! template_file = Some (File hero_banner_html)
    /\ writes w' = [(content_file, hero_banner_content_json);
                    (registry_file, hero_banner_dynamics_json);
                    (template_file, hero_banner_html)]
    /\ Json.parse StringToNumber hero_banner_content_json
       = inr (VObject [("fields", VArray [VObject [("key", VString EmptyString);
                                                   ("title", VString EmptyString);
                                                   ("type", VString EmptyString)]])])
    /\ Json.parse StringToNumber hero_banner_dynamics_json
       = inr (VArray [VObject [("key", VString "dynbxherobanner");
                               ("_mergePartial", VString "hero_banner");
                               ("content_type", VString "hero_banner")]])
    /\ exists before after,
         hero_banner_html
         = before +:+ "<div class=" +:+ quoted "hero-banner-block" +:+ ">" +:+ after.
Proof.
  intros Hplain content_file registry_file template_file.
  assert (~ blank theme) as Hb.
  { intros Hblank%JsStringFacts.trim_empty_iff. unfold Path.plain in Hplain.
    by rewrite Hblank in Hplain. }
  clear Hplain.
  set (this := mkScaffolder "hero_banner" "herobanner" "hero-banner" json None).
  set (w0 := empty_project [Confirm true; Text theme]).
  set (LJ := with_builtin_JSON L Number_toString StringToNumber).
  assert (@main LJ ["hero_banner"; "--type"; "json"] w0 = @scaffold LJ this w0) as Hmain
    by reflexivity.
  (* the content definition and the registry: closed computations *)
  compute_run H1
    (@createContentFile LJ this
       (set_console (fun c => c ++ [Stdout [AStr "---"]])
          (set_console
             (fun c => c ++ [Stdout [AStr ("📄 Using file type: "
                                           +:+ FileType_toString (fileType this))]])
             (set_console
                (fun c => c ++ [Stdout [AStr ("🚀 Scaffolding content block: "
                                              +:+ blockName this)]]) w0)))).
  lazymatch type of H1 with _ = (_, ?w) => set (wB := w) in H1 end.
  compute_run H2 (@updateDynamicsFile LJ this wB).
  lazymatch type of H2 with _ = (_, ?w) => set (wC := w) in H2 end.
  (* the template: the theme is whatever was typed *)
  set (dir := Path.join ["themes"; JsString.trim theme; "layouts"; "partials"; "content_blocks"]).
  set (file := Path.join [dir; blockNameWithDashes this +:+ ".html"]).
  assert (file = template_file) as Hfile.
  { unfold file, dir, template_file. cbn [Path.join blockNameWithDashes this].
    rewrite !append_assoc, !append_cons, !append_nil_l. reflexivity. }
  assert (exists d, dir = String "t" d) as [d Hd].
  { unfold dir. cbn [Path.join]. rewrite append_cons. eauto. }
  assert (exists f, file = String "t" f) as [f Hf].
  { unfold file. cbn [Path.join]. rewrite Hd, append_cons. eauto. }
  assert (forall q n, fs wC !! String "t" q = Some n -> False) as Hfresh.
  { intros q n E. apply elem_of_map_to_list in E. clear -E. vm_compute in E.
    repeat (apply elem_of_cons in E as [E|E]; [discriminate E|]).
    by apply elem_of_nil in E. }
  assert (fs wC !! file = None) as Hnone.
  { rewrite Hf. destruct (fs wC !! String "t" f) as [n|] eqn:E; [exfalso|done].
    by apply (Hfresh f n). }
  destruct (@createHtmlFile_new LJ this theme [] wC) as (wD & H3 & HfileD & HframeD & HwD & _);
    [by vm_compute|exact Hnone|fold dir; rewrite Hd; by apply unobstructed_fresh
    |reflexivity|reflexivity|exact Hb|].
  fold dir file in HfileD, HframeD, HwD.
  destruct (@scaffold_ok LJ this _ w0 wB wC wD H1 H2 H3) as (w' & Hrun & Hfs' & Hw' & _).
  assert (forall p q, p = String "q" q -> fs w' !! p = fs wC !! p) as Hframe.
  { intros p q ->. rewrite Hfs'. apply HframeD; [|by rewrite Hf].
    rewrite Hd. by intros (x' & t & Hx & _)%ancestors_prefix. }
  exists w'. split_and!.
  - unfold run, try_catch. by rewrite Hmain, Hrun.
  - rewrite (Hframe content_file _ eq_refl). by vm_compute.
  - rewrite (Hframe registry_file _ eq_refl). by vm_compute.
  - rewrite <- Hfile, Hfs', HfileD. by vm_compute.
  - rewrite Hw', HwD, Hfile. by vm_compute.
  - by vm_compute.
  - by vm_compute.
  - exists (text_lines ["<!-- hero_banner block template -->"; "  "]),
           (text_lines [EmptyString; "    <!-- Add your hero_banner block content here -->";
                        "  </div>"; "  "]).
    by vm_compute.
Qed.

(** * Further properties

    Properties of the parts of [scaffold.ts] around the registry update:
    the command line of [main], the exit codes, the directories and the
    content definition, the corner cases of the registry file, and the
    theme and template step. *)

(** *** Concatenation, continued *)

Lemma append_inj_l (a x y : string) : a +:+ x = a +:+ y -> x = y.
Proof. induction a as [|c a IH]; [done|]. rewrite !append_cons. intros [= Heq]. auto. Qed.

Lemma append_inj_r (x y s : string) : x +:+ s = y +:+ s -> x = y.
Proof.
  revert y. induction x as [|c x IH]; intros y Heq.
  - destruct y as [|d y]; [done|]. apply (f_equal String.length) in Heq.
    rewrite append_nil_l, append_cons in Heq. simpl in Heq. rewrite append_length in Heq. lia.
  - destruct y as [|d y].
    + apply (f_equal String.length) in Heq.
      rewrite append_nil_l, append_cons in Heq. simpl in Heq. rewrite append_length in Heq. lia.
    + rewrite !append_cons in Heq. injection Heq as -> Heq. f_equal. by apply IH.
Qed.

(** ** The command line *)

Section CommandLine.

Context `{Libraries}.

Lemma last_app_cons {A} (l1 : list A) x l2 : last (l1 ++ x :: l2) = last (x :: l2).
Proof.
  induction l1 as [|y l1 IH]; [done|].
  change ((y :: l1) ++ x :: l2) with (y :: (l1 ++ x :: l2)).
  destruct (l1 ++ x :: l2) eqn:E; [by destruct l1|]. done.
Qed.

Lemma chosen_name_skip names : names <> [] -> chosen_name (EmptyString :: names) = chosen_name names.
Proof.
  intros Hne. unfold chosen_name. simpl.
  destruct (decide (EmptyString <> EmptyString)) as [Hd|_]; [done|].
  destruct (list_find _ names) as [[i n]|]; simpl; [done|].
  by destruct names.
Qed.

Lemma parseArgs_well_formed n : forall args b f w,
  length args <= n ->
  Forall is_Some (flag_values args) ->
  parseArgs args b f w
  = (Ok (chosen_name (option_list b ++ positionals args),
         chosen_type (option_list (Some <$> f) ++ flag_values args)), w).
Proof.
  induction n as [|n IH]; intros args b f w Hlen Hwf.
  { destruct args; [|simpl in Hlen; lia]. simpl. rewrite !app_nil_r.
    unfold ret. do 3 f_equal.
    - by destruct b as [[|c s]|].
    - by destruct f. }
  destruct args as [|arg rest].
  { simpl. rewrite !app_nil_r. unfold ret. do 3 f_equal.
    - by destruct b as [[|c s]|].
    - by destruct f. }
  cbn [parseArgs positionals flag_values] in *. fold (is_type_flag arg) in *.
  destruct (is_type_flag arg).
  - destruct rest as [|value rest']; [by inversion Hwf as [|? ? [? [=]] ?]|].
    apply Forall_cons in Hwf as [[t Ht] Hwf]. rewrite Ht.
    rewrite IH by (simpl in *; first [lia|done]). do 3 f_equal.
    unfold chosen_type. simpl. by rewrite last_app_cons.
  - destruct b as [[|c s]|]; cbn [default from_option id JsString.is_empty];
      rewrite IH by (simpl in *; first [lia|done]); do 3 f_equal.
    simpl. by rewrite chosen_name_skip.
Qed.

Lemma parseArgs_ill_formed n : forall args b f w,
  length args <= n ->
  ~ Forall is_Some (flag_values args) ->
  parseArgs args b f w = (Exit 1, set_console (fun c => c ++ [invalid_type_entry]) w).
Proof.
  induction n as [|n IH]; intros args b f w Hlen Hwf.
  { destruct args; [|simpl in Hlen; lia]. by destruct Hwf. }
  destruct args as [|arg rest]; [by destruct Hwf|].
  cbn [parseArgs flag_values] in *. fold (is_type_flag arg) in *.
  destruct (is_type_flag arg).
  - destruct rest as [|value rest']; [done|].
    destruct (FileType_of_string value) as [t|] eqn:Ht; [|done].
    apply IH; [simpl in *; lia|]. intros Hrest. apply Hwf. by constructor.
  - destruct (JsString.is_empty _); apply IH; simpl in *; (lia || done).
Qed.

Lemma read_text_valid validate script s rest :
  Prompts.read_text validate script = (Some s, rest) -> validate s = Prompts.Valid.
Proof.
  induction script as [|a script IH]; simpl; [done|].
  destruct a as [b|t|v|]; try done.
  destruct (validate t) eqn:Hv; [|done]. by intros [= <- _].
Qed.

Lemma validateBlockName_valid s :
  validateBlockName s = Prompts.Valid <-> JsString.matches_identifier s = true.
Proof.
  unfold validateBlockName. destruct s as [|c s]; [done|]. simpl JsString.is_empty. cbv iota.
  by destruct (JsString.matches_identifier (String c s)).
Qed.

Lemma identifier_is_no_flag s : JsString.matches_identifier s = true -> is_type_flag s = false.
Proof.
  destruct s as [|c s]; [done|]. simpl. intros [Hc _]%andb_prop.
  unfold is_type_flag.
  destruct (String.eqb_spec (String c s) "--type") as [[= -> _]|_]; [done|].
  destruct (String.eqb_spec (String c s) "-t") as [[= -> _]|_]; done.
Qed.

Lemma text_run message validate w :
  Prompts.text message validate w
  = (Ok (Prompts.read_text validate (answers w)).1,
     set_answers (fun _ => (Prompts.read_text validate (answers w)).2)
       (set_console (fun c => c ++ [Prompt message]) w)).
Proof. done. Qed.

(** X1. The loop over the arguments, on a command line whose type flags
    ([--type], [-t]) are each followed by [yaml], [toml] or [json]: it
    ends normally and changes nothing; the block name is the first
    positional argument that is not the empty string (later ones are
    ignored), and the format is the value of the last type flag. *)
Theorem parseArgs_reads_command_line args w :
  Forall is_Some (flag_values args) ->
  parseArgs args None None w
  = (Ok (chosen_name (positionals args), chosen_type (flag_values args)), w).
Proof. intros Hwf. by rewrite (parseArgs_well_formed (length args)). Qed.

(** X2. A type flag that is the last argument, or whose value is not one of
    [yaml], [toml], [json], ends the script with exit code 1 wherever it
    stands on the command line: one error line is printed, no file is
    touched and no question asked. *)
Theorem invalid_type_flag_exits args w :
  ~ Forall is_Some (flag_values args) ->
  run args w = (Exit 1, set_console (fun c => c ++ [invalid_type_entry]) w).
Proof.
  intros Hwf. unfold run, try_catch, main.
  by rewrite (bind_exit _ _ _ _ _ (parseArgs_ill_formed (length args) args None None w (le_n _) Hwf)).
Qed.

(** X3. A block name on the command line that is not an identifier
    (letters, digits and underscores, not starting with a digit) ends
    the script with exit code 1 before anything else happens: one error
    line is printed, no file is touched and no question asked. *)
Theorem invalid_block_name_exits args name w :
  Forall is_Some (flag_values args) ->
  chosen_name (positionals args) = Some name ->
  name <> EmptyString ->
  JsString.matches_identifier name = false ->
  run args w = (Exit 1, set_console (fun c => c ++ [invalid_name_entry]) w).
Proof.
  intros Hwf Hname Hne Hid. unfold run, try_catch, main.
  rewrite (bind_ok _ _ _ _ _ (parseArgs_well_formed (length args) args None None w (le_n _) Hwf)).
  simpl. rewrite Hname. simpl. destruct name as [|c s]; [done|]. simpl JsString.is_empty.
  cbv iota. rewrite bind_ret, Hid. done.
Qed.

(** X4. Without a block name on the command line the script asks for one;
    when the user gives no valid name before cancelling (or the input
    ends), the script prints [Operation cancelled] and ends with exit
    code 0, and no file is touched. *)
Theorem cancelled_name_prompt_exits args w :
  Forall is_Some (flag_values args) ->
  JsString.is_empty (default EmptyString (chosen_name (positionals args))) = true ->
  (Prompts.read_text validateBlockName (answers w)).1 = None ->
  run args w
  = (Exit 0, set_console (fun c => c ++ [Stdout [AStr "Operation cancelled"]])
               (after_name_prompt w)).
Proof.
  intros Hwf Hname Hcancel. unfold run, try_catch, main.
  rewrite (bind_ok _ _ _ _ _ (parseArgs_well_formed (length args) args None None w (le_n _) Hwf)).
  simpl. rewrite Hname.
  unfold bind. rewrite text_run, Hcancel. done.
Qed.

(** X5. A name typed at the prompt has passed the prompt's validation, so it
    is an identifier, and from there on the run is the run with that name
    given as first argument: the later validation of [main] cannot
    reject it. *)
Theorem prompted_name_as_argument args w name :
  Forall is_Some (flag_values args) ->
  JsString.is_empty (default EmptyString (chosen_name (positionals args))) = true ->
  (Prompts.read_text validateBlockName (answers w)).1 = Some name ->
  JsString.matches_identifier name = true
  /\ run args w = run (name :: args) (after_name_prompt w).
Proof.
  intros Hwf Hname Htyped.
  assert (JsString.matches_identifier name = true) as Hid.
  { apply validateBlockName_valid.
    destruct (Prompts.read_text _ _) as [r rest] eqn:Hr. simpl in Htyped. subst r.
    by eapply read_text_valid. }
  split; [done|].
  assert (flag_values (name :: args) = flag_values args) as Hflags.
  { simpl. fold (is_type_flag name). by rewrite identifier_is_no_flag. }
  assert (positionals (name :: args) = name :: positionals args) as Hpos.
  { simpl. fold (is_type_flag name). by rewrite identifier_is_no_flag. }
  assert (Forall is_Some (flag_values (name :: args))) as Hwf' by (by rewrite Hflags).
  unfold run, try_catch, main.
  rewrite (bind_ok _ _ _ _ _ (parseArgs_well_formed _ args None None w (le_n _) Hwf)).
  rewrite (bind_ok _ _ _ _ _ (parseArgs_well_formed _ (name :: args) None None _ (le_n _) Hwf')).
  rewrite Hflags, Hpos. simpl. rewrite Hname.
  destruct name as [|c s]; [done|].
  unfold chosen_name. simpl.
  erewrite (bind_ok (bind (Prompts.text _ _) _)); [reflexivity|].
  unfold bind. by rewrite text_run, Htyped.
Qed.

End CommandLine.

(** ** What a run may do to the world *)

#[global] Instance quiet_preorder : PreOrder quiet.
Proof.
  split.
  - by intros w.
  - intros w1 w2 w3 [Hf1 Hw1] [Hf2 Hw2]. split; congruence.
Qed.

#[global] Instance kept_preorder : PreOrder kept.
Proof.
  split.
  - intros w. split_and!; eauto.
  - intros w1 w2 w3 (Hd1 & Hf1 & Hw1) (Hd2 & Hf2 & Hw2). split_and!.
    + eauto.
    + intros p c Hp. destruct (Hf1 p c Hp) as [c' Hc']. eauto.
    + by etransitivity.
Qed.

Lemma quiet_kept w w' : quiet w w' -> kept w w'.
Proof.
  intros [Hf Hw]. unfold kept. rewrite Hf, Hw. split_and!; eauto.
Qed.

Section Respects.

Context (R : relation World) `{!PreOrder R}.

Lemma respects_ret {A} (a : A) : respects R (ret a).
Proof. by intros w. Qed.

Lemma respects_throw {A} e : respects R (@throw A e).
Proof. by intros w. Qed.

Lemma respects_exit {A} c : respects R (@process_exit A c).
Proof. by intros w. Qed.

Lemma respects_lift {A} (r : exn + A) : respects R (lift r).
Proof. destruct r; by intros w. Qed.

Lemma respects_bind {A B} (m : M A) (f : A -> M B) :
  respects R m -> (forall a, respects R (f a)) -> respects R (bind m f).
Proof.
  intros Hm Hf w. unfold bind. specialize (Hm w).
  destruct (m w) as [[a|e|c] w1]; simpl in *; [|done..].
  etransitivity; [done|]. apply Hf.
Qed.

Lemma respects_try_catch {A} (body : M A) handler :
  respects R body -> (forall e, respects R (handler e)) -> respects R (try_catch body handler).
Proof.
  intros Hm Hf w. unfold try_catch. specialize (Hm w).
  destruct (body w) as [[a|e|c] w1]; simpl in *; [done| |done].
  etransitivity; [done|]. apply Hf.
Qed.

End Respects.

Lemma respects_weaken {A} (R R' : relation World) (m : M A) :
  (forall w w', R w w' -> R' w w') -> respects R m -> respects R' m.
Proof. intros HR Hm w. apply HR, Hm. Qed.

Section ExitsIn.

Context (codes : list Z).

Lemma exits_in_ret {A} (a : A) : exits_in codes (ret a).
Proof. by intros w c. Qed.

Lemma exits_in_throw {A} e : exits_in codes (@throw A e).
Proof. by intros w c. Qed.

Lemma exits_in_exit {A} c : c ∈ codes -> exits_in codes (@process_exit A c).
Proof. intros Hc w c'. simpl. by intros [= <-]. Qed.

Lemma exits_in_lift {A} (r : exn + A) : exits_in codes (lift r).
Proof. destruct r; by intros w c. Qed.

Lemma exits_in_bind {A B} (m : M A) (f : A -> M B) :
  exits_in codes m -> (forall a, exits_in codes (f a)) -> exits_in codes (bind m f).
Proof.
  intros Hm Hf w c. unfold bind. specialize (Hm w).
  destruct (m w) as [[a|e|c'] w1]; simpl in *; [apply Hf|done|].
  intros [= <-]. by apply Hm.
Qed.

Lemma exits_in_try_catch {A} (body : M A) handler :
  exits_in codes body -> (forall e, exits_in codes (handler e)) ->
  exits_in codes (try_catch body handler).
Proof.
  intros Hm Hf w c. unfold try_catch. specialize (Hm w).
  destruct (body w) as [[a|e|c'] w1]; simpl in *; [done|apply Hf|].
  intros [= <-]. by apply Hm.
Qed.

Lemma exits_in_pure {A} (m : M A) :
  (forall w, exists a w', m w = (Ok a, w')) -> exits_in codes m.
Proof. intros Hm w c. destruct (Hm w) as (a & w' & ->). done. Qed.

End ExitsIn.

(** The primitives that leave the files alone. *)
Lemma log_quiet args : respects quiet (Console.log args).
Proof. by intros w. Qed.

Lemma error_quiet args : respects quiet (Console.error args).
Proof. by intros w. Qed.

Lemma existsSync_quiet p : respects quiet (Fs.existsSync p).
Proof. by intros w. Qed.

Lemma readFileSync_quiet p : respects quiet (Fs.readFileSync p).
Proof. intros w. unfold Fs.readFileSync. by destruct (fs w !! p) as [[]|]. Qed.

Lemma readdirSync_quiet d : respects quiet (Fs.readdirSync d).
Proof. intros w. unfold Fs.readdirSync. by destruct (fs w !! d) as [[]|]. Qed.

Lemma confirm_quiet message : respects quiet (Prompts.confirm message).
Proof.
  intros w. unfold Prompts.confirm, Prompts.show, Prompts.next, bind, ret. simpl.
  by destruct (answers w).
Qed.

Lemma text_quiet message validate : respects quiet (Prompts.text message validate).
Proof. by intros w. Qed.

Lemma select_quiet message choices : respects quiet (Prompts.select message choices).
Proof.
  intros w. unfold Prompts.select, Prompts.show, Prompts.next, bind, ret. simpl.
  by destruct (answers w).
Qed.

(** The two primitives that change files lose nothing. *)
Lemma mkdir_one_kept fsys d p n : fsys !! p = Some n -> Fs.mkdir_one fsys d !! p = Some n.
Proof.
  intros Hp. unfold Fs.mkdir_one. destruct (fsys !! d) eqn:Hd; [done|].
  rewrite lookup_insert_ne; [done|]. intros ->. congruence.
Qed.

Lemma mkdir_all_kept ds fsys p n : fsys !! p = Some n -> foldl Fs.mkdir_one fsys ds !! p = Some n.
Proof.
  revert fsys. induction ds as [|d ds IH]; intros fsys Hp; simpl; [done|].
  by apply IH, mkdir_one_kept.
Qed.

Lemma mkdirSync_kept p : respects kept (Fs.mkdirSync p).
Proof.
  intros w. destruct (mkdirSync_cases p w) as [[_ ->]|[_ [e ->]]]; [|reflexivity].
  unfold kept. simpl. split_and!; [| |done].
  - intros q Hq. by apply mkdir_all_kept.
  - intros q c Hq. exists c. by apply mkdir_all_kept.
Qed.

Lemma written_kept p content w : fs w !! p <> Some Dir -> kept w (Fs.written p content w).
Proof.
  intros Hp. unfold kept. simpl. split_and!; [| |by apply prefix_app_r].
  - intros q Hq. rewrite lookup_insert_ne; [done|]. intros ->. congruence.
  - intros q c' Hq. destruct (decide (q = p)) as [->|Hne].
    + rewrite lookup_insert_eq. eauto.
    + rewrite lookup_insert_ne by done. eauto.
Qed.

Lemma writeFileSync_kept p content : respects kept (Fs.writeFileSync p content).
Proof.
  intros w. unfold Fs.writeFileSync.
  destruct (fs w !! p) as [[c|]|] eqn:Hp; [apply written_kept; congruence|reflexivity|].
  destruct (Path.before_last_slash p) as [[|a d]|]; try (apply written_kept; congruence).
  destruct (Fs.open_error _ _ _); [reflexivity|apply written_kept; congruence].
Qed.

Create HintDb respects.

#[global] Hint Resolve log_quiet error_quiet existsSync_quiet readFileSync_quiet
  readdirSync_quiet confirm_quiet text_quiet select_quiet : respects.
#[global] Hint Resolve mkdirSync_kept writeFileSync_kept : respects.
#[global] Hint Extern 5 (respects kept _) =>
  (apply (respects_weaken quiet kept); [exact quiet_kept|]) : respects.

(** Walks through a computation written with [bind], [if] and [match]. *)
Ltac respects_step :=
  first
    [ solve [auto with respects]
    | apply respects_bind; [typeclasses eauto| |intros ?]
    | apply respects_try_catch; [typeclasses eauto| |intros ?]
    | apply respects_ret; typeclasses eauto
    | apply respects_throw; typeclasses eauto
    | apply respects_exit; typeclasses eauto
    | apply respects_lift; typeclasses eauto
    | match goal with
      | |- respects _ (if ?b then _ else _) => destruct b
      | |- respects _ (match ?x with _ => _ end) => destruct x
      end ].

Ltac respects_walk := repeat respects_step.

Section Effects.

Context `{Libraries}.

Lemma parseDynamicsFile_quiet this content : respects quiet (parseDynamicsFile this content).
Proof. unfold parseDynamicsFile. respects_walk. Qed.

Lemma getThemeDirectory_quiet : respects quiet getThemeDirectory.
Proof. unfold getThemeDirectory, askThemeName. respects_walk. Qed.

Lemma constructor_quiet name flag : respects quiet (constructor name flag).
Proof. unfold constructor, detectFileType. respects_walk. Qed.

Lemma parseArgs_quiet args b f : respects quiet (parseArgs args b f).
Proof.
  intros w. destruct (decide (Forall is_Some (flag_values args))) as [Hwf|Hwf].
  - by rewrite (parseArgs_well_formed (length args)).
  - by rewrite (parseArgs_ill_formed (length args)).
Qed.

Lemma ensureDirectoryExists_kept dirPath : respects kept (ensureDirectoryExists dirPath).
Proof. unfold ensureDirectoryExists. respects_walk. Qed.

Lemma createContentFile_kept this : respects kept (createContentFile this).
Proof.
  pose proof ensureDirectoryExists_kept.
  unfold createContentFile, formatContentAsYaml, formatContentAsToml, formatContentAsJson.
  cbv zeta. respects_walk.
Qed.

Lemma updateDynamicsFile_kept this : respects kept (updateDynamicsFile this).
Proof.
  pose proof ensureDirectoryExists_kept. pose proof parseDynamicsFile_quiet.
  unfold updateDynamicsFile, mergeDynamics, writeDynamics. cbv zeta. respects_walk.
Qed.

Lemma createHtmlFile_kept this : respects kept (createHtmlFile this).
Proof.
  pose proof ensureDirectoryExists_kept. pose proof getThemeDirectory_quiet.
  unfold createHtmlFile. cbv zeta. respects_walk.
Qed.

Lemma scaffold_kept this : respects kept (scaffold this).
Proof.
  pose proof createContentFile_kept. pose proof updateDynamicsFile_kept.
  pose proof createHtmlFile_kept.
  unfold scaffold. respects_walk.
Qed.

Lemma run_kept args : respects kept (run args).
Proof.
  pose proof scaffold_kept. pose proof constructor_quiet. pose proof parseArgs_quiet.
  unfold run, main. cbv zeta. respects_walk.
Qed.

End Effects.

(** ** Exit codes *)

Lemma log_exits codes args : exits_in codes (Console.log args).
Proof. by intros w c. Qed.

Lemma error_exits codes args : exits_in codes (Console.error args).
Proof. by intros w c. Qed.

Lemma existsSync_exits codes p : exits_in codes (Fs.existsSync p).
Proof. by intros w c. Qed.

Lemma mkdirSync_exits codes p : exits_in codes (Fs.mkdirSync p).
Proof. intros w c. by destruct (mkdirSync_cases p w) as [[_ ->]|[_ [e ->]]]. Qed.

Lemma readFileSync_exits codes p : exits_in codes (Fs.readFileSync p).
Proof. intros w c. unfold Fs.readFileSync. by destruct (fs w !! p) as [[]|]. Qed.

Lemma writeFileSync_exits codes p content : exits_in codes (Fs.writeFileSync p content).
Proof. intros w c. by destruct (writeFileSync_cases p content w) as [->|[e ->]]. Qed.

Lemma readdirSync_exits codes d : exits_in codes (Fs.readdirSync d).
Proof. intros w c. unfold Fs.readdirSync. by destruct (fs w !! d) as [[]|]. Qed.

Lemma confirm_exits codes message : exits_in codes (Prompts.confirm message).
Proof.
  intros w c. unfold Prompts.confirm, Prompts.show, Prompts.next, bind, ret. simpl.
  by destruct (answers w).
Qed.

Lemma text_exits codes message validate : exits_in codes (Prompts.text message validate).
Proof. by intros w c. Qed.

Lemma select_exits codes message choices : exits_in codes (Prompts.select message choices).
Proof.
  intros w c. unfold Prompts.select, Prompts.show, Prompts.next, bind, ret. simpl.
  by destruct (answers w).
Qed.

Create HintDb exits.

#[global] Hint Resolve log_exits error_exits existsSync_exits mkdirSync_exits
  readFileSync_exits writeFileSync_exits readdirSync_exits confirm_exits text_exits
  select_exits : exits.

Ltac exits_step :=
  first
    [ solve [auto with exits]
    | apply exits_in_bind; [|intros ?]
    | apply exits_in_try_catch; [|intros ?]
    | apply exits_in_ret
    | apply exits_in_throw
    | apply exits_in_lift
    | apply exits_in_exit; repeat constructor
    | match goal with
      | |- exits_in _ (if ?b then _ else _) => destruct b
      | |- exits_in _ (match ?x with _ => _ end) => destruct x
      end ].

Ltac exits_walk := repeat exits_step.

Section ExitCodes.

Context `{Libraries}.

Lemma parseArgs_exits args b f : exits_in [1%Z] (parseArgs args b f).
Proof.
  intros w c. destruct (decide (Forall is_Some (flag_values args))) as [Hwf|Hwf].
  - by rewrite (parseArgs_well_formed (length args)).
  - rewrite (parseArgs_ill_formed (length args)) by done. simpl. intros [= <-].
    by constructor.
Qed.

Lemma createContentFile_exits this : exits_in [] (createContentFile this).
Proof.
  unfold createContentFile, ensureDirectoryExists, formatContentAsYaml, formatContentAsToml,
    formatContentAsJson.
  cbv zeta. exits_walk.
Qed.

Lemma updateDynamicsFile_exits this : exits_in [] (updateDynamicsFile this).
Proof.
  unfold updateDynamicsFile, mergeDynamics, writeDynamics, ensureDirectoryExists,
    parseDynamicsFile.
  cbv zeta. exits_walk.
Qed.

Lemma createHtmlFile_exits this : exits_in [] (createHtmlFile this).
Proof.
  unfold createHtmlFile, getThemeDirectory, askThemeName, ensureDirectoryExists.
  cbv zeta. exits_walk.
Qed.

(** What [scaffold] does with the outcome of its three steps. *)
Lemma scaffold_outcome this w :
  (scaffold this w).1 = Ok tt
  \/ exists e,
       (scaffold this w).1 = Exit 1
       /\ last (console (scaffold this w).2)
          = Some (Stderr [AStr "❌ Error scaffolding content block:"; AStr (exn_message e)]).
Proof.
  pose proof (createContentFile_exits this) as H1.
  pose proof (updateDynamicsFile_exits this) as H2.
  pose proof (createHtmlFile_exits this) as H3.
  unfold scaffold, try_catch.
  match goal with |- context [let (_, _) := ?body w in _] => set (m := body) end.
  assert (exits_in [] m) as Hm by (unfold m; exits_walk).
  specialize (Hm w). destruct (m w) as [[[]|e|c] w1]; simpl in *.
  - by left.
  - right. exists e. split; [done|]. apply last_snoc.
  - specialize (Hm c eq_refl). by apply elem_of_nil in Hm.
Qed.

Lemma scaffold_exits this : exits_in [0%Z; 1%Z] (scaffold this).
Proof.
  intros w c Hc. destruct (scaffold_outcome this w) as [Hok|(e & Hexit & _)].
  - congruence.
  - assert (c = 1%Z) as -> by congruence. repeat constructor.
Qed.

Lemma main_exits args : exits_in [0%Z; 1%Z] (main args).
Proof.
  pose proof scaffold_exits.
  assert (forall a b f, exits_in [0%Z; 1%Z] (parseArgs a b f)) as Hp.
  { intros a b f w c Hc%parseArgs_exits. by constructor. }
  unfold main, constructor, detectFileType. cbv zeta. exits_walk.
Qed.

End ExitCodes.

(** ** More facts about the registry updater *)

Section RegistryUpdater.

Context `{Libraries}.

Implicit Types (this : ContentBlockScaffolder) (w : World) (rs : list DynamicsData.t).

Lemma findIndex_is_array pred v idx : findIndex pred v = inr idx -> exists entries, v = VArray entries.
Proof. destruct v; try done. eauto. Qed.

(** [updateDynamicsFile] on an existing registry file, whatever it
    decodes to. *)
Lemma updateDynamicsFile_decoded this w content v :
  fs w !! dynamicsFilePath this = Some (File content) ->
  (parseDynamicsFile this content w).1 = Ok v ->
  exists w1,
    fs w1 = fs w /\ writes w1 = writes w
    /\ w1 = (parseDynamicsFile this content w).2
    /\ match findIndex (has_new_key this) v with
       | inl e => updateDynamicsFile this w = (Throw e, w1)
       | inr idx =>
           exists entries, v = VArray entries
           /\ match idx with
              | Some i =>
                  exists w2,
                    fs w2 = fs w /\ writes w2 = writes w /\ answers w2 = tail (answers w)
                    /\ updateDynamicsFile this w
                       = if accepts (answers w)
                         then writeDynamics this
                                (VArray (<[i := DynamicsData.to_value (newDynamicsData this)]> entries)) w2
                         else (Ok tt, w2)
              | None =>
                  exists w2,
                    fs w2 = fs w /\ writes w2 = writes w /\ answers w2 = answers w
                    /\ updateDynamicsFile this w
                       = writeDynamics this
                           (VArray (entries ++ [DynamicsData.to_value (newDynamicsData this)])) w2
              end
       end.
Proof.
  intros Hf Hp.
  assert (updateDynamicsFile this w = mergeDynamics this true w) as ->.
  { unfold updateDynamicsFile.
    rewrite (bind_ok _ _ _ _ _ (existsSync_run _ _)), Hf.
    by rewrite bool_decide_true by eauto. }
  unfold mergeDynamics.
  assert (Fs.readFileSync (dynamicsFilePath this) w = (Ok content, w)) as Hr.
  { unfold Fs.readFileSync. by rewrite Hf. }
  rewrite (bind_ok _ _ _ _ _ Hr).
  destruct (parseDynamicsFile_returns this content w) as (v' & es & Hv).
  rewrite Hv in Hp. simpl in Hp. injection Hp as ->.
  rewrite (bind_ok _ _ _ _ _ Hv). rewrite Hv.
  eexists. split_and!; [| |reflexivity|]; [done..|].
  destruct (findIndex (has_new_key this) v) as [e|idx] eqn:Hfind; [done|].
  destruct (findIndex_is_array _ _ _ Hfind) as [entries ->]. exists entries. split; [done|].
  simpl. rewrite bind_ret. destruct idx as [i|].
  - edestruct confirm_run as (r & w' & Hc & Hr' & Hfs & Hwr & Hans).
    rewrite (bind_ok _ _ _ _ _ Hc), Hr'. simpl in *.
    destruct (accepts (answers w)); simpl.
    + unfold bind at 1, Console.log.
      eexists. split_and!; [| | |reflexivity]; done.
    + unfold Console.log. eexists. split_and!; [| | |reflexivity]; done.
  - unfold bind at 1, Console.log.
    eexists. split_and!; [| | |reflexivity]; done.
Qed.

(** [updateDynamicsFile] without a registry file: a refusal changes no
    file; otherwise the directory is made, unless a regular file is in
    the way, and the one-record registry written. *)
Lemma updateDynamicsFile_creates this w :
  fs w !! dynamicsFilePath this = None ->
  exists w1,
    writes w1 = writes w /\ answers w1 = tail (answers w)
    /\ fs w1 !! dynamicsFilePath this = None
    /\ (forall p, p ∉ registry_footprint this -> fs w1 !! p = fs w !! p)
    /\ if accepts (answers w)
       then ((exists e, updateDynamicsFile this w = (Throw e, w1))
             \/ updateDynamicsFile this w
                = writeDynamics this (registry [newDynamicsData this]) w1)
            /\ (unobstructed w registry_directory = true ->
                fs w1 !! registry_directory = Some Dir
                /\ updateDynamicsFile this w
                   = writeDynamics this (registry [newDynamicsData this]) w1)
       else fs w1 = fs w /\ updateDynamicsFile this w = (Ok tt, w1).
Proof.
  intros Hf. unfold updateDynamicsFile.
  rewrite (bind_ok _ _ _ _ _ (existsSync_run _ _)), Hf.
  rewrite bool_decide_false by (by intros [? ?]). simpl.
  edestruct confirm_run as (r & w' & Hc & Hr' & Hfs & Hwr & Hans).
  rewrite (bind_ok _ _ _ _ _ Hc), Hr'.
  destruct (accepts (answers w)); simpl.
  - rewrite dirname_dynamicsFilePath.
    destruct (ensureDirectoryExists_frame registry_directory w')
      as (r2 & w2 & He & Hr2 & Hfs2 & Hwr2 & Hans2).
    assert (forall p, p ∉ registry_footprint this -> fs w2 !! p = fs w !! p) as Hframe.
    { intros p Hp. rewrite Hfs2, Hfs; [done|].
      intros Hin. apply Hp. clear -Hin. unfold registry_footprint.
      change (Path.ancestors registry_directory ++ [registry_directory])
        with ["quiqr"; "quiqr/model"; "quiqr/model/includes"] in Hin.
      repeat (apply elem_of_cons in Hin as [->|Hin]; [repeat constructor|]).
      by apply elem_of_nil in Hin. }
    assert (fs w2 !! dynamicsFilePath this = None) as Hnone.
    { rewrite Hfs2, Hfs; [done|]. rewrite <- (dirname_dynamicsFilePath this).
      apply dynamicsFilePath_not_created. }
    destruct Hr2 as [->|(e & -> & Hsame)].
    + rewrite (bind_ok _ _ _ _ _ He). unfold mergeDynamics, bind at 1, Console.log.
      eexists. split_and!; [| | | |right; reflexivity|]; simpl; try congruence; try done.
      intros Hfree. split; [|reflexivity].
      destruct (ensureDirectoryExists_run registry_directory w') as (w3 & He3 & Hd3 & _).
      { by rewrite (unobstructed_fs w w'). }
      rewrite He in He3. by injection He3 as ->.
    + rewrite (bind_throw _ _ _ _ _ He).
      exists w2. split_and!; [congruence|congruence|done|done|left; by exists e|].
      intros Hfree.
      destruct (ensureDirectoryExists_run registry_directory w') as (w3 & He3 & _).
      { by rewrite (unobstructed_fs w w'). }
      rewrite He in He3. discriminate He3.
  - unfold Console.log. eexists. split_and!; [..|reflexivity]; simpl; congruence.
Qed.

End RegistryUpdater.

Section RegistryUpdaterFacts.

Context `{Libraries}.

Implicit Types (this : ContentBlockScaffolder) (w : World) (rs : list DynamicsData.t).

(** A write of the registry either fails and changes nothing, or puts
    the text in the file and in the trace. *)
Lemma writeDynamics_effect this data w :
  (exists e, writeDynamics this data w = (Throw e, w))
  \/ (exists text,
         stringifyDynamicsData this data = inr text
         /\ writeDynamics this data w
            = (Ok tt, set_writes (fun t => t ++ [(dynamicsFilePath this, text)])
                        (set_fs (fun fsys => <[dynamicsFilePath this := File text]> fsys) w))).
Proof. destruct (writeDynamics_cases this data w) as [?|?]; [by right|by left]. Qed.

Lemma updateDynamicsFile_directory this w :
  fs w !! dynamicsFilePath this = Some Dir ->
  exists e, updateDynamicsFile this w = (Throw e, w).
Proof.
  intros Hf. unfold updateDynamicsFile.
  rewrite (bind_ok _ _ _ _ _ (existsSync_run _ _)), Hf.
  rewrite bool_decide_true by eauto. simpl. unfold mergeDynamics, bind, Fs.readFileSync.
  rewrite Hf. eauto.
Qed.

Lemma constructor_block_record name flag w0 this w :
  constructor name flag w0 = (Ok this, w) -> newDynamicsData this = block_record name.
Proof.
  intros (_ & Hname & Hkey & _ & _)%constructor_run.
  unfold newDynamicsData, block_record. by rewrite Hname, Hkey.
Qed.

(** Replacing a record by one of the same key keeps the number of
    records with that key. *)
Lemma with_key_of_insert new rs i r :
  rs !! i = Some r ->
  DynamicsData.key r = DynamicsData.key new ->
  length (with_key_of new (<[i := new]> rs)) = length (with_key_of new rs).
Proof.
  unfold with_key_of. revert i. induction rs as [|x rs IH]; intros i Hi Hk; [done|].
  destruct i as [|i]; simpl in *.
  - injection Hi as ->. rewrite !filter_cons. by rewrite !decide_True by done.
  - rewrite !filter_cons. specialize (IH i Hi Hk).
    destruct (decide (DynamicsData.key x = DynamicsData.key new)); simpl; by rewrite IH.
Qed.

End RegistryUpdaterFacts.

(** Identifiers have no dash, so the dashed spelling tells them apart. *)
Lemma dashes_injective a b :
  JsString.all_chars JsString.ident_part a = true ->
  JsString.all_chars JsString.ident_part b = true ->
  JsString.replace_all "_" "-" a = JsString.replace_all "_" "-" b ->
  a = b.
Proof.
  revert b. induction a as [|x a IH]; intros b Ha Hb Heq.
  - destruct b as [|y b]; [done|]. simpl in Heq.
    destruct (Ascii.eqb y "_"); [rewrite append_cons in Heq|]; done.
  - destruct b as [|y b].
    { simpl in Heq. destruct (Ascii.eqb x "_"); [rewrite append_cons in Heq|]; done. }
    simpl in Ha, Hb, Heq.
    apply andb_prop in Ha as [Hx Ha]. apply andb_prop in Hb as [Hy Hb].
    assert (x = y /\ JsString.replace_all "_" "-" a = JsString.replace_all "_" "-" b)
      as [-> Hrest].
    { destruct (Ascii.eqb_spec x "_") as [->|Hxu]; destruct (Ascii.eqb_spec y "_") as [->|Hyu];
        rewrite ?append_cons, ?append_nil_l in Heq; simplify_eq; try done;
        first [by vm_compute in Hx|by vm_compute in Hy]. }
    f_equal. by apply IH.
Qed.

Lemma identifier_chars s :
  JsString.matches_identifier s = true -> JsString.all_chars JsString.ident_part s = true.
Proof.
  destruct s as [|c s]; [done|]. cbn [JsString.matches_identifier JsString.all_chars].
  intros [Hc Hs]%andb_prop. unfold JsString.ident_part at 1. by rewrite Hc, Hs.
Qed.

Section RegistryCorners.

Context `{Libraries}.

Implicit Types (this : ContentBlockScaffolder) (w : World) (rs : list DynamicsData.t).

(** [updateDynamicsFile] on a registry file that decodes to the empty
    sequence. *)
Lemma updateDynamicsFile_decoded_empty this w content w1 text :
  fs w !! dynamicsFilePath this = Some (File content) ->
  parseDynamicsFile this content w = (Ok (VArray []), w1) ->
  stringifyDynamicsData this (registry [newDynamicsData this]) = inr text ->
  exists w',
    updateDynamicsFile this w = (Ok tt, w')
    /\ fs w' = <[dynamicsFilePath this := File text]> (fs w)
    /\ writes w' = writes w ++ [(dynamicsFilePath this, text)]
    /\ answers w' = answers w
    /\ forall entry, entry ∈ console w1 -> entry ∈ console w'.
Proof.
  intros Hf Hp Hs.
  destruct (parseDynamicsFile_quiet this content w) as [Hf1 Hw1]. rewrite Hp in Hf1, Hw1.
  simpl in Hf1, Hw1.
  assert (answers w1 = answers w) as Ha1.
  { destruct (parseDynamicsFile_returns this content w) as (v & es & Hv).
    rewrite Hv in Hp. by injection Hp as _ <-. }
  assert (updateDynamicsFile this w = mergeDynamics this true w) as ->.
  { unfold updateDynamicsFile.
    rewrite (bind_ok _ _ _ _ _ (existsSync_run _ _)), Hf.
    by rewrite bool_decide_true by eauto. }
  unfold mergeDynamics.
  assert (Fs.readFileSync (dynamicsFilePath this) w = (Ok content, w)) as Hr.
  { unfold Fs.readFileSync. by rewrite Hf. }
  rewrite (bind_ok _ _ _ _ _ Hr), (bind_ok _ _ _ _ _ Hp). simpl. rewrite bind_ret.
  unfold bind at 1, Console.log.
  change (VArray [DynamicsData.to_value (newDynamicsData this)])
    with (registry [newDynamicsData this]).
  rewrite writeDynamics_run, Hs by (simpl; by rewrite Hf1, Hf).
  eexists. split_and!; [reflexivity|simpl; congruence..|].
  simpl. intros entry Hin. apply elem_of_app. by left.
Qed.

Lemma dynamicsFilePath_registry_file this : dynamicsFilePath this = registry_file (fileType this).
Proof. unfold dynamicsFilePath, registry_file. by destruct (fileType this). Qed.

Lemma other_registry_untouched this t :
  t <> fileType this -> registry_file t ∉ registry_footprint this.
Proof.
  intros Hne. unfold registry_footprint. rewrite dynamicsFilePath_registry_file.
  destruct t, (fileType this); try done; apply (bool_decide_unpack _); by vm_compute.
Qed.

End RegistryCorners.

(** ** Properties of the registry updater, continued *)

Section RegistryCornerProperties.

Context `{Libraries}.

Implicit Types (this : ContentBlockScaffolder) (w : World) (rs : list DynamicsData.t).

(** X6. Whatever the registry file holds and however it ends, a run of
    [updateDynamicsFile] changes no path other than the registry file
    and the three directories above it; when the registry file (or a
    directory of its name) exists it changes no path but the registry
    file; and it calls [writeFileSync] at most once, on the registry
    file, which then holds the text written. *)
Theorem registry_step_footprint this w :
  (forall p, p ∉ registry_footprint this ->
     fs (updateDynamicsFile this w).2 !! p = fs w !! p)
  /\ (is_Some (fs w !! dynamicsFilePath this) ->
      forall p, p <> dynamicsFilePath this ->
        fs (updateDynamicsFile this w).2 !! p = fs w !! p)
  /\ (writes (updateDynamicsFile this w).2 = writes w
      \/ exists text,
           writes (updateDynamicsFile this w).2 = writes w ++ [(dynamicsFilePath this, text)]
           /\ fs (updateDynamicsFile this w).2 !! dynamicsFilePath this = Some (File text)).
Proof.
  cut (let w' := (updateDynamicsFile this w).2 in
       (forall p, p ∉ registry_footprint this -> fs w' !! p = fs w !! p)
       /\ (is_Some (fs w !! dynamicsFilePath this) ->
           forall p, p <> dynamicsFilePath this -> fs w' !! p = fs w !! p)
       /\ (writes w' = writes w
           \/ exists text,
                writes w' = writes w ++ [(dynamicsFilePath this, text)]
                /\ fs w' !! dynamicsFilePath this = Some (File text)));
    [intros Hcut; exact Hcut|].
  assert (forall p, p ∉ registry_footprint this -> p <> dynamicsFilePath this) as Hpath.
  { intros p Hp ->. apply Hp. unfold registry_footprint. repeat constructor. }
  (* what a final write in a world [w1] does *)
  assert (forall data w1,
            let w' := (writeDynamics this data w1).2 in
            (forall p, p <> dynamicsFilePath this -> fs w' !! p = fs w1 !! p)
            /\ (writes w' = writes w1
                \/ exists text,
                     writes w' = writes w1 ++ [(dynamicsFilePath this, text)]
                     /\ fs w' !! dynamicsFilePath this = Some (File text))) as Hwrite.
  { intros data w1. destruct (writeDynamics_effect this data w1) as [[e ->]|(text & _ & ->)]; simpl.
    - split; [done|by left].
    - split; [intros p Hp; by rewrite lookup_insert_ne|].
      right. exists text. split; [done|]. apply lookup_insert_eq. }
  destruct (fs w !! dynamicsFilePath this) as [[content|]|] eqn:Hf.
  - destruct (parseDynamicsFile_returns this content w) as (v & es & Hv).
    destruct (updateDynamicsFile_decoded this w content v Hf) as (w1 & Hf1 & Hw1 & _ & Hrun);
      [by rewrite Hv|].
    assert (let w' := (updateDynamicsFile this w).2 in
            (forall p, p <> dynamicsFilePath this -> fs w' !! p = fs w !! p)
            /\ (writes w' = writes w
                \/ exists text,
                     writes w' = writes w ++ [(dynamicsFilePath this, text)]
                     /\ fs w' !! dynamicsFilePath this = Some (File text))) as [Hframe Hwr].
    { destruct (findIndex (has_new_key this) v) as [e|idx].
      { rewrite Hrun. simpl. split; [by rewrite Hf1|by left]. }
      destruct Hrun as (entries & -> & Hrun).
      destruct idx as [i|]; destruct Hrun as (w2 & Hf2 & Hw2 & _ & ->).
      - destruct (accepts (answers w)).
        + specialize (Hwrite (VArray (<[i := DynamicsData.to_value (newDynamicsData this)]> entries)) w2).
          by rewrite Hf2, Hw2 in Hwrite.
        + simpl. split; [by rewrite Hf2|by left].
      - specialize (Hwrite (VArray (entries ++ [DynamicsData.to_value (newDynamicsData this)])) w2).
        by rewrite Hf2, Hw2 in Hwrite. }
    split_and!; [|done|done]. intros p Hp. by apply Hframe, Hpath.
  - destruct (updateDynamicsFile_directory this w Hf) as [e ->]. simpl.
    split_and!; [done|done|by left].
  - destruct (updateDynamicsFile_creates this w Hf) as (w1 & Hw1 & _ & _ & Hframe & Hrun).
    destruct (accepts (answers w)).
    + destruct Hrun as [[[e Hrun]|Hrun] _]; rewrite Hrun.
      * simpl. split_and!; [done|by intros [? ?]|by left].
      * destruct (Hwrite (registry [newDynamicsData this]) w1) as [Hfr Hwr].
        split_and!; [|by intros [? ?]|by rewrite Hw1 in Hwr].
        intros p Hp. rewrite Hfr by by apply Hpath. by apply Hframe.
    + destruct Hrun as [Hfs ->]. simpl. split_and!; [by intros; rewrite Hfs|by intros [? ?]|by left].
Qed.

(** X7. When there is no registry file and the question whether to create
    it is not answered with a yes, [updateDynamicsFile] returns normally
    and leaves the whole file table as it was: not even the directory
    [quiqr/model/includes] is made.  One answer is used up. *)
Theorem declined_creation_changes_nothing this w :
  fs w !! dynamicsFilePath this = None ->
  accepts (answers w) = false ->
  exists w',
    updateDynamicsFile this w = (Ok tt, w')
    /\ fs w' = fs w /\ writes w' = writes w /\ answers w' = tail (answers w).
Proof.
  intros Hf Hno.
  destruct (updateDynamicsFile_creates this w Hf) as (w1 & Hw1 & Ha1 & _ & _ & Hrun).
  rewrite Hno in Hrun. destruct Hrun as [Hfs Hrun]. by exists w1.
Qed.

(** X8. In format B (toml), a registry file whose [dynamics] field is
    truthy but not an array (a string, a table, a number) makes
    [updateDynamicsFile] throw the [TypeError] of the missing method
    [findIndex]: nothing is written and the world is left as it was. *)
Theorem registry_field_that_is_no_list_fails this w content doc field :
  fileType this = toml ->
  fs w !! dynamicsFilePath this = Some (File content) ->
  ~ blank content ->
  parseToml content = inr doc ->
  Js.get doc "dynamics" = inr field ->
  Js.truthy field = true ->
  Js.isArray field = false ->
  updateDynamicsFile this w
  = (Throw (Exn "TypeError" "dynamicsArray.findIndex is not a function"), w).
Proof.
  intros Ht Hf Hb Hdoc Hfield Htruthy Harray.
  pose proof (parseDynamicsFile_toml this content doc field w Ht Hb Hdoc Hfield) as Hp.
  rewrite Htruthy in Hp.
  destruct (updateDynamicsFile_decoded this w content field Hf) as (w1 & _ & _ & Hw1 & Hrun);
    [by rewrite Hp|].
  rewrite Hp in Hw1. simpl in Hw1. subst w1.
  by destruct field.
Qed.

(** X9. A [null] entry in the registry array that comes before any record
    with the new key makes [updateDynamicsFile] throw a [TypeError]
    (the callback of [findIndex] reads [entry.key]); no file is changed
    and nothing is written. *)
Theorem null_entry_fails this w content rs after :
  fs w !! dynamicsFilePath this = Some (File content) ->
  (parseDynamicsFile this content w).1
  = Ok (VArray ((DynamicsData.to_value <$> rs) ++ VNull :: after)) ->
  DynamicsData.key (newDynamicsData this) ∉ DynamicsData.key <$> rs ->
  exists e w',
    updateDynamicsFile this w = (Throw e, w')
    /\ exn_name e = "TypeError"
    /\ fs w' = fs w /\ writes w' = writes w.
Proof.
  intros Hf Hp Hnot.
  destruct (updateDynamicsFile_decoded this w content _ Hf Hp) as (w1 & Hf1 & Hw1 & _ & Hrun).
  assert (forall n, findIndex_from (has_new_key this) ((DynamicsData.to_value <$> rs) ++ VNull :: after) n
          = inl (Exn "TypeError" ("Cannot read properties of undefined (reading '" +:+ "key" +:+ "')")))
    as Hfind.
  { clear -Hnot. induction rs as [|r rs IH]; intros n; [done|].
    rewrite fmap_cons, <- app_comm_cons. cbn [findIndex_from].
    rewrite has_new_key_record, bool_decide_false.
    - apply IH. intros Hin. apply Hnot. rewrite fmap_cons. by constructor.
    - intros Hk. apply Hnot. rewrite fmap_cons, Hk. by constructor. }
  unfold findIndex in Hrun. rewrite Hfind in Hrun.
  eexists _, w1. split; [exact Hrun|]. by split_and!.
Qed.

(** X10. The updater does not repair a registry that already holds several
    records with the block's key: an accepted overwrite replaces one
    record in place, so the sequence it writes has the same length and
    the same number of records with that key as the sequence it read. *)
Theorem replacing_keeps_duplicates this w content rs :
  fs w !! dynamicsFilePath this = Some (File content) ->
  (parseDynamicsFile this content w).1 = Ok (registry rs) ->
  DynamicsData.key (newDynamicsData this) ∈ DynamicsData.key <$> rs ->
  accepts (answers w) = true ->
  exists rs',
    length (with_key_of (newDynamicsData this) rs')
    = length (with_key_of (newDynamicsData this) rs)
    /\ length rs' = length rs
    /\ forall text, stringifyDynamicsData this (registry rs') = inr text ->
         exists w',
           updateDynamicsFile this w = (Ok tt, w')
           /\ fs w' !! dynamicsFilePath this = Some (File text).
Proof.
  intros Hf Hp Hin Hyes. set (new := newDynamicsData this) in *.
  destruct (updateDynamicsFile_existing this w content rs Hf Hp) as (w1 & Hf1 & Hw1 & Hrun).
  fold new in Hrun. unfold upsert in Hrun.
  destruct (list_find _ rs) as [[i x]|] eqn:Hfind.
  - apply list_find_Some in Hfind as (Hi & Hx & _). destruct Hrun as [_ Hrun].
    rewrite Hyes in Hrun. exists (<[i := new]> rs). split_and!.
    + by apply (with_key_of_insert new rs i x).
    + apply length_insert.
    + intros text Hs. rewrite Hrun, writeDynamics_run, Hs by (by rewrite Hf1, Hf).
      eexists. split; [done|]. apply lookup_insert_eq.
  - apply list_find_None in Hfind. rewrite Forall_forall in Hfind.
    apply list_elem_of_fmap in Hin as (r & Hr & Hin). by destruct (Hfind r Hin).
Qed.

(** X11. Block names that differ only in underscores derive the same key.
    On a registry with distinct keys that holds the record of block [a],
    an accepted run for such a block [b] finds that record and replaces
    it by the record of [b]: afterwards the registry no longer lists
    [a]. *)
Theorem block_names_share_a_key a b flag w0 this w content rs i :
  JsString.replace_all "_" EmptyString a = JsString.replace_all "_" EmptyString b ->
  a <> b ->
  constructor b flag w0 = (Ok this, w) ->
  fs w !! dynamicsFilePath this = Some (File content) ->
  (parseDynamicsFile this content w).1 = Ok (registry rs) ->
  NoDup (DynamicsData.key <$> rs) ->
  rs !! i = Some (block_record a) ->
  accepts (answers w) = true ->
  DynamicsData.key (block_record a) = DynamicsData.key (block_record b)
  /\ (block_record a ∉ <[i := block_record b]> rs)
  /\ forall text,
       stringifyDynamicsData this (registry (<[i := block_record b]> rs)) = inr text ->
       exists w',
         updateDynamicsFile this w = (Ok tt, w')
         /\ fs w' !! dynamicsFilePath this = Some (File text).
Proof.
  intros Hsame Hne Hc Hf Hp Hnd Hi Hyes.
  pose proof (constructor_block_record _ _ _ _ _ Hc) as Hnew.
  assert (DynamicsData.key (block_record a) = DynamicsData.key (block_record b)) as Hkey
    by (simpl; by rewrite Hsame).
  split_and!; [done| |].
  - intros (j & Hj)%list_elem_of_lookup_1.
    destruct (decide (j = i)) as [->|Hji].
    + rewrite list_lookup_insert_eq in Hj by (by eapply lookup_lt_Some).
      assert (block_record b = block_record a) as Hba by congruence.
      apply (f_equal DynamicsData._mergePartial) in Hba. simpl in Hba. congruence.
    + rewrite list_lookup_insert_ne in Hj by done.
      apply Hji. by eapply (key_position_unique rs j i).
  - intros text Hs.
    destruct (updateDynamicsFile_existing this w content rs Hf Hp) as (w1 & Hf1 & Hw1 & Hrun).
    rewrite Hnew in Hrun. unfold upsert in Hrun.
    assert (list_find (fun r => DynamicsData.key r = DynamicsData.key (block_record b)) rs
            = Some (i, block_record a)) as Hfind.
    { apply list_find_Some. split_and!; [done|done|].
      intros j y Hj Hlt Hy. assert (j = i); [|lia].
      eapply (key_position_unique rs j i); eauto. congruence. }
    rewrite Hfind in Hrun. destruct Hrun as [_ Hrun].
    rewrite Hyes in Hrun. rewrite Hrun, writeDynamics_run, Hs by (by rewrite Hf1, Hf).
    eexists. split; [done|]. apply lookup_insert_eq.
Qed.

(** X12. Unlike the keys, the dashed spellings tell identifiers apart:
    different block names (both identifiers) get different values of
    [blockNameWithDashes] and so, in every theme, different template
    files. *)
Theorem template_names_are_distinct a b fa fb wa wb this_a this_b wa' wb' :
  JsString.matches_identifier a = true ->
  JsString.matches_identifier b = true ->
  constructor a fa wa = (Ok this_a, wa') ->
  constructor b fb wb = (Ok this_b, wb') ->
  a <> b ->
  blockNameWithDashes this_a <> blockNameWithDashes this_b
  /\ forall theme, template_path theme this_a <> template_path theme this_b.
Proof.
  intros Ha%identifier_chars Hb%identifier_chars
    (_ & _ & _ & Hda & _)%constructor_run (_ & _ & _ & Hdb & _)%constructor_run Hne.
  assert (blockNameWithDashes this_a <> blockNameWithDashes this_b) as Hd.
  { rewrite Hda, Hdb. intros Heq. by apply Hne, dashes_injective. }
  split; [done|]. intros theme Heq. apply Hd. unfold template_path in Heq.
  do 3 apply append_inj_l in Heq. by apply append_inj_r in Heq.
Qed.

(** X13. A registry file the parser of the format rejects is treated as
    empty: [updateDynamicsFile] prints the parse error, asks nothing, and
    overwrites the file with the registry of the single new record. *)
Theorem unreadable_registry_is_replaced this w content e text :
  fs w !! dynamicsFilePath this = Some (File content) ->
  ~ blank content ->
  library_parse (fileType this) content = inl e ->
  stringifyDynamicsData this (registry [newDynamicsData this]) = inr text ->
  exists w',
    updateDynamicsFile this w = (Ok tt, w')
    /\ fs w' = <[dynamicsFilePath this := File text]> (fs w)
    /\ writes w' = writes w ++ [(dynamicsFilePath this, text)]
    /\ answers w' = answers w
    /\ parse_error_entry this e ∈ console w'.
Proof.
  intros Hf Hb He Hs.
  pose proof (parseDynamicsFile_failed this content e w Hb He) as Hp.
  destruct (updateDynamicsFile_decoded_empty this w content _ text Hf Hp Hs)
    as (w' & Hrun & Hfs & Hwr & Ha & Hcon).
  exists w'. split_and!; [done..|]. apply Hcon. simpl. apply elem_of_app. right. by constructor.
Qed.

(** X14. In formats A and C (yaml, json) a registry file that parses to
    something other than an array (an object, a string, a number) is
    treated as empty as well: without a question the file is overwritten
    with the registry of the single new record. *)
Theorem document_that_is_no_list_is_replaced this w content doc text :
  fileType this <> toml ->
  fs w !! dynamicsFilePath this = Some (File content) ->
  ~ blank content ->
  library_parse (fileType this) content = inr doc ->
  Js.isArray doc = false ->
  stringifyDynamicsData this (registry [newDynamicsData this]) = inr text ->
  exists w',
    updateDynamicsFile this w = (Ok tt, w')
    /\ fs w' = <[dynamicsFilePath this := File text]> (fs w)
    /\ writes w' = writes w ++ [(dynamicsFilePath this, text)]
    /\ answers w' = answers w.
Proof.
  intros Ht Hf Hb Hdoc Harr Hs.
  pose proof (parseDynamicsFile_bare this content doc w Ht Hb Hdoc) as Hp. rewrite Harr in Hp.
  destruct (updateDynamicsFile_decoded_empty this w content _ text Hf Hp Hs)
    as (w' & Hrun & Hfs & Hwr & Ha & _).
  by exists w'.
Qed.

(** X15. In a project without any registry file and with no regular
    file in the way of [quiqr/model/includes], an accepted run of
    [updateDynamicsFile] creates the registry in the format of the
    scaffolder, and from then on the detection of the constructor finds
    that format: a later run without a type flag uses it. *)
Theorem created_registry_sets_the_format this w text :
  (forall t, fs w !! registry_file t = None) ->
  unobstructed w registry_directory = true ->
  accepts (answers w) = true ->
  stringifyDynamicsData this (registry [newDynamicsData this]) = inr text ->
  exists w',
    updateDynamicsFile this w = (Ok tt, w')
    /\ fs w' !! registry_file (fileType this) = Some (File text)
    /\ detected w' = fileType this
    /\ forall name, exists this',
         constructor name None w' = (Ok this', w') /\ fileType this' = fileType this.
Proof.
  intros Hnone Hfree Hyes Hs.
  assert (fs w !! dynamicsFilePath this = None) as Hf
    by (rewrite dynamicsFilePath_registry_file; apply Hnone).
  destruct (updateDynamicsFile_creates this w Hf) as (w1 & Hw1 & Ha1 & Hf1 & Hframe & Hrun).
  rewrite Hyes in Hrun. destruct Hrun as [_ Hrun]. destruct (Hrun Hfree) as [Hd1 ->].
  rewrite writeDynamics_run, Hs by (by rewrite ?Hf1).
  eexists. split; [reflexivity|].
  match goal with |- fs ?w0 !! _ = _ /\ _ => set (w' := w0) end.
  assert (fs w' !! registry_file (fileType this) = Some (File text)) as Hmine.
  { rewrite <- dynamicsFilePath_registry_file. apply lookup_insert_eq. }
  assert (forall t, t <> fileType this -> fs w' !! registry_file t = None) as Hothers.
  { intros t Hne. unfold w'. simpl.
    rewrite lookup_insert_ne.
    - rewrite Hframe by (by apply other_registry_untouched). apply Hnone.
    - rewrite dynamicsFilePath_registry_file. intros Heq. apply Hne.
      destruct t, (fileType this); try done; by vm_compute in Heq. }
  assert (detected w' = fileType this) as Hdet.
  { unfold detected, probe_order. rewrite !filter_cons, filter_nil.
    destruct (fileType this) eqn:Ht; rewrite ?Ht in Hmine, Hothers;
      rewrite ?(Hothers toml), ?(Hothers json), ?Hmine by done;
      repeat case_decide; try done;
      try (by destruct (is_Some_None (A:=node)));
      match goal with Hn : ~ is_Some (Some _) |- _ => destruct Hn; eauto end. }
  split_and!; [done|done|].
  intros name. eexists. split.
  { unfold constructor. rewrite (bind_ok _ _ _ _ _ (detectFileType_run _)). reflexivity. }
  done.
Qed.

End RegistryCornerProperties.

(** ** Directories, the content definition, themes and the template *)

Lemma mkdir_all_present ds fsys d : d ∈ ds -> is_Some (foldl Fs.mkdir_one fsys ds !! d).
Proof.
  revert fsys. induction ds as [|x ds IH]; intros fsys Hd; [by apply elem_of_nil in Hd|].
  simpl. apply elem_of_cons in Hd as [->|Hd]; [|by apply IH].
  assert (is_Some (Fs.mkdir_one fsys x !! x)) as [n Hn].
  { unfold Fs.mkdir_one. destruct (fsys !! x) eqn:Hx; [by rewrite Hx|].
    rewrite lookup_insert_eq. eauto. }
  rewrite (mkdir_all_kept ds _ x n Hn). eauto.
Qed.

Lemma mkdir_all_new ds fsys p n :
  fsys !! p = None -> foldl Fs.mkdir_one fsys ds !! p = Some n -> n = Dir /\ p ∈ ds.
Proof.
  revert fsys. induction ds as [|x ds IH]; intros fsys Hp Hn; simpl in *; [congruence|].
  destruct (decide (p = x)) as [->|Hne].
  - split; [|by constructor].
    assert (Fs.mkdir_one fsys x !! x = Some Dir) as Hx.
    { unfold Fs.mkdir_one. rewrite Hp. apply lookup_insert_eq. }
    rewrite (mkdir_all_kept ds _ x Dir Hx) in Hn. congruence.
  - destruct (IH (Fs.mkdir_one fsys x)) as [-> Hin]; [|done|].
    + by rewrite mkdir_one_lookup_ne.
    + split; [done|]. by constructor.
Qed.

Lemma strip_prefix_Some p s r : Path.strip_prefix p s = Some r <-> s = p +:+ r.
Proof.
  revert s. induction p as [|a p IH]; intros s; simpl.
  - rewrite append_nil_l. split; [by intros [= ->]|by intros ->].
  - rewrite append_cons. destruct s as [|b s]; [done|].
    destruct (Ascii.eqb_spec a b) as [->|Hne].
    + rewrite IH. split; [by intros ->|by intros [= ->]].
    + split; [done|]. by intros [= <- _].
Qed.

Lemma child_of_Some d entry name b :
  Fs.child_of d entry = Some (name, b)
  <-> entry.1 = d +:+ "/" +:+ name
      /\ JsString.is_empty name = false
      /\ JsString.contains_char "/" name = false
      /\ b = match entry.2 with Dir => true | File _ => false end.
Proof.
  unfold Fs.child_of.
  destruct (Path.strip_prefix (d +:+ "/") entry.1) as [r|] eqn:Hs.
  - apply strip_prefix_Some in Hs. rewrite append_assoc in Hs.
    destruct (JsString.is_empty r) eqn:He; simpl.
    { split; [done|]. intros (Hentry & Hname & _). rewrite Hs in Hentry.
      do 2 apply append_inj_l in Hentry. congruence. }
    destruct (JsString.contains_char "/" r) eqn:Hc; simpl.
    { split; [done|]. intros (Hentry & _ & Hname & _). rewrite Hs in Hentry.
      do 2 apply append_inj_l in Hentry. congruence. }
    split.
    + intros [= <- <-]. done.
    + intros (Hentry & _ & _ & ->). rewrite Hs in Hentry.
      do 2 apply append_inj_l in Hentry. by subst.
  - split; [done|]. intros (Hentry & _).
    assert (Path.strip_prefix (d +:+ "/") entry.1 = Some name) as Hs'.
    { apply strip_prefix_Some. by rewrite append_assoc. }
    congruence.
Qed.

(** The directories [getThemeDirectory] finds below [themes]. *)
Lemma elem_of_themeDirectories w name :
  name ∈ (filter (fun entry : string * bool => entry.2 = true)
            (omap (Fs.child_of "themes") (map_to_list (fs w)))).*1
  <-> theme_directory w name.
Proof.
  unfold theme_directory. rewrite list_elem_of_fmap. split.
  - intros ([n b] & -> & [Hb Hin]%list_elem_of_filter). simpl in *. subst b.
    apply list_elem_of_omap in Hin as ([key nd] & Hin & Hc).
    apply child_of_Some in Hc as (Hkey & Hne & Hslash & Hdir). simpl in *.
    apply elem_of_map_to_list in Hin. subst key.
    split_and!; [done..|]. by destruct nd.
  - intros (Hne & Hslash & Hdir). exists (name, true). split; [done|].
    apply list_elem_of_filter. split; [done|].
    apply list_elem_of_omap. exists ("themes/" +:+ name, Dir). split.
    + by apply elem_of_map_to_list.
    + by apply child_of_Some.
Qed.

Lemma themeDirectories_NoDup d (l : list (string * node)) :
  NoDup l.*1 ->
  NoDup (filter (fun entry : string * bool => entry.2 = true) (omap (Fs.child_of d) l)).*1.
Proof.
  induction l as [|x l IH]; intros Hnd; [constructor|].
  rewrite fmap_cons in Hnd. apply NoDup_cons in Hnd as [Hx Hnd].
  simpl. destruct (Fs.child_of d x) as [[n b]|] eqn:Hc; [|by apply IH].
  rewrite filter_cons. destruct (decide ((n, b).2 = true)) as [Hb|Hb]; [|by apply IH].
  rewrite fmap_cons. apply NoDup_cons. split; [|by apply IH].
  intros ([n' b'] & Hn & [_ Hin]%list_elem_of_filter)%list_elem_of_fmap. simpl in Hn. subst n'.
  apply list_elem_of_omap in Hin as (x' & Hin & Hc').
  apply child_of_Some in Hc as (Hkey & _). apply child_of_Some in Hc' as (Hkey' & _).
  apply Hx. rewrite Hkey, <- Hkey'. apply list_elem_of_fmap. eauto.
Qed.

Lemma NoDup_only {A} (l : list A) a : NoDup l -> (forall x, x ∈ l <-> x = a) -> l = [a].
Proof.
  intros Hnd Hl. destruct l as [|x l].
  { pose proof (proj2 (Hl a) eq_refl) as Hin. by apply elem_of_nil in Hin. }
  assert (x = a) as -> by (apply Hl; by constructor).
  apply NoDup_cons in Hnd as [Hx Hnd].
  destruct l as [|y l]; [done|].
  assert (y = a) as -> by (apply Hl; by repeat constructor).
  destruct Hx. by constructor.
Qed.

Section Directories.

Context `{Libraries}.

Lemma ensureDirectoryExists_present dirPath w :
  is_Some (fs w !! dirPath) -> ensureDirectoryExists dirPath w = (Ok tt, w).
Proof.
  intros Hd. unfold ensureDirectoryExists.
  rewrite (bind_ok _ _ _ _ _ (existsSync_run _ _)). by rewrite bool_decide_true.
Qed.

End Directories.

Section DirectoryEffect.

Context `{Libraries}.

(** What [ensureDirectoryExists] does in each of its three cases. *)
Lemma ensureDirectoryExists_effect dirPath w :
  exists r w',
    ensureDirectoryExists dirPath w = (r, w')
    /\ (is_Some (fs w !! dirPath) -> r = Ok tt /\ w' = w)
    /\ (fs w !! dirPath = None -> unobstructed w dirPath = true ->
        r = Ok tt
        /\ forall p, p ∈ Path.ancestors dirPath ++ [dirPath] -> fs w' !! p = Some Dir)
    /\ (fs w !! dirPath = None -> unobstructed w dirPath = false ->
        (exists e, r = Throw e) /\ w' = w)
    /\ fs w ⊆ fs w'
    /\ (forall p n, fs w !! p = None -> fs w' !! p = Some n ->
          n = Dir /\ p ∈ Path.ancestors dirPath ++ [dirPath])
    /\ writes w' = writes w /\ answers w' = answers w.
Proof.
  destruct (fs w !! dirPath) as [n|] eqn:Hd.
  - exists (Ok tt), w. rewrite ensureDirectoryExists_present by (by rewrite Hd).
    split_and!; try done.
    intros p n' Hp Hp'. congruence.
  - unfold ensureDirectoryExists.
    rewrite (bind_ok _ _ _ _ _ (existsSync_run _ _)), Hd.
    rewrite bool_decide_false by (by intros [? ?]). simpl. unfold bind.
    destruct (mkdirSync_cases dirPath w) as [[Hfree ->]|[Hfree [e ->]]].
    + unfold Console.log. simpl. eexists _, _. split; [done|]. simpl.
      split_and!; try done.
      * intros _ _. split; [done|]. intros p Hp. apply mkdir_all_directory; [done|].
        by apply (proj1 (unobstructed_spec w dirPath) Hfree).
      * intros _ Hno. congruence.
      * apply map_subseteq_spec. intros p n Hp. by apply mkdir_all_kept.
      * intros p n Hp Hn. by apply (mkdir_all_new _ (fs w)).
    + exists (Throw e), w. split; [done|].
      split_and!; [by intros [? ?]|intros _ Hyes; congruence| |done| |done|done].
      * intros _ _. split; [by exists e|done].
      * intros p n Hp Hn. congruence.
Qed.

End DirectoryEffect.

Section DirectoryProperties.

Context `{Libraries}.

(** X16. [ensureDirectoryExists] in its three cases.  On a path that
    exists it returns normally and changes nothing.  On a missing path
    with no regular file in the way it returns normally, and afterwards
    the path and all its ancestors are directories.  On a missing path
    with a regular file in the way it throws the error of [mkdirSync]
    and changes nothing.  In every case each entry that existed is
    unchanged, every new entry is a directory on the chain from the
    first path segment to the path, no file is written and no answer is
    read. *)
Theorem ensureDirectoryExists_makes_directory dirPath w :
  exists r w',
    ensureDirectoryExists dirPath w = (r, w')
    /\ (is_Some (fs w !! dirPath) -> r = Ok tt /\ w' = w)
    /\ (fs w !! dirPath = None -> unobstructed w dirPath = true ->
        r = Ok tt
        /\ forall p, p ∈ Path.ancestors dirPath ++ [dirPath] -> fs w' !! p = Some Dir)
    /\ (fs w !! dirPath = None -> unobstructed w dirPath = false ->
        (exists e, r = Throw e) /\ w' = w)
    /\ fs w ⊆ fs w'
    /\ (forall p n, fs w !! p = None -> fs w' !! p = Some n ->
          n = Dir /\ p ∈ Path.ancestors dirPath ++ [dirPath])
    /\ writes w' = writes w /\ answers w' = answers w.
Proof. apply ensureDirectoryExists_effect. Qed.

(** X17. [ensureDirectoryExists] is idempotent: a second call on the same
    path ends as the first one did (normally, or with the same error)
    and changes nothing at all, not even the console. *)
Theorem ensureDirectoryExists_idempotent dirPath w :
  ensureDirectoryExists dirPath (ensureDirectoryExists dirPath w).2
  = ((ensureDirectoryExists dirPath w).1, (ensureDirectoryExists dirPath w).2).
Proof.
  destruct (ensureDirectoryExists_effect dirPath w)
    as (r & w' & Hrun & Hpresent & Hmade & Hfailed & _).
  rewrite Hrun. simpl.
  destruct (fs w !! dirPath) as [n|] eqn:Hd.
  - destruct Hpresent as [-> ->]; [by eexists|]. done.
  - destruct (unobstructed w dirPath) eqn:Hfree.
    + destruct (Hmade eq_refl eq_refl) as [-> Hdirs].
      apply ensureDirectoryExists_present. rewrite Hdirs; [by eexists|].
      apply elem_of_app. right. by constructor.
    + destruct (Hfailed eq_refl eq_refl) as [[e ->] ->]. done.
Qed.

End DirectoryProperties.

Section ContentFile.

Context `{Libraries}.

Lemma content_path_join this :
  Path.join [Path.join ["quiqr"; "model"; "partials"];
             blockName this +:+ "." +:+ FileType_toString (fileType this)]
  = content_path this.
Proof. reflexivity. Qed.

Lemma content_path_is_no_directory this :
  content_path this ∉ Path.ancestors "quiqr/model/partials" ++ ["quiqr/model/partials"].
Proof. intros Hin. by eapply child_not_ancestor in Hin. Qed.

Lemma content_name_has_no_slash this :
  JsString.matches_identifier (blockName this) = true ->
  JsString.contains_char "/" (blockName this +:+ "." +:+ FileType_toString (fileType this))
  = false.
Proof.
  intros Hid%identifier_no_slash. rewrite contains_char_app, Hid. by destruct (fileType this).
Qed.

(** [createContentFile] when the format's printer returns [text] and
    nothing is in the way of [quiqr/model/partials]. *)
Lemma createContentFile_effect this w text :
  JsString.matches_identifier (blockName this) = true ->
  unobstructed w content_directory = true ->
  fs w !! content_path this <> Some Dir ->
  library_stringify (fileType this) content_template = inr text ->
  exists w',
    createContentFile this w = (Ok tt, w')
    /\ fs w' !! content_path this = Some (File text)
    /\ (forall x, x <> content_path this -> Fs.is_file (fs w') x = Fs.is_file (fs w) x)
    /\ writes w' = writes w ++ [(content_path this, text)]
    /\ answers w' = answers w
    /\ (forall p,
          p ∉ ["quiqr"; "quiqr/model"; "quiqr/model/partials"; content_path this] ->
          fs w' !! p = fs w !! p).
Proof.
  intros Hid Hfree Hdir Hs. unfold createContentFile. cbv zeta.
  change (Path.join ["quiqr"; "model"; "partials"]) with content_directory.
  destruct (ensureDirectoryExists_run content_directory w Hfree)
    as (w1 & He & Hd1 & Hf1 & Hw1 & Ha1).
  pose proof (ensureDirectoryExists_is_file content_directory w) as Hfiles.
  rewrite He in Hfiles. simpl in Hfiles.
  rewrite (bind_ok _ _ _ _ _ He).
  assert (lift match fileType this with
               | yaml => formatContentAsYaml
                           (ContentData.mk [ContentData.mkField EmptyString EmptyString EmptyString])
               | toml => formatContentAsToml
                           (ContentData.mk [ContentData.mkField EmptyString EmptyString EmptyString])
               | json => formatContentAsJson
                           (ContentData.mk [ContentData.mkField EmptyString EmptyString EmptyString])
               end w1 = (Ok text, w1)) as Hl.
  { unfold library_stringify in Hs.
    destruct (fileType this);
      unfold formatContentAsYaml, formatContentAsToml, formatContentAsJson;
      change (ContentData.to_value _) with content_template; by rewrite Hs. }
  rewrite (bind_ok _ _ _ _ _ Hl).
  assert (fs w1 !! content_path this = fs w !! content_path this) as Hsame
    by apply Hf1, content_path_is_no_directory.
  unfold bind at 1.
  rewrite writeFileSync_new; [|by apply content_name_has_no_slash|done|].
  2:{ change (fs w1 !! content_path this <> Some Dir). by rewrite Hsame. }
  change (Path.join [content_directory;
                     blockName this +:+ "." +:+ FileType_toString (fileType this)])
    with (content_path this).
  unfold Console.log.
  eexists. split_and!; [reflexivity|..]; simpl.
  - apply lookup_insert_eq.
  - intros x Hx. rewrite <- Hfiles. unfold Fs.is_file. by rewrite lookup_insert_ne.
  - by rewrite Hw1.
  - done.
  - intros p Hp. rewrite lookup_insert_ne by (intros <-; apply Hp; repeat constructor).
    apply Hf1. intros Hin. apply Hp.
    change (Path.ancestors content_directory ++ [content_directory])
      with ["quiqr"; "quiqr/model"; "quiqr/model/partials"] in Hin.
    repeat (apply elem_of_cons in Hin as [->|Hin]; [repeat constructor|]).
    by apply elem_of_nil in Hin.
Qed.

(** X18. [createContentFile] never asks: for a block name that is an
    identifier, in a project where no regular file is in the way of
    [quiqr/model/partials], whatever file was at the path of the content
    definition is replaced by the empty field template (as the library
    of the format prints it), no answer is read, and nothing changes
    outside that file and the three directories above it. *)
Theorem createContentFile_replaces_silently this w text :
  JsString.matches_identifier (blockName this) = true ->
  unobstructed w content_directory = true ->
  fs w !! content_path this <> Some Dir ->
  library_stringify (fileType this) content_template = inr text ->
  exists w',
    createContentFile this w = (Ok tt, w')
    /\ fs w' !! content_path this = Some (File text)
    /\ writes w' = writes w ++ [(content_path this, text)]
    /\ answers w' = answers w
    /\ (forall p,
          p ∉ ["quiqr"; "quiqr/model"; "quiqr/model/partials"; content_path this] ->
          fs w' !! p = fs w !! p).
Proof.
  intros Hid Hfree Hdir Hs.
  destruct (createContentFile_effect this w text Hid Hfree Hdir Hs)
    as (w' & Hrun & Hfile & _ & Hw & Ha & Hframe).
  by exists w'.
Qed.

End ContentFile.

Section Themes.

Context `{Libraries}.

(** X19. When [themes] is a directory with exactly one directory right
    below it, [getThemeDirectory] returns that theme without asking: it
    prints which theme it uses, reads no answer and changes no file. *)
Theorem single_theme_is_used w theme :
  fs w !! "themes" = Some Dir ->
  (forall name, theme_directory w name <-> name = theme) ->
  getThemeDirectory w
  = (Ok theme, set_console (fun c => c ++ [Stdout [AStr ("📁 Using theme: " +:+ theme)]]) w).
Proof.
  intros Hthemes Honly. unfold getThemeDirectory.
  rewrite (bind_ok _ _ _ _ _ (existsSync_run _ _)), Hthemes.
  rewrite bool_decide_true by eauto. change (negb true) with false. cbv iota.
  assert (Fs.readdirSync "themes" w
          = (Ok (omap (Fs.child_of "themes") (map_to_list (fs w))), w)) as Hr.
  { unfold Fs.readdirSync. by rewrite Hthemes. }
  rewrite (bind_ok _ _ _ _ _ Hr). cbv zeta.
  assert ((filter (fun entry : string * bool => entry.2 = true)
             (omap (Fs.child_of "themes") (map_to_list (fs w)))).*1 = [theme]) as ->.
  { apply NoDup_only.
    - apply themeDirectories_NoDup, NoDup_fst_map_to_list.
    - intros name. by rewrite elem_of_themeDirectories. }
  done.
Qed.

Lemma askThemeName_run message validate w :
  askThemeName message validate w
  = let r := Prompts.read_text validate (answers w) in
    let w' := set_answers (fun _ => r.2) (set_console (fun c => c ++ [Prompt message]) w) in
    match r.1 with
    | Some name =>
        if JsString.is_empty name then (Throw (Exn "Error" "Theme name is required"), w')
        else (Ok (JsString.trim name), w')
    | None => (Throw (Exn "Error" "Theme name is required"), w')
    end.
Proof.
  unfold askThemeName. rewrite (bind_ok _ _ _ _ _ (text_run _ _ _)). cbv zeta.
  destruct (Prompts.read_text validate (answers w)).1 as [name|]; [|done].
  by destruct (JsString.is_empty name).
Qed.

(** X20. The name [getThemeDirectory] accepts for a new theme is a typed
    line with the white space around it trimmed off; it is never empty
    and never the name of one of the existing theme directories. *)
Theorem new_theme_name_is_fresh message themeDirectories w name w' :
  askThemeName message (validateNewThemeName themeDirectories) w = (Ok name, w') ->
  (name ∉ themeDirectories)
  /\ name <> EmptyString
  /\ exists typed, Text typed ∈ answers w /\ name = JsString.trim typed.
Proof.
  rewrite askThemeName_run. cbv zeta.
  destruct (Prompts.read_text _ (answers w)) as [[typed|] rest] eqn:Hr; simpl; [|done].
  destruct (JsString.is_empty typed); [done|]. intros [= <- _].
  pose proof (read_text_valid _ _ _ _ Hr) as Hv. unfold validateNewThemeName in Hv.
  destruct (JsString.is_empty (JsString.trim typed)) eqn:He; [done|].
  case_bool_decide as Hin; [done|]. split_and!; [done|by intros Heq; rewrite Heq in He|].
  exists typed. split; [|done]. clear -Hr.
  induction (answers w) as [|a script IH] in Hr |- *; simpl in Hr; [done|].
  destruct a as [b|t|v|]; try done.
  destruct (validateNewThemeName themeDirectories t).
  - injection Hr as -> _. by constructor.
  - constructor. by apply IH.
Qed.

End Themes.

Section Template.

Context `{Libraries}.

Lemma template_dir_join theme :
  Path.join ["themes"; theme; "layouts"; "partials"; "content_blocks"] = template_dir theme.
Proof.
  reflexivity.
Qed.

Lemma template_path_join theme this :
  Path.join [template_dir theme; blockNameWithDashes this +:+ ".html"]
  = template_path theme this.
Proof.
  unfold template_path, template_dir. cbn [Path.join].
  rewrite !append_assoc. reflexivity.
Qed.

(** What [createHtmlFile] does once the theme is known. *)
Lemma createHtmlFile_with_theme this theme w w1 :
  getThemeDirectory w = (Ok theme, w1) ->
  createHtmlFile this w
  = try_catch
      (ensureDirectoryExists (template_dir theme);;
       present ← Fs.existsSync (template_path theme this);
       if present then
         response ← Prompts.confirm
           ("HTML file (" +:+ template_path theme this +:+ ") already exists. Overwrite it?");
         if negb (default false response) then
           Console.log [AStr "⚠️  Skipping HTML file creation"];;
           ret (with_theme this theme)
         else
           Fs.writeFileSync (template_path theme this) (htmlContent this);;
           Console.log [AStr ("✓ Created HTML template: " +:+ template_path theme this)];;
           ret (with_theme this theme)
       else
         Fs.writeFileSync (template_path theme this) (htmlContent this);;
         Console.log [AStr ("✓ Created HTML template: " +:+ template_path theme this)];;
         ret (with_theme this theme))
      (fun error =>
         Console.error [AStr "❌ Error creating HTML file:"; AStr (exn_message error)];;
         throw error) w1.
Proof.
  intros Hg. unfold createHtmlFile, try_catch.
  rewrite (bind_ok _ _ _ _ _ Hg). cbv zeta. cbn [blockNameWithDashes].
  by rewrite template_dir_join, template_path_join.
Qed.

(** X21. When the template of the block exists in the chosen theme (a plain
    path segment) and the overwrite question is not answered with a yes,
    [createHtmlFile] returns normally with the theme recorded and leaves
    every file as it was. *)
Theorem declined_template_overwrite this w w1 theme :
  getThemeDirectory w = (Ok theme, w1) ->
  Path.plain theme = true ->
  is_Some (fs w !! template_dir theme) ->
  is_Some (fs w !! template_path theme this) ->
  accepts (answers w1) = false ->
  exists w',
    createHtmlFile this w = (Ok (with_theme this theme), w')
    /\ fs w' = fs w /\ writes w' = writes w /\ answers w' = tail (answers w1).
Proof.
  intros Hg _ Hdir Hfile Hno.
  destruct (getThemeDirectory_quiet w) as [Hf1 Hw1]. rewrite Hg in Hf1, Hw1. simpl in Hf1, Hw1.
  rewrite (createHtmlFile_with_theme this theme w w1 Hg). unfold try_catch.
  rewrite (bind_ok _ _ _ _ _ (ensureDirectoryExists_present (template_dir theme) w1 ltac:(by rewrite Hf1))).
  rewrite (bind_ok _ _ _ _ _ (existsSync_run _ _)), Hf1.
  rewrite bool_decide_true by done.
  edestruct confirm_run as (r & w2 & Hc & Hr & Hf2 & Hw2 & Ha2).
  rewrite (bind_ok _ _ _ _ _ Hc), Hr, Hno. simpl.
  eexists. split; [reflexivity|]. simpl. split_and!; congruence.
Qed.

(** The theme question without a [themes] directory, when no name is
    given. *)
Lemma getThemeDirectory_cancelled w :
  fs w !! "themes" = None ->
  (Prompts.read_text validateThemeName (answers w)).1 = None ->
  exists w1,
    getThemeDirectory w = (Throw (Exn "Error" "Theme name is required"), w1)
    /\ fs w1 = fs w /\ writes w1 = writes w.
Proof.
  intros Hthemes Hnone. unfold getThemeDirectory.
  rewrite (bind_ok _ _ _ _ _ (existsSync_run _ _)), Hthemes.
  rewrite bool_decide_false by (by intros [? ?]). change (negb false) with true. cbv iota.
  unfold bind at 1, Console.log at 1.
  rewrite askThemeName_run. cbv zeta. simpl answers. rewrite Hnone.
  eexists. split; [reflexivity|]. done.
Qed.

(** [scaffold] when its third step throws. *)
Lemma scaffold_failed this w wB wC e wD :
  createContentFile this (after_banner this w) = (Ok tt, wB) ->
  updateDynamicsFile this wB = (Ok tt, wC) ->
  createHtmlFile this wC = (Throw e, wD) ->
  scaffold this w
  = (Exit 1,
     set_console
       (fun c => c ++ [Stderr [AStr "❌ Error scaffolding content block:";
                               AStr (exn_message e)]]) wD).
Proof.
  intros H1 H2 H3. unfold scaffold, try_catch.
  unfold bind at 1, Console.log at 1. unfold bind at 1, Console.log at 1.
  unfold bind at 1, Console.log at 1. fold (after_banner this w).
  rewrite (bind_ok _ _ _ _ _ H1), (bind_ok _ _ _ _ _ H2), (bind_throw _ _ _ _ _ H3).
  done.
Qed.

(** X22. [scaffold] does not roll back.  When the first two steps succeeded
    and the theme question (in a project without [themes]) gets no valid
    name, the run ends with exit code 1 and the error on the console,
    and the files and the write trace are exactly as the first two steps
    left them. *)
Theorem failed_template_step_keeps_files this w wB wC :
  createContentFile this (after_banner this w) = (Ok tt, wB) ->
  updateDynamicsFile this wB = (Ok tt, wC) ->
  fs wC !! "themes" = None ->
  (Prompts.read_text validateThemeName (answers wC)).1 = None ->
  exists w',
    scaffold this w = (Exit 1, w')
    /\ fs w' = fs wC /\ writes w' = writes wC
    /\ last (console w')
       = Some (Stderr [AStr "❌ Error scaffolding content block:";
                       AStr "Theme name is required"]).
Proof.
  intros H1 H2 Hthemes Hnone.
  destruct (getThemeDirectory_cancelled wC Hthemes Hnone) as (w1 & Hg & Hf & Hw).
  assert (exists wD, createHtmlFile this wC = (Throw (Exn "Error" "Theme name is required"), wD)
                     /\ fs wD = fs wC /\ writes wD = writes wC) as (wD & H3 & HfD & HwD).
  { unfold createHtmlFile, try_catch. rewrite (bind_throw _ _ _ _ _ Hg).
    eexists. split; [reflexivity|]. done. }
  rewrite (scaffold_failed this w wB wC _ wD H1 H2 H3).
  eexists. split; [reflexivity|]. simpl. split_and!; [done..|]. apply last_snoc.
Qed.

Lemma createHtmlFile_theme this w this' w' :
  createHtmlFile this w = (Ok this', w') ->
  exists theme w1,
    getThemeDirectory w = (Ok theme, w1)
    /\ this' = with_theme this theme
    /\ (writes w' = writes w
        \/ (writes w' = writes w ++ [(template_path theme this, htmlContent this)]
            /\ fs w' !! template_path theme this = Some (File (htmlContent this)))).
Proof.
  destruct (getThemeDirectory w) as [[theme|e|c] w1] eqn:Hg.
  - rewrite (createHtmlFile_with_theme this theme w w1 Hg).
    destruct (getThemeDirectory_quiet w) as [Hf1 Hw1]. rewrite Hg in Hf1, Hw1. simpl in Hf1, Hw1.
    destruct (ensureDirectoryExists_frame (template_dir theme) w1)
      as (r2 & w2 & He & Hr2 & _ & Hw2 & _).
    unfold try_catch.
    destruct Hr2 as [->|(e & -> & _)]; [|by rewrite (bind_throw _ _ _ _ _ He)].
    rewrite (bind_ok _ _ _ _ _ He).
    rewrite (bind_ok _ _ _ _ _ (existsSync_run _ _)).
    assert (forall w3, writes w3 = writes w ->
              (let (o, w'0) :=
                 bind (Fs.writeFileSync (template_path theme this) (htmlContent this))
                   (fun _ => bind (Console.log [AStr ("✓ Created HTML template: "
                                                      +:+ template_path theme this)])
                                  (fun _ => ret (with_theme this theme))) w3 in
               match o with
               | Ok a => (Ok a, w'0)
               | Throw e =>
                   bind (Console.error [AStr "❌ Error creating HTML file:"; AStr (exn_message e)])
                     (fun _ => throw e) w'0
               | Exit code => (Exit code, w'0)
               end) = (Ok this', w') ->
              exists theme0 w0,
                (Ok theme, w1) = (Ok theme0, w0)
                /\ this' = with_theme this theme0
                /\ (writes w' = writes w
                    \/ (writes w' = writes w ++ [(template_path theme0 this, htmlContent this)]
                        /\ fs w' !! template_path theme0 this = Some (File (htmlContent this)))))
      as Hwrite.
    { intros w3 Hw3. unfold bind at 1.
      destruct (writeFileSync_cases (template_path theme this) (htmlContent this) w3)
        as [->|[e ->]]; [|done].
      unfold bind, Console.log, ret. intros [= <- <-].
      exists theme, w1. split_and!; [done..|]. right. simpl. rewrite Hw3.
      split; [done|apply lookup_insert_eq]. }
    case_bool_decide as Hpresent; [|apply Hwrite; congruence].
    edestruct confirm_run as (r & w3 & Hc & Hr & Hf3 & Hw3 & Ha3).
    rewrite (bind_ok _ _ _ _ _ Hc).
    destruct (negb (default false r)); [|apply Hwrite; congruence].
    unfold bind, Console.log, ret. intros [= <- <-].
    exists theme, w1. split_and!; [done..|]. left. simpl. congruence.
  - unfold createHtmlFile, try_catch. by rewrite (bind_throw _ _ _ _ _ Hg).
  - unfold createHtmlFile, try_catch. by rewrite (bind_exit _ _ _ _ _ Hg).
Qed.

(** X23. On success [scaffold] prints a summary whose line for the template
    names [themes/<theme>/partials/content_blocks/<name>.html].  For a
    theme and a template file name that are plain path segments, that is
    never the path of the template: the only file the third step may
    have written is [themes/<theme>/layouts/partials/content_blocks/<name>.html]. *)
Theorem summary_names_another_path this this' w wB wC wD :
  createContentFile this (after_banner this w) = (Ok tt, wB) ->
  updateDynamicsFile this wB = (Ok tt, wC) ->
  createHtmlFile this wC = (Ok this', wD) ->
  (forall theme, selectedTheme this' = Some theme -> Path.plain theme = true) ->
  Path.plain (blockNameWithDashes this +:+ ".html") = true ->
  exists theme w',
    scaffold this w = (Ok tt, w')
    /\ selectedTheme this' = Some theme
    /\ Stdout [AStr ("  • " +:+ listed_template_path theme this)] ∈ console w'
    /\ listed_template_path theme this <> template_path theme this
    /\ (forall p content, (p, content) ∈ writes w' -> (p, content) ∉ writes wC ->
          p = template_path theme this).
Proof.
  intros H1 H2 H3 _ _.
  destruct (createHtmlFile_theme this wC this' wD H3) as (theme & w1 & _ & -> & Hwr).
  exists theme. unfold scaffold, try_catch.
  unfold bind at 1, Console.log at 1. unfold bind at 1, Console.log at 1.
  unfold bind at 1, Console.log at 1. fold (after_banner this w).
  rewrite (bind_ok _ _ _ _ _ H1), (bind_ok _ _ _ _ _ H2), (bind_ok _ _ _ _ _ H3).
  unfold bind, Console.log. eexists. split; [reflexivity|]. simpl.
  split_and!; [done| | |].
  - rewrite !elem_of_app, !list_elem_of_singleton. left. right.
    reflexivity.
  - unfold listed_template_path, template_path. intros Heq.
    do 2 apply append_inj_l in Heq. rewrite !append_cons in Heq. discriminate Heq.
  - intros p content Hin Hnot. destruct Hwr as [Hwr|[Hwr _]]; rewrite Hwr in Hin; [done|].
    apply elem_of_app in Hin as [Hin|Hin]; [done|].
    apply list_elem_of_singleton in Hin. congruence.
Qed.

End Template.

(** ** The choice of the theme, and the scaffolder of [main] *)

Section MainFacts.

Context `{Libraries}.

Lemma constructor_scaffolder_of name flag w :
  constructor name flag w = (Ok (scaffolder_of name (default (detected w) flag)), w).
Proof.
  unfold constructor. destruct flag as [t|]; [done|].
  by rewrite (bind_ok _ _ _ _ _ (detectFileType_run _)).
Qed.

Lemma main_scaffolds args name w :
  Forall is_Some (flag_values args) ->
  chosen_name (positionals args) = Some name ->
  JsString.matches_identifier name = true ->
  main args w
  = scaffold (scaffolder_of name (default (detected w) (chosen_type (flag_values args)))) w.
Proof.
  intros Hwf Hname Hid. unfold main.
  rewrite (bind_ok _ _ _ _ _ (parseArgs_well_formed (length args) args None None w (le_n _) Hwf)).
  simpl. rewrite Hname. simpl. destruct name as [|c s]; [done|]. simpl JsString.is_empty.
  cbv iota. rewrite bind_ret, Hid. change (negb true) with false. cbv iota.
  by rewrite (bind_ok _ _ _ _ _ (constructor_scaffolder_of _ _ _)).
Qed.

(** X24. For a command line with well-formed type flags and an identifier
    as block name, [main] is [scaffold] on the scaffolder of that name:
    its format is the value of the last type flag when there is one,
    whatever registry files exist, and the detected format otherwise. *)
Theorem main_builds_the_scaffolder args name w :
  Forall is_Some (flag_values args) ->
  chosen_name (positionals args) = Some name ->
  JsString.matches_identifier name = true ->
  main args w
  = scaffold (scaffolder_of name (default (detected w) (chosen_type (flag_values args)))) w.
Proof. apply main_scaffolds. Qed.

End MainFacts.

Section ThemeChoice.

Context `{Libraries}.

(** A name the theme question returns is a validated line, trimmed. *)
Lemma askThemeName_validated message validate w name w' :
  askThemeName message validate w = (Ok name, w') ->
  fs w' = fs w /\ writes w' = writes w
  /\ exists typed,
       Text typed ∈ answers w /\ validate typed = Prompts.Valid /\ name = JsString.trim typed.
Proof.
  rewrite askThemeName_run. cbv zeta.
  destruct (Prompts.read_text validate (answers w)) as [[typed|] rest] eqn:Hr; simpl; [|done].
  destruct (JsString.is_empty typed); [done|]. intros [= <- <-].
  split_and!; [done..|].
  exists typed. split_and!; [|by eapply read_text_valid|done]. clear -Hr.
  induction (answers w) as [|a script IH] in Hr |- *; simpl in Hr; [done|].
  destruct a as [b|t|v|]; try done.
  destruct (validate t).
  - injection Hr as -> _. by constructor.
  - constructor. by apply IH.
Qed.

(** X25. When [themes] is a directory, the theme [getThemeDirectory]
    returns is never empty and is either one of the directories right
    below [themes], or a name typed at a prompt (trimmed) that is not one
    of them.  The files and the write trace are untouched. *)
Theorem getThemeDirectory_chooses w name w' :
  fs w !! "themes" = Some Dir ->
  getThemeDirectory w = (Ok name, w') ->
  name <> EmptyString
  /\ fs w' = fs w /\ writes w' = writes w
  /\ (theme_directory w name
      \/ (~ theme_directory w name
          /\ exists typed, Text typed ∈ answers w /\ name = JsString.trim typed)).
Proof.
  intros Hthemes. unfold getThemeDirectory.
  rewrite (bind_ok _ _ _ _ _ (existsSync_run _ _)), Hthemes.
  rewrite bool_decide_true by eauto. change (negb true) with false. cbv iota.
  assert (Fs.readdirSync "themes" w
          = (Ok (omap (Fs.child_of "themes") (map_to_list (fs w))), w)) as Hr.
  { unfold Fs.readdirSync. by rewrite Hthemes. }
  rewrite (bind_ok _ _ _ _ _ Hr). cbv zeta.
  pose proof (elem_of_themeDirectories w) as Hdirs.
  set (dirs := (filter (fun entry : string * bool => entry.2 = true)
                  (omap (Fs.child_of "themes") (map_to_list (fs w)))).*1) in *.
  assert (forall n, n ∈ dirs -> n <> EmptyString) as Hnonempty.
  { intros n [Hn _]%Hdirs ->. done. }
  destruct dirs as [|single [|second more]] eqn:Hlist.
  - unfold bind at 1, Console.log at 1. intros (Hf & Hw & typed & Hin & Hv & ->)%askThemeName_validated.
    unfold validateThemeName in Hv.
    destruct (JsString.is_empty (JsString.trim typed)) eqn:He; [done|].
    split_and!; [by intros Heq; rewrite Heq in He|done|done|].
    right. split; [|by exists typed]. intros Hd%Hdirs. by apply elem_of_nil in Hd.
  - unfold bind, Console.log, ret. intros [= <- <-].
    assert (single ∈ [single]) as Hin by constructor.
    split_and!; [by apply Hnonempty|done|done|]. left. by apply Hdirs.
  - unfold bind at 1. unfold Prompts.select.
    unfold bind at 1 2, Prompts.show, Prompts.next, ret.
    cbn [answers set_console fs console writes].
    destruct (answers w) as [|a rest] eqn:Ha; [done|].
    destruct a as [b|t|v|]; try done.
    case_bool_decide as Hchoice; [|done].
    destruct (JsString.is_empty v) eqn:Hv; [done|].
    destruct (String.eqb_spec v "__create_new__") as [->|Hnew].
    + intros (Hf & Hw & typed & Hin & Hval & ->)%askThemeName_validated.
      simpl in Hf, Hw, Hin. unfold validateNewThemeName in Hval.
      destruct (JsString.is_empty (JsString.trim typed)) eqn:He; [done|].
      case_bool_decide as Hfresh; [done|].
      split_and!; [by intros Heq; rewrite Heq in He|done|done|].
      right. split; [by intros Hd%Hdirs|]. exists typed. split; [|done]. by constructor.
    + intros [= <- <-]. simpl.
      apply elem_of_app in Hchoice as [Hchoice|Hchoice].
      * split_and!; [by apply Hnonempty|done|done|]. left. by apply Hdirs.
      * by apply list_elem_of_singleton in Hchoice.
Qed.

(** X26. When [createHtmlFile] returns, the scaffolder it hands on differs
    from the one it got in [selectedTheme] only, which holds the theme
    [getThemeDirectory] chose; and, for a theme and a template file name
    that are plain path segments, it has written either nothing or
    exactly one file: the template of the block in that theme, with the
    generated content. *)
Theorem createHtmlFile_writes_the_template_only this w this' w' :
  createHtmlFile this w = (Ok this', w') ->
  (forall theme w1, getThemeDirectory w = (Ok theme, w1) -> Path.plain theme = true) ->
  Path.plain (blockNameWithDashes this +:+ ".html") = true ->
  exists theme w1,
    getThemeDirectory w = (Ok theme, w1)
    /\ this' = with_theme this theme
    /\ (writes w' = writes w
        \/ (writes w' = writes w ++ [(template_path theme this, htmlContent this)]
            /\ fs w' !! template_path theme this = Some (File (htmlContent this)))).
Proof. intros Hrun _ _. by apply createHtmlFile_theme. Qed.

End ThemeChoice.

Section Scenario.

Context `{Libraries}.

Lemma FileType_of_toString t : FileType_of_string (FileType_toString t) = Some t.
Proof. by destruct t. Qed.

(** The content definition is none of the paths of the registry step,
    and the registry file none of the paths of the content step. *)
Lemma content_path_outside_registry this : content_path this ∉ registry_footprint this.
Proof.
  unfold registry_footprint, content_path, dynamicsFilePath. intros Hin.
  repeat (apply elem_of_cons in Hin as [Hin|Hin];
          [destruct (fileType this); cbn [Path.join FileType_toString] in Hin;
           rewrite ?append_cons, ?append_nil_l in Hin; discriminate Hin|]).
  by apply elem_of_nil in Hin.
Qed.

Lemma registry_path_outside_content this :
  dynamicsFilePath this
  ∉ ["quiqr"; "quiqr/model"; "quiqr/model/partials"; content_path this].
Proof.
  unfold content_path, dynamicsFilePath. intros Hin.
  repeat (apply elem_of_cons in Hin as [Hin|Hin];
          [destruct (fileType this); cbn [Path.join FileType_toString] in Hin;
           rewrite ?append_cons, ?append_nil_l in Hin; discriminate Hin|]).
  by apply elem_of_nil in Hin.
Qed.

Lemma theme_path_outside_content this q :
  String "t" q ∉ ["quiqr"; "quiqr/model"; "quiqr/model/partials"; content_path this].
Proof.
  unfold content_path. intros Hin.
  repeat (apply elem_of_cons in Hin as [Hin|Hin];
          [rewrite ?append_cons, ?append_nil_l in Hin; discriminate Hin|]).
  by apply elem_of_nil in Hin.
Qed.

Lemma theme_path_outside_registry this q : String "t" q ∉ registry_footprint this.
Proof.
  unfold registry_footprint, dynamicsFilePath. intros Hin.
  repeat (apply elem_of_cons in Hin as [Hin|Hin];
          [destruct (fileType this); cbn [Path.join FileType_toString] in Hin;
           rewrite ?append_cons, ?append_nil_l in Hin; discriminate Hin|]).
  by apply elem_of_nil in Hin.
Qed.

(** X27. A first run in an empty project, for every block and format: for
    an identifier [name], a format [t] given with [--type], the creation
    of the registry accepted and a theme name typed (one path segment
    after trimming), the script ends normally having written exactly
    three files, in this order: the content definition with the empty
    field template, the registry with the single record of the block,
    and the template in the theme. *)
Theorem scaffold_on_empty_project name t theme text_c text_r :
  JsString.matches_identifier name = true ->
  Path.plain (JsString.trim theme) = true ->
  library_stringify t content_template = inr text_c ->
  stringifyDynamicsData (scaffolder_of name t) (registry [block_record name]) = inr text_r ->
  exists w',
    run [name; "--type"; FileType_toString t] (empty_project [Confirm true; Text theme])
    = (Ok tt, w')
    /\ fs w' !! content_path (scaffolder_of name t) = Some (File text_c)
    /\ fs w' !! registry_file t = Some (File text_r)
    /\ fs w' !! template_path (JsString.trim theme) (scaffolder_of name t)
       = Some (File (htmlContent (scaffolder_of name t)))
    /\ writes w'
       = [(content_path (scaffolder_of name t), text_c);
          (registry_file t, text_r);
          (template_path (JsString.trim theme) (scaffolder_of name t),
           htmlContent (scaffolder_of name t))]
    /\ answers w' = [].
Proof.
  intros Hid Hplain Hc Hr.
  set (this := scaffolder_of name t) in *.
  set (w0 := empty_project [Confirm true; Text theme]).
  assert (~ blank theme) as Hb.
  { intros Hblank%JsStringFacts.trim_empty_iff. unfold Path.plain in Hplain.
    by rewrite Hblank in Hplain. }
  clear Hplain.
  (* the command line *)
  assert (main [name; "--type"; FileType_toString t] w0 = scaffold this w0) as Hmain.
  { pose proof (identifier_is_no_flag name Hid) as Hflag.
    rewrite (main_scaffolds _ name).
    - cbn [flag_values]. rewrite Hflag. cbn [is_type_flag String.eqb Ascii.eqb orb flag_values].
      change (is_type_flag "--type") with true. cbv iota.
      by rewrite FileType_of_toString.
    - cbn [flag_values]. rewrite Hflag. change (is_type_flag "--type") with true.
      cbv iota. rewrite FileType_of_toString. repeat constructor. eauto.
    - cbn [positionals]. rewrite Hflag. change (is_type_flag "--type") with true. cbv iota.
      unfold chosen_name. cbn [list_find]. destruct name as [|c s]; [done|].
      by rewrite decide_True.
    - done. }
  (* the content definition *)
  destruct (createContentFile_effect this (after_banner this w0) text_c)
    as (wB & H1 & HcB & HfilesB & HwB & HaB & HframeB).
  { exact Hid. }
  { unfold unobstructed. change (fs (after_banner this w0)) with (∅ : gmap string node).
    by vm_compute. }
  { change (fs (after_banner this w0)) with (∅ : gmap string node). by rewrite lookup_empty. }
  { exact Hc. }
  (* the registry *)
  assert (fs wB !! dynamicsFilePath this = None) as HnoneB.
  { rewrite HframeB by apply registry_path_outside_content.
    change (fs (after_banner this w0)) with (∅ : gmap string node). apply lookup_empty. }
  destruct (updateDynamicsFile_creates this wB HnoneB) as (w1 & Hw1 & Ha1 & Hf1 & Hframe1 & H2).
  rewrite HaB in H2, Ha1. cbn [accepts answers after_banner set_console w0 empty_project] in H2.
  destruct H2 as [_ H2]. destruct H2 as [Hd1 H2].
  { rewrite (unobstructed_is_file (after_banner this w0)).
    - unfold unobstructed. change (fs (after_banner this w0)) with (∅ : gmap string node).
      by vm_compute.
    - intros x Hx. apply HfilesB. intros ->.
      apply (content_path_outside_registry this). unfold registry_footprint.
      change (Path.ancestors registry_directory ++ [registry_directory])
        with ["quiqr"; "quiqr/model"; "quiqr/model/includes"] in Hx.
      repeat (apply elem_of_cons in Hx as [Hx|Hx]; [rewrite Hx; repeat constructor|]).
      by apply elem_of_nil in Hx. }
  change (newDynamicsData this) with (block_record name) in H2.
  rewrite writeDynamics_run, Hr in H2 by (by rewrite ?Hf1).
  match type of H2 with _ = (_, ?w) => set (wC := w) in H2 end.
  assert (forall q, fs wC !! String "t" q = None) as Hthemes.
  { intros q. unfold wC. cbn [fs set_writes set_fs].
    rewrite lookup_insert_ne.
    - rewrite Hframe1 by apply theme_path_outside_registry.
      rewrite HframeB by apply theme_path_outside_content.
      change (fs (after_banner this w0)) with (∅ : gmap string node). apply lookup_empty.
    - intros Heq. apply (theme_path_outside_registry this q). rewrite <- Heq.
      unfold registry_footprint. repeat constructor. }
  (* the template *)
  destruct (createHtmlFile_new this theme [] wC) as (wD & H3 & HfileD & HframeD & HwD & HaD).
  { apply Hthemes. }
  { cbn [Path.join]. rewrite append_cons. apply Hthemes. }
  { cbn [Path.join]. rewrite append_cons. apply unobstructed_fresh.
    intros x n Hx. by rewrite Hthemes in Hx. }
  { by apply dashes_no_slash, identifier_no_slash. }
  { unfold wC. cbn [answers set_writes set_fs]. by rewrite Ha1. }
  { exact Hb. }
  rewrite template_dir_join in HfileD, HframeD, HwD.
  rewrite (template_path_join (JsString.trim theme) this) in HfileD, HframeD, HwD.
  destruct (scaffold_ok this _ w0 wB wC wD H1 H2 H3) as (w' & Hrun & Hfs' & Hw' & Ha').
  assert (forall p q, p = String "q" q -> fs w' !! p = fs wC !! p) as Hquiqr.
  { intros p q ->. rewrite Hfs'. apply HframeD.
    - unfold template_dir. rewrite append_cons.
      by intros (x' & rest & Hx & _)%ancestors_prefix.
    - unfold template_path. by rewrite append_cons. }
  exists w'. split_and!.
  - unfold run, try_catch. by rewrite Hmain, Hrun.
  - rewrite (Hquiqr (content_path this) _ eq_refl). unfold wC. cbn [fs set_writes set_fs].
    rewrite lookup_insert_ne.
    + rewrite Hframe1 by apply content_path_outside_registry. exact HcB.
    + intros Heq. apply (content_path_outside_registry this). rewrite <- Heq.
      unfold registry_footprint. repeat constructor.
  - change (registry_file t) with (registry_file (fileType this)).
    rewrite <- (dynamicsFilePath_registry_file this).
    assert (exists q, dynamicsFilePath this = String "q" q) as [q Hq]
      by (unfold dynamicsFilePath; cbn [Path.join]; rewrite append_cons; eauto).
    rewrite (Hquiqr _ q Hq). unfold wC. cbn [fs set_writes set_fs]. apply lookup_insert_eq.
  - by rewrite Hfs'.
  - rewrite Hw', HwD. unfold wC. cbn [writes set_writes set_fs].
    rewrite Hw1, HwB. change (registry_file t) with (registry_file (fileType this)).
    rewrite <- (dynamicsFilePath_registry_file this). reflexivity.
  - by rewrite Ha', HaD.
Qed.

End Scenario.

(** ** Properties of whole runs *)

Section RunProperties.

Context `{Libraries}.

(** X28. The script never ends with an exception in flight: every run
    either completes normally or ends the process with exit code 0 or
    1. *)
Theorem run_exit_codes args w :
  (run args w).1 = Ok tt \/ (run args w).1 = Exit 0 \/ (run args w).1 = Exit 1.
Proof.
  pose proof (main_exits args w) as Hexit. unfold run, try_catch.
  destruct (main args w) as [[[]|e|c] w1]; simpl in *.
  - by left.
  - by right; right.
  - specialize (Hexit c eq_refl).
    apply elem_of_cons in Hexit as [->|Hexit]; [by right; left|].
    apply list_elem_of_singleton in Hexit as ->. by right; right.
Qed.

(** X29. [scaffold] catches whatever its steps throw.  It returns
    normally when its three steps do.  When a step throws, the steps
    after it are not run and the process ends with exit code 1, in the
    world the failing step left, with one more line on the console: the
    error line with the message of the exception that step threw. *)
Theorem scaffold_never_throws this w :
  (exists wB wC this' wD,
      createContentFile this (after_banner this w) = (Ok tt, wB)
      /\ updateDynamicsFile this wB = (Ok tt, wC)
      /\ createHtmlFile this wC = (Ok this', wD)
      /\ (scaffold this w).1 = Ok tt)
  \/ (exists e wE,
        (createContentFile this (after_banner this w) = (Throw e, wE)
         \/ (exists wB,
                createContentFile this (after_banner this w) = (Ok tt, wB)
                /\ (updateDynamicsFile this wB = (Throw e, wE)
                    \/ (exists wC,
                           updateDynamicsFile this wB = (Ok tt, wC)
                           /\ createHtmlFile this wC = (Throw e, wE)))))
        /\ scaffold this w
           = (Exit 1,
              set_console
                (fun c => c ++ [Stderr [AStr "❌ Error scaffolding content block:";
                                        AStr (exn_message e)]]) wE)).
Proof.
  remember (scaffold this w) as r eqn:Hr. unfold scaffold, try_catch in Hr.
  unfold bind at 1, Console.log at 1 in Hr. unfold bind at 1, Console.log at 1 in Hr.
  unfold bind at 1, Console.log at 1 in Hr. fold (after_banner this w) in Hr.
  destruct (createContentFile this (after_banner this w)) as [[[]|e|c] wB] eqn:H1.
  - rewrite (bind_ok _ _ _ _ _ H1) in Hr.
    destruct (updateDynamicsFile this wB) as [[[]|e|c] wC] eqn:H2.
    + rewrite (bind_ok _ _ _ _ _ H2) in Hr.
      destruct (createHtmlFile this wC) as [[this'|e|c] wD] eqn:H3.
      * left. exists wB, wC, this', wD. split_and!; [done..|].
        rewrite (bind_ok _ _ _ _ _ H3) in Hr. by subst r.
      * right. exists e, wD. rewrite (bind_throw _ _ _ _ _ H3) in Hr. split; [|by subst r].
        right. exists wB. split; [done|]. right. by exists wC.
      * pose proof (createHtmlFile_exits this wC c) as Hc. rewrite H3 in Hc.
        specialize (Hc eq_refl). by apply elem_of_nil in Hc.
    + right. exists e, wC. rewrite (bind_throw _ _ _ _ _ H2) in Hr. split; [|by subst r].
      right. exists wB. split; [done|]. by left.
    + pose proof (updateDynamicsFile_exits this wB c) as Hc. rewrite H2 in Hc.
      specialize (Hc eq_refl). by apply elem_of_nil in Hc.
  - right. exists e, wB. rewrite (bind_throw _ _ _ _ _ H1) in Hr. split; [by left|by subst r].
  - pose proof (createContentFile_exits this (after_banner this w) c) as Hc. rewrite H1 in Hc.
    specialize (Hc eq_refl). by apply elem_of_nil in Hc.
Qed.

(** X30. No run deletes anything: every directory is still a directory
    afterwards, every file is still a file, and the trace of writes is
    only extended. *)
Theorem run_loses_nothing args w :
  (forall p, fs w !! p = Some Dir -> fs (run args w).2 !! p = Some Dir)
  /\ (forall p content, fs w !! p = Some (File content) ->
        exists content', fs (run args w).2 !! p = Some (File content'))
  /\ writes w `prefix_of` writes (run args w).2.
Proof. apply run_kept. Qed.

End RunProperties.

(** ** Examples *)

Lemma upsert_preserves_key_uniqueness_example :
  let w := project [footer_record; old_hero_record] [Confirm true] in
  let w' := (@updateDynamicsFile example_libraries hero w).2 in
  (fs w' !! dynamicsFilePath hero = fs w !! dynamicsFilePath hero /\ writes w' = writes w)
  \/ (exists rs' text,
         NoDup (DynamicsData.key <$> rs')
         /\ @stringifyDynamicsData example_libraries hero (registry rs') = inr text
         /\ fs w' !! dynamicsFilePath hero = Some (File text)
         /\ writes w' = writes w ++ [(dynamicsFilePath hero, text)]).
Proof.
  apply (@upsert_preserves_key_uniqueness example_libraries hero
           (project [footer_record; old_hero_record] [Confirm true])
           [footer_record; old_hero_record]) with (r := Ok tt).
  - right. exists (registry_text [footer_record; old_hero_record]).
    split; vm_compute; reflexivity.
  - apply (bool_decide_unpack _). vm_compute. exact I.
  - vm_compute. reflexivity.
Defined.

Lemma upsert_on_empty_registry_example :
  exists w',
    @updateDynamicsFile example_libraries hero (empty_project [Confirm true]) = (Ok tt, w')
    /\ fs w' !! dynamicsFilePath hero = Some (File (registry_text [hero_record]))
    /\ writes w' = [(dynamicsFilePath hero, registry_text [hero_record])].
Proof.
  apply (@upsert_on_empty_registry example_libraries "hero_banner" (Some json)
           (empty_project [Confirm true]) hero (empty_project [Confirm true])).
  - reflexivity.
  - reflexivity.
  - left. split; reflexivity.
  - reflexivity.
  - intros _. vm_compute. reflexivity.
  - vm_compute. reflexivity.
Defined.

Lemma upsert_twice_example :
  let w := project [footer_record; old_hero_record] [Confirm true; Confirm true] in
  exists w1 w2 rs1 rs2 i,
    @updateDynamicsFile example_libraries hero w = (Ok tt, w1)
    /\ @updateDynamicsFile example_libraries hero w1 = (Ok tt, w2)
    /\ @registry_on_disk example_libraries hero w1 rs1
    /\ @registry_on_disk example_libraries hero w2 rs2
    /\ fs w2 !! dynamicsFilePath hero = fs w1 !! dynamicsFilePath hero
    /\ rs1 !! i = Some (newDynamicsData hero)
    /\ rs2 !! i = Some (newDynamicsData hero)
    /\ (forall j r, rs2 !! j = Some r ->
          DynamicsData.key r = DynamicsData.key (newDynamicsData hero) -> j = i).
Proof.
  apply (upsert_twice example_libraries (fun _ => "0") (fun _ => S754_zero false) hero
           (project [footer_record; old_hero_record] [Confirm true; Confirm true])
           [footer_record; old_hero_record] []).
  - right. exists (registry_text [footer_record; old_hero_record]).
    split; vm_compute; reflexivity.
  - intros _. vm_compute. reflexivity.
  - apply (bool_decide_unpack _). vm_compute. exact I.
  - reflexivity.
  - intros Hne. by destruct Hne.
Defined.

Lemma declined_overwrite_leaves_file_example :
  let w := project [footer_record; old_hero_record] [Confirm false] in
  exists w',
    @updateDynamicsFile example_libraries hero w = (Ok tt, w')
    /\ fs w' = fs w
    /\ fs w' !! dynamicsFilePath hero
       = Some (File (registry_text [footer_record; old_hero_record]))
    /\ writes w' = writes w.
Proof.
  apply (@declined_overwrite_leaves_file example_libraries hero
           (project [footer_record; old_hero_record] [Confirm false])
           (registry_text [footer_record; old_hero_record])
           [footer_record; old_hero_record]).
  - vm_compute. reflexivity.
  - vm_compute. reflexivity.
  - apply (bool_decide_unpack _). vm_compute. exact I.
  - reflexivity.
Defined.

Lemma upsert_frame_example :
  let w := project [footer_record; old_hero_record] [Confirm true] in
  exists rs',
    (forall text, @stringifyDynamicsData example_libraries hero (registry rs') = inr text ->
       exists w',
         @updateDynamicsFile example_libraries hero w = (Ok tt, w')
         /\ fs w' = <[dynamicsFilePath hero := File text]> (fs w)
         /\ writes w' = writes w ++ [(dynamicsFilePath hero, text)])
    /\ (DynamicsData.key (newDynamicsData hero)
          ∉ DynamicsData.key <$> [footer_record; old_hero_record] ->
          length rs' = 3
          /\ rs' !! 2 = Some (newDynamicsData hero)
          /\ forall j r, [footer_record; old_hero_record] !! j = Some r -> rs' !! j = Some r)
    /\ (forall i r,
          [footer_record; old_hero_record] !! i = Some r ->
          DynamicsData.key r = DynamicsData.key (newDynamicsData hero) ->
          (forall j r', j < i -> [footer_record; old_hero_record] !! j = Some r' ->
             DynamicsData.key r' <> DynamicsData.key (newDynamicsData hero)) ->
          length rs' = 2
          /\ rs' !! i = Some (newDynamicsData hero)
          /\ forall j, j <> i -> rs' !! j = [footer_record; old_hero_record] !! j).
Proof.
  apply (@upsert_frame example_libraries hero
           (project [footer_record; old_hero_record] [Confirm true])
           (registry_text [footer_record; old_hero_record])
           [footer_record; old_hero_record]).
  - vm_compute. reflexivity.
  - vm_compute. reflexivity.
  - reflexivity.
Defined.

Lemma toml_dynamics_field_is_not_coerced_example :
  @parseDynamicsFile example_libraries hero_toml stray_text (empty_project [])
  = (Ok (VString "not a list"), empty_project [])
  /\ @parseDynamicsFile example_libraries hero stray_text (empty_project [])
     = (Ok (VArray []), empty_project []).
Proof.
  assert (~ blank stray_text) as Hb by (unfold blank; vm_compute; discriminate).
  split.
  - pose proof (@toml_dynamics_field_is_not_coerced example_libraries hero_toml stray_text
                  stray_document (empty_project []) Hb eq_refl) as Hthm.
    exact (Hthm (VString "not a list") eq_refl).
  - exact (@toml_dynamics_field_is_not_coerced example_libraries hero stray_text
             stray_document (empty_project []) Hb eq_refl).
Defined.

Lemma hero_banner_scenario_example :
  exists w',
    @run example_libraries ["hero_banner"; "--type"; "json"]
         (empty_project [Confirm true; Text " mytheme "]) = (Ok tt, w')
    /\ fs w' !! "quiqr/model/partials/hero_banner.json" = Some (File hero_banner_content_json)
    /\ fs w' !! "quiqr/model/includes/dynamics.json" = Some (File hero_banner_dynamics_json)
    /\ fs w' !! "themes/mytheme/layouts/partials/content_blocks/hero-banner.html"
       = Some (File hero_banner_html).
Proof.
  destruct (hero_banner_scenario example_libraries (fun _ => "0") (fun _ => S754_zero false)
              " mytheme " eq_refl) as (w' & Hrun & Hc & Hr & Ht & _).
  exists w'. split_and!; [exact Hrun|exact Hc|exact Hr|exact Ht].
Defined.

Lemma tolerant_decode_example :
  @parseDynamicsFile example_libraries hero "  " (empty_project [])
  = (Ok (VArray []), empty_project [])
  /\ exists e,
       @parseDynamicsFile example_libraries hero garbage_text (empty_project [])
       = (Ok (VArray []),
          set_console (fun l => l ++ [@parse_error_entry hero e]) (empty_project [])).
Proof.
  destruct (@tolerant_decode example_libraries hero "  " (empty_project []))
    as (Hblank & _).
  destruct (@tolerant_decode example_libraries hero garbage_text (empty_project []))
    as (_ & Hfail & _).
  split; [by apply Hblank|].
  eexists. apply Hfail; [|reflexivity]. unfold blank. vm_compute. discriminate.
Defined.

Lemma format_auto_detection_example :
  exists this,
    @constructor "hero_banner" None two_registries = (Ok this, two_registries)
    /\ fileType this = toml.
Proof.
  destruct (format_auto_detection "hero_banner" two_registries)
    as (this & Hc & _ & Htoml & _).
  exists this. split; [exact Hc|]. apply Htoml. vm_compute. eauto.
Defined.

(** The projects of the examples are file tables as a file system has
    them. *)
Lemma example_projects_well_formed :
  well_formed (fs (project [footer_record; old_hero_record] [])) = true
  /\ well_formed (fs two_registries) = true
  /\ well_formed (fs garbage_project) = true
  /\ well_formed (fs stray_toml_project) = true
  /\ well_formed (fs stray_json_project) = true
  /\ well_formed (fs holed_project) = true
  /\ well_formed (fs edited_project) = true
  /\ well_formed (fs one_theme_project) = true
  /\ well_formed (fs (templated_project [])) = true
  /\ well_formed (fs (two_theme_project [])) = true
  /\ well_formed (fs (obstructed_project [])) = true.
Proof. split_and!; vm_compute; reflexivity. Qed.

(** Where a regular file is in the way of [quiqr/model/partials] the run
    fails in its first step: the process ends with exit code 1 after the
    error line of [mkdirSync], and no file is created or written. *)
Lemma obstructed_project_fails :
  let w := obstructed_project [Confirm true; Text "mytheme"] in
  let w' := (@run example_libraries ["hero_banner"; "--type"; "json"] w).2 in
  unobstructed w content_directory = false
  /\ (@run example_libraries ["hero_banner"; "--type"; "json"] w).1 = Exit 1
  /\ fs w' = fs w /\ writes w' = [] /\ answers w' = answers w
  /\ last (console w')
     = Some (Stderr [AStr "❌ Error scaffolding content block:";
                     AStr "ENOTDIR: not a directory, mkdir 'quiqr/model/partials'"]).
Proof. split_and!; vm_compute; reflexivity. Qed.

(** ** Examples of the further properties *)

Lemma parseArgs_reads_command_line_example :
  parseArgs ["-t"; "toml"; EmptyString; "hero_banner"; "--type"; "json"; "footer"]
            None None (empty_project [])
  = (Ok (Some "hero_banner", Some json), empty_project []).
Proof.
  apply (parseArgs_reads_command_line
           ["-t"; "toml"; EmptyString; "hero_banner"; "--type"; "json"; "footer"]
           (empty_project [])).
  apply (bool_decide_unpack _). vm_compute. exact I.
Defined.

Lemma invalid_type_flag_exits_example :
  @run example_libraries ["hero_banner"; "--type"; "xml"] (empty_project [Confirm true])
  = (Exit 1, set_console (fun c => c ++ [invalid_type_entry]) (empty_project [Confirm true])).
Proof.
  apply (@invalid_type_flag_exits example_libraries ["hero_banner"; "--type"; "xml"]
           (empty_project [Confirm true])).
  apply (bool_decide_unpack _). vm_compute. exact I.
Defined.

Lemma invalid_block_name_exits_example :
  @run example_libraries ["9lives"; "--type"; "json"] (empty_project [Confirm true])
  = (Exit 1, set_console (fun c => c ++ [invalid_name_entry]) (empty_project [Confirm true])).
Proof.
  apply (@invalid_block_name_exits example_libraries ["9lives"; "--type"; "json"] "9lives"
           (empty_project [Confirm true])).
  - apply (bool_decide_unpack _). vm_compute. exact I.
  - reflexivity.
  - discriminate.
  - reflexivity.
Defined.

Lemma cancelled_name_prompt_exits_example :
  @run example_libraries ["--type"; "json"] (empty_project [Text "9lives"; Cancel; Text "hero"])
  = (Exit 0, set_console (fun c => c ++ [Stdout [AStr "Operation cancelled"]])
               (after_name_prompt (empty_project [Text "9lives"; Cancel; Text "hero"]))).
Proof.
  apply (@cancelled_name_prompt_exits example_libraries ["--type"; "json"]
           (empty_project [Text "9lives"; Cancel; Text "hero"])).
  - apply (bool_decide_unpack _). vm_compute. exact I.
  - reflexivity.
  - reflexivity.
Defined.

Lemma prompted_name_as_argument_example :
  JsString.matches_identifier "hero_banner" = true
  /\ @run example_libraries ["-t"; "json"]
          (empty_project [Text "9lives"; Text "hero_banner"; Confirm true; Text "mytheme"])
     = @run example_libraries ["hero_banner"; "-t"; "json"]
            (after_name_prompt
               (empty_project [Text "9lives"; Text "hero_banner"; Confirm true; Text "mytheme"])).
Proof.
  apply (@prompted_name_as_argument example_libraries ["-t"; "json"]
           (empty_project [Text "9lives"; Text "hero_banner"; Confirm true; Text "mytheme"])
           "hero_banner").
  - apply (bool_decide_unpack _). vm_compute. exact I.
  - reflexivity.
  - reflexivity.
Defined.

Lemma declined_creation_changes_nothing_example :
  exists w',
    @updateDynamicsFile example_libraries hero (empty_project [Confirm false]) = (Ok tt, w')
    /\ fs w' = fs (empty_project [Confirm false])
    /\ writes w' = writes (empty_project [Confirm false])
    /\ answers w' = tail (answers (empty_project [Confirm false])).
Proof.
  apply (@declined_creation_changes_nothing example_libraries hero
           (empty_project [Confirm false])).
  - reflexivity.
  - reflexivity.
Defined.

Lemma unreadable_registry_is_replaced_example :
  exists w',
    @updateDynamicsFile example_libraries hero garbage_project = (Ok tt, w')
    /\ fs w' = <[dynamicsFilePath hero := File (registry_text [hero_record])]> (fs garbage_project)
    /\ writes w' = writes garbage_project ++ [(dynamicsFilePath hero, registry_text [hero_record])]
    /\ answers w' = answers garbage_project
    /\ @parse_error_entry hero garbage_error ∈ console w'.
Proof.
  apply (@unreadable_registry_is_replaced example_libraries hero garbage_project garbage_text
           garbage_error (registry_text [hero_record])).
  - reflexivity.
  - unfold blank. vm_compute. discriminate.
  - vm_compute. reflexivity.
  - vm_compute. reflexivity.
Defined.

Lemma document_that_is_no_list_is_replaced_example :
  exists w',
    @updateDynamicsFile example_libraries hero stray_json_project = (Ok tt, w')
    /\ fs w' = <[dynamicsFilePath hero := File (registry_text [hero_record])]>
                 (fs stray_json_project)
    /\ writes w'
       = writes stray_json_project ++ [(dynamicsFilePath hero, registry_text [hero_record])]
    /\ answers w' = answers stray_json_project.
Proof.
  apply (@document_that_is_no_list_is_replaced example_libraries hero stray_json_project
           stray_text stray_document (registry_text [hero_record])).
  - discriminate.
  - reflexivity.
  - unfold blank. vm_compute. discriminate.
  - vm_compute. reflexivity.
  - reflexivity.
  - vm_compute. reflexivity.
Defined.

Lemma registry_field_that_is_no_list_fails_example :
  @updateDynamicsFile example_libraries hero_toml stray_toml_project
  = (Throw (Exn "TypeError" "dynamicsArray.findIndex is not a function"), stray_toml_project).
Proof.
  apply (@registry_field_that_is_no_list_fails example_libraries hero_toml stray_toml_project
           stray_text stray_document (VString "not a list")).
  - reflexivity.
  - reflexivity.
  - unfold blank. vm_compute. discriminate.
  - vm_compute. reflexivity.
  - reflexivity.
  - reflexivity.
  - reflexivity.
Defined.

Lemma null_entry_fails_example :
  exists e w',
    @updateDynamicsFile example_libraries hero holed_project = (Throw e, w')
    /\ exn_name e = "TypeError"
    /\ fs w' = fs holed_project /\ writes w' = writes holed_project.
Proof.
  apply (@null_entry_fails example_libraries hero holed_project holed_text [footer_record] []).
  - reflexivity.
  - vm_compute. reflexivity.
  - apply (bool_decide_unpack _). vm_compute. exact I.
Defined.

Lemma replacing_keeps_duplicates_example :
  let w := project [old_hero_record; footer_record; old_hero_record] [Confirm true] in
  exists rs',
    length (with_key_of (newDynamicsData hero) rs')
    = length (with_key_of (newDynamicsData hero) [old_hero_record; footer_record; old_hero_record])
    /\ length rs' = length [old_hero_record; footer_record; old_hero_record]
    /\ forall text, @stringifyDynamicsData example_libraries hero (registry rs') = inr text ->
         exists w',
           @updateDynamicsFile example_libraries hero w = (Ok tt, w')
           /\ fs w' !! dynamicsFilePath hero = Some (File text).
Proof.
  apply (@replacing_keeps_duplicates example_libraries hero
           (project [old_hero_record; footer_record; old_hero_record] [Confirm true])
           (registry_text [old_hero_record; footer_record; old_hero_record])
           [old_hero_record; footer_record; old_hero_record]).
  - vm_compute. reflexivity.
  - vm_compute. reflexivity.
  - apply (bool_decide_unpack _). vm_compute. exact I.
  - reflexivity.
Defined.

Lemma block_names_share_a_key_example :
  let w := project [footer_record; hero_record] [Confirm true] in
  DynamicsData.key (block_record "hero_banner") = DynamicsData.key (block_record "herobanner")
  /\ (block_record "hero_banner" ∉ <[1 := block_record "herobanner"]> [footer_record; hero_record])
  /\ forall text,
       @stringifyDynamicsData example_libraries herobanner
         (registry (<[1 := block_record "herobanner"]> [footer_record; hero_record])) = inr text ->
       exists w',
         @updateDynamicsFile example_libraries herobanner w = (Ok tt, w')
         /\ fs w' !! dynamicsFilePath herobanner = Some (File text).
Proof.
  apply (@block_names_share_a_key example_libraries "hero_banner" "herobanner" (Some json)
           (project [footer_record; hero_record] [Confirm true]) herobanner
           (project [footer_record; hero_record] [Confirm true])
           (registry_text [footer_record; hero_record]) [footer_record; hero_record] 1).
  - reflexivity.
  - discriminate.
  - reflexivity.
  - vm_compute. reflexivity.
  - vm_compute. reflexivity.
  - apply (bool_decide_unpack _). vm_compute. exact I.
  - reflexivity.
  - reflexivity.
Defined.

Lemma template_names_are_distinct_example :
  blockNameWithDashes hero <> blockNameWithDashes herobanner
  /\ forall theme, template_path theme hero <> template_path theme herobanner.
Proof.
  apply (@template_names_are_distinct "hero_banner" "herobanner" (Some json) (Some json)
           (empty_project []) (empty_project []) hero herobanner
           (empty_project []) (empty_project [])).
  - reflexivity.
  - reflexivity.
  - reflexivity.
  - reflexivity.
  - discriminate.
Defined.

Lemma createContentFile_replaces_silently_example :
  exists w',
    @createContentFile example_libraries hero edited_project = (Ok tt, w')
    /\ fs w' !! content_path hero = Some (File hero_banner_content_json)
    /\ writes w' = writes edited_project ++ [(content_path hero, hero_banner_content_json)]
    /\ answers w' = answers edited_project
    /\ (forall p,
          p ∉ ["quiqr"; "quiqr/model"; "quiqr/model/partials"; content_path hero] ->
          fs w' !! p = fs edited_project !! p).
Proof.
  apply (@createContentFile_replaces_silently example_libraries hero edited_project
           hero_banner_content_json).
  - reflexivity.
  - vm_compute. reflexivity.
  - vm_compute. discriminate.
  - vm_compute. reflexivity.
Defined.

Lemma single_theme_is_used_example :
  getThemeDirectory one_theme_project
  = (Ok "mytheme",
     set_console (fun c => c ++ [Stdout [AStr ("📁 Using theme: " +:+ "mytheme")]])
       one_theme_project).
Proof.
  apply (single_theme_is_used one_theme_project "mytheme").
  - reflexivity.
  - intros name. split.
    + intros (Hne & Hslash & Hdir). apply elem_of_map_to_list in Hdir.
      compute_run Hentries (map_to_list (fs one_theme_project)).
      rewrite Hentries in Hdir. clear Hentries.
      cbv beta iota delta [String.append] in Hdir.
      repeat (apply elem_of_cons in Hdir as [Hdir|Hdir];
              [first [discriminate Hdir
                     |injection Hdir as ->; first [reflexivity|discriminate Hslash]]|]).
      by apply elem_of_nil in Hdir.
    + intros ->. split_and!; vm_compute; reflexivity.
Defined.

Lemma new_theme_name_is_fresh_example :
  ("fresh" ∉ ["mytheme"])
  /\ "fresh" <> EmptyString
  /\ exists typed,
       Text typed ∈ answers (empty_project [Text " mytheme "; Text "  "; Text " fresh "])
       /\ "fresh" = JsString.trim typed.
Proof.
  apply (new_theme_name_is_fresh "Enter new theme directory name:" ["mytheme"]
           (empty_project [Text " mytheme "; Text "  "; Text " fresh "]) "fresh"
           (askThemeName "Enter new theme directory name:" (validateNewThemeName ["mytheme"])
              (empty_project [Text " mytheme "; Text "  "; Text " fresh "])).2).
  vm_compute. reflexivity.
Defined.

Lemma declined_template_overwrite_example :
  exists w',
    createHtmlFile hero (templated_project [Confirm false])
    = (Ok (with_theme hero "mytheme"), w')
    /\ fs w' = fs (templated_project [Confirm false])
    /\ writes w' = writes (templated_project [Confirm false])
    /\ answers w' = tail (answers (getThemeDirectory (templated_project [Confirm false])).2).
Proof.
  apply (declined_template_overwrite hero (templated_project [Confirm false])
           (getThemeDirectory (templated_project [Confirm false])).2 "mytheme").
  - vm_compute. reflexivity.
  - reflexivity.
  - vm_compute. eauto.
  - vm_compute. eauto.
  - reflexivity.
Defined.

Lemma failed_template_step_keeps_files_example :
  let wB := (@createContentFile example_libraries hero
               (after_banner hero (empty_project [Confirm true]))).2 in
  let wC := (@updateDynamicsFile example_libraries hero wB).2 in
  exists w',
    @scaffold example_libraries hero (empty_project [Confirm true]) = (Exit 1, w')
    /\ fs w' = fs wC /\ writes w' = writes wC
    /\ last (console w')
       = Some (Stderr [AStr "❌ Error scaffolding content block:";
                       AStr "Theme name is required"]).
Proof.
  apply (@failed_template_step_keeps_files example_libraries hero (empty_project [Confirm true])
           (@createContentFile example_libraries hero
              (after_banner hero (empty_project [Confirm true]))).2
           (@updateDynamicsFile example_libraries hero
              (@createContentFile example_libraries hero
                 (after_banner hero (empty_project [Confirm true]))).2).2).
  - vm_compute. reflexivity.
  - vm_compute. reflexivity.
  - vm_compute. reflexivity.
  - vm_compute. reflexivity.
Defined.

Lemma summary_names_another_path_example :
  let w := empty_project [Confirm true; Text "mytheme"] in
  let wB := (@createContentFile example_libraries hero (after_banner hero w)).2 in
  let wC := (@updateDynamicsFile example_libraries hero wB).2 in
  exists theme w',
    @scaffold example_libraries hero w = (Ok tt, w')
    /\ selectedTheme (with_theme hero "mytheme") = Some theme
    /\ Stdout [AStr ("  • " +:+ listed_template_path theme hero)] ∈ console w'
    /\ listed_template_path theme hero <> template_path theme hero
    /\ (forall p content, (p, content) ∈ writes w' -> (p, content) ∉ writes wC ->
          p = template_path theme hero).
Proof.
  apply (@summary_names_another_path example_libraries hero (with_theme hero "mytheme")
           (empty_project [Confirm true; Text "mytheme"])
           (@createContentFile example_libraries hero
              (after_banner hero (empty_project [Confirm true; Text "mytheme"]))).2
           (@updateDynamicsFile example_libraries hero
              (@createContentFile example_libraries hero
                 (after_banner hero (empty_project [Confirm true; Text "mytheme"]))).2).2
           (createHtmlFile hero
              (@updateDynamicsFile example_libraries hero
                 (@createContentFile example_libraries hero
                    (after_banner hero (empty_project [Confirm true; Text "mytheme"]))).2).2).2).
  - vm_compute. reflexivity.
  - vm_compute. reflexivity.
  - vm_compute. reflexivity.
  - intros theme [= <-]. reflexivity.
  - reflexivity.
Defined.

Lemma created_registry_sets_the_format_example :
  exists w',
    @updateDynamicsFile example_libraries hero (empty_project [Confirm true]) = (Ok tt, w')
    /\ fs w' !! registry_file (fileType hero) = Some (File (registry_text [hero_record]))
    /\ detected w' = fileType hero
    /\ forall name, exists this',
         constructor name None w' = (Ok this', w') /\ fileType this' = fileType hero.
Proof.
  apply (@created_registry_sets_the_format example_libraries hero (empty_project [Confirm true])
           (registry_text [hero_record])).
  - intros t. apply lookup_empty.
  - vm_compute. reflexivity.
  - reflexivity.
  - vm_compute. reflexivity.
Defined.

Lemma getThemeDirectory_chooses_example :
  let w := two_theme_project [Select "__create_new__"; Text " alpha "; Text " gamma "] in
  "gamma" <> EmptyString
  /\ fs (getThemeDirectory w).2 = fs w /\ writes (getThemeDirectory w).2 = writes w
  /\ (theme_directory w "gamma"
      \/ (~ theme_directory w "gamma"
          /\ exists typed, Text typed ∈ answers w /\ "gamma" = JsString.trim typed)).
Proof.
  apply (getThemeDirectory_chooses
           (two_theme_project [Select "__create_new__"; Text " alpha "; Text " gamma "])
           "gamma"
           (getThemeDirectory
              (two_theme_project [Select "__create_new__"; Text " alpha "; Text " gamma "])).2).
  - vm_compute. reflexivity.
  - vm_compute. reflexivity.
Defined.

Lemma createHtmlFile_writes_the_template_only_example :
  let w := templated_project [Confirm true] in
  exists theme w1,
    getThemeDirectory w = (Ok theme, w1)
    /\ with_theme hero "mytheme" = with_theme hero theme
    /\ (writes (createHtmlFile hero w).2 = writes w
        \/ (writes (createHtmlFile hero w).2
            = writes w ++ [(template_path theme hero, htmlContent hero)]
            /\ fs (createHtmlFile hero w).2 !! template_path theme hero
               = Some (File (htmlContent hero)))).
Proof.
  apply (createHtmlFile_writes_the_template_only hero (templated_project [Confirm true])
           (with_theme hero "mytheme") (createHtmlFile hero (templated_project [Confirm true])).2).
  - vm_compute. reflexivity.
  - intros theme w1 Hg. vm_compute in Hg. injection Hg as <- _. reflexivity.
  - reflexivity.
Defined.

Lemma main_builds_the_scaffolder_example :
  @main example_libraries ["hero_banner"; "extra"] two_registries
  = @scaffold example_libraries
      (scaffolder_of "hero_banner"
         (default (detected two_registries)
                  (chosen_type (flag_values ["hero_banner"; "extra"]))))
      two_registries.
Proof.
  apply (@main_builds_the_scaffolder example_libraries ["hero_banner"; "extra"] "hero_banner"
           two_registries).
  - apply (bool_decide_unpack _). vm_compute. exact I.
  - reflexivity.
  - reflexivity.
Defined.

Lemma scaffold_on_empty_project_example :
  exists w',
    @run example_libraries ["footer_links"; "--type"; FileType_toString yaml]
         (empty_project [Confirm true; Text " mytheme "]) = (Ok tt, w')
    /\ fs w' !! content_path (scaffolder_of "footer_links" yaml)
       = Some (File hero_banner_content_json)
    /\ fs w' !! registry_file yaml
       = Some (File (text_of (@stringifyDynamicsData example_libraries
                                (scaffolder_of "footer_links" yaml)
                                (registry [block_record "footer_links"]))))
    /\ fs w' !! template_path (JsString.trim " mytheme ") (scaffolder_of "footer_links" yaml)
       = Some (File (htmlContent (scaffolder_of "footer_links" yaml)))
    /\ writes w'
       = [(content_path (scaffolder_of "footer_links" yaml), hero_banner_content_json);
          (registry_file yaml,
           text_of (@stringifyDynamicsData example_libraries
                      (scaffolder_of "footer_links" yaml)
                      (registry [block_record "footer_links"])));
          (template_path (JsString.trim " mytheme ") (scaffolder_of "footer_links" yaml),
           htmlContent (scaffolder_of "footer_links" yaml))]
    /\ answers w' = [].
Proof.
  apply (@scaffold_on_empty_project example_libraries "footer_links" yaml " mytheme "
           hero_banner_content_json
           (text_of (@stringifyDynamicsData example_libraries
                       (scaffolder_of "footer_links" yaml)
                       (registry [block_record "footer_links"])))).
  - reflexivity.
  - reflexivity.
  - vm_compute. reflexivity.
  - vm_compute. reflexivity.
Defined.
